(** * Clixon query pipeline: XPath 1.0 evaluator and get / get-config handler

    A shallow embedding of
      - lib/src/clixon_xpath_eval.c  (node tests, steps, predicates, operators,
        the recursive evaluator xp_eval), and
      - apps/backend/backend_get.c   (state data, with-defaults, list
        pagination, the common get / get-config procedure),
    together with the properties of the query pipeline that are checked
    against them.

    Conventions of the embedding
      - a C function returning 0 / -1 is a function into [result]: [Ok] is
        retval 0 (with the out-parameters), [Err] is retval -1, and [Crash]
        stands for a failed assert, a NULL dereference or any other undefined
        behaviour of the C program;
      - a [cxobj *] into an XML tree that is only read is a located node
        ([xnode]): the object together with the chain of its parents, so that
        xml_parent is total and the children's parent is the node itself;
      - a [cxobj *] into a tree that is rewritten is a path of child indices;
      - C doubles are the kernel's binary64 floats. *)

From Stdlib Require Import ZArith List String Ascii Bool Floats Uint63 Lia DecimalString.
Import ListNotations.
Local Open Scope string_scope.
Local Open Scope list_scope.
Local Open Scope Z_scope.

Set Implicit Arguments.
#[local] Set Warnings "-register-all".

(** ** Results of C calls *)

Inductive result (A : Type) : Type :=
| Ok (a : A)
| Err
| Crash.

Arguments Ok {A} a.
Arguments Err {A}.
Arguments Crash {A}.

Definition bind {A B : Type} (r : result A) (k : A -> result B) : result B :=
  match r with
  | Ok a => k a
  | Err => Err
  | Crash => Crash
  end.

Declare Scope result_scope.
Delimit Scope result_scope with result.
Notation "'do' x <- r ; k" := (bind r (fun x => k))
  (at level 10, x name, r at level 100, k at level 200) : result_scope.
Notation "'do' ' p <- r ; k" := (bind r (fun p => k))
  (at level 10, p pattern, r at level 100, k at level 200) : result_scope.
Local Open Scope result_scope.

Definition b2i (b : bool) : Z := if b then 1 else 0.

(** The one-character string holding a double quote. *)
Definition dquote : string := String (Ascii.ascii_of_nat 34) EmptyString.

(** C strcmp on two non-NULL strings, as the sign of the comparison. *)
Definition strcmp (s1 s2 : string) : Z :=
  match String.compare s1 s2 with
  | Eq => 0
  | Lt => -1
  | Gt => 1
  end.

Definition option_eqb {A : Type} (eqA : A -> A -> bool) (o1 o2 : option A) : bool :=
  match o1, o2 with
  | Some a, Some b => eqA a b
  | None, None => true
  | _, _ => false
  end.

(** ** Schema nodes (clixon_yang.h is not part of the covered source) *)

Inductive yang_keyword := Y_CONTAINER | Y_LEAF | Y_LEAF_LIST | Y_LIST | Y_NAMESPACE | Y_MODULE.

(** Modelled from the spec: the value cell (cg_var) of a schema node, missing
    from the source.  [cv_name] is what cv_name_get returns and [cv_str] what
    cv2str_dup prints, either of which may be NULL. *)
Record cg_var := { cv_name : option string; cv_str : option string }.

(** Modelled from the spec: a schema node "identifies a YANG statement with
    keyword, argument, default value (if any) and config true|false
    classification"; yang_stmt is missing from the source.  [ys_cv] is what
    yang_cv_get returns, [ys_config] what yang_config returns for the node
    and [ys_config_ancestor] what yang_config_ancestor returns. *)
Record yang_stmt := {
  ys_keyword : yang_keyword;
  ys_argument : string;
  ys_cv : option cg_var;
  ys_config : bool;
  ys_config_ancestor : bool
}.

Definition yang_keyword_eqb (k1 k2 : yang_keyword) : bool :=
  match k1, k2 with
  | Y_CONTAINER, Y_CONTAINER | Y_LEAF, Y_LEAF | Y_LEAF_LIST, Y_LEAF_LIST
  | Y_LIST, Y_LIST | Y_NAMESPACE, Y_NAMESPACE | Y_MODULE, Y_MODULE => true
  | _, _ => false
  end.

(** ** XML objects *)

Inductive cxobj_type := CX_ERROR | CX_ELMNT | CX_ATTR | CX_BODY.

Definition cxobj_type_eqb (t1 t2 : cxobj_type) : bool :=
  match t1, t2 with
  | CX_ERROR, CX_ERROR | CX_ELMNT, CX_ELMNT | CX_ATTR, CX_ATTR | CX_BODY, CX_BODY => true
  | _, _ => false
  end.

(** Modelled from the spec: "XML node: element, attribute, or text.
    Attributes: local name, optional prefix, optional text body, ordered child
    list, schema-node back-reference, mutable flag bitset, and attribute
    children distinguished by kind tag"; struct xml is missing from the
    source.  The parent back-reference is not stored: it is the located
    node's chain below. *)
Inductive cxobj : Type :=
  Cx (ty : cxobj_type) (name : string) (prefix : option string)
     (value : option string) (flags : Z) (spec : option yang_stmt)
     (childvec : list cxobj).

Definition x_type (x : cxobj) := let 'Cx t _ _ _ _ _ _ := x in t.
Definition x_name (x : cxobj) := let 'Cx _ n _ _ _ _ _ := x in n.
Definition x_prefix (x : cxobj) := let 'Cx _ _ p _ _ _ _ := x in p.
Definition x_value (x : cxobj) := let 'Cx _ _ _ v _ _ _ := x in v.
Definition x_flags (x : cxobj) := let 'Cx _ _ _ _ f _ _ := x in f.
Definition x_spec (x : cxobj) := let 'Cx _ _ _ _ _ s _ := x in s.
Definition x_childvec (x : cxobj) := let 'Cx _ _ _ _ _ _ c := x in c.

Definition is_type (t : cxobj_type) (x : cxobj) : bool := cxobj_type_eqb (x_type x) t.

(** Modelled from the spec: the "optional text body" of a node, held by its
    first text child; xml_body is missing from the source.  NULL when there
    is no text child. *)
Definition xml_body_of (x : cxobj) : option string :=
  match filter (is_type CX_BODY) (x_childvec x) with
  | [] => None
  | b :: _ => x_value b
  end.

(** Modelled from the spec: the xmlns and xmlns:p declarations an element
    carries as attribute children; for a NULL prefix the declaration looked
    for is xmlns, otherwise xmlns:p. *)
Definition is_xmlns_decl (prefix : option string) (a : cxobj) : bool :=
  is_type CX_ATTR a &&
  match prefix with
  | None => option_eqb String.eqb (x_prefix a) None && (x_name a =? "xmlns")%string
  | Some p => option_eqb String.eqb (x_prefix a) (Some "xmlns") && (x_name a =? p)%string
  end.

Definition xmlns_decl (x : cxobj) (prefix : option string) : option string :=
  match filter (is_xmlns_decl prefix) (x_childvec x) with
  | [] => None
  | a :: _ => x_value a
  end.

(** *** Located nodes: a [cxobj *] into a tree that is read *)

(** The object, and for each ancestor (nearest first) the ancestor object and
    the index of the child through which it was entered. *)
Record xnode := { xn_self : cxobj; xn_up : list (cxobj * nat) }.

(** Modelled from the spec: the accessors of the XML node (name, prefix, body,
    parent back-reference, ordered children); xml_name, xml_prefix, xml_body,
    xml_parent and xml_child_each are missing from the source. *)
Definition xml_name (x : xnode) : string := x_name (xn_self x).
Definition xml_prefix (x : xnode) : option string := x_prefix (xn_self x).
Definition xml_body (x : xnode) : option string := xml_body_of (xn_self x).

Definition xml_parent (x : xnode) : option xnode :=
  match xn_up x with
  | [] => None
  | (p, _) :: up => Some {| xn_self := p; xn_up := up |}
  end.

Fixpoint locate_children (parent : cxobj) (up : list (cxobj * nat)) (i : nat)
         (cs : list cxobj) : list xnode :=
  match cs with
  | [] => []
  | c :: cs' =>
      {| xn_self := c; xn_up := (parent, i) :: up |}
        :: locate_children parent up (S i) cs'
  end.

(** The nodes xml_child_each(x, _, type) runs through, in order. *)
Definition xml_child_each (x : xnode) (t : cxobj_type) : list xnode :=
  filter (fun c => is_type t (xn_self c))
         (locate_children (xn_self x) (xn_up x) 0%nat (x_childvec (xn_self x))).

(** Modelled from the spec: namespace resolution "walks ancestors collecting
    xmlns and xmlns:p declarations, nearest wins"; xml2ns is missing from the
    source.  It never returns -1 here. *)
Fixpoint xml2ns_walk (self : cxobj) (up : list (cxobj * nat)) (prefix : option string)
  : option string :=
  match xmlns_decl self prefix with
  | Some ns => Some ns
  | None =>
      match up with
      | [] => None
      | (p, _) :: up' => xml2ns_walk p up' prefix
      end
  end.

Definition xml2ns (x : xnode) (prefix : option string) : result (option string) :=
  Ok (xml2ns_walk (xn_self x) (xn_up x) prefix).

(** The root ancestor: "while (xml_parent(x) != NULL) x = xml_parent(x)". *)
Fixpoint root_walk (self : cxobj) (up : list (cxobj * nat)) : xnode :=
  match up with
  | [] => {| xn_self := self; xn_up := [] |}
  | (p, _) :: up' => root_walk p up'
  end.

Definition xml_root (x : xnode) : xnode := root_walk (xn_self x) (xn_up x).

(** ** Namespace contexts *)

(** Modelled from the spec: an ordered sequence of (prefix, URI) pairs in
    which the empty prefix denotes the default namespace, with
    lookup(prefix) -> URI option; cvec and xml_nsctx_get are missing from the
    source.  A NULL prefix asks for the default namespace. *)
Definition cvec := list (string * string).

Fixpoint cvec_find (nsc : cvec) (p : string) : option string :=
  match nsc with
  | [] => None
  | (q, uri) :: rest => if (q =? p)%string then Some uri else cvec_find rest p
  end.

Definition xml_nsctx_get (nsc : cvec) (prefix : option string) : option string :=
  cvec_find nsc (match prefix with Some p => p | None => "" end).

(** ** XPath syntax trees *)

Inductive xp_type :=
| XP_EXP | XP_AND | XP_RELEX | XP_ADD | XP_UNION | XP_PATHEXPR | XP_LOCPATH
| XP_ABSPATH | XP_RELLOCPATH | XP_STEP | XP_NODE | XP_NODE_FN | XP_PRED
| XP_PRI0 | XP_PRIME_NR | XP_PRIME_STR | XP_PRIME_FN.

Inductive axis_type :=
| A_NAN | A_ANCESTOR | A_ANCESTOR_OR_SELF | A_ATTRIBUTE | A_CHILD | A_DESCENDANT
| A_DESCENDANT_OR_SELF | A_FOLLOWING | A_FOLLOWING_SIBLING | A_NAMESPACE
| A_PARENT | A_PRECEEDING | A_PRECEEDING_SIBLING | A_SELF | A_ROOT.

Inductive xp_op :=
| XO_AND | XO_OR | XO_DIV | XO_MOD | XO_ADD | XO_MULT | XO_SUB
| XO_EQ | XO_NE | XO_GE | XO_LE | XO_LT | XO_GT | XO_UNION.

(** xs_int: "an integer discriminant (axis for Step, operator for
    And|RelEx|Add|Union)".  The numbering of the two enums is not in the
    source, so the discriminant is kept symbolic. *)
Inductive xs_discr :=
| D_axis (a : axis_type)
| D_op (o : xp_op).

Inductive xpath_tree : Type :=
  XS (xs_type : xp_type) (xs_int : xs_discr) (xs_double : float)
     (xs_s0 xs_s1 : option string) (xs_c0 xs_c1 : option xpath_tree).

Definition xs_type (xs : xpath_tree) := let 'XS t _ _ _ _ _ _ := xs in t.
Definition xs_int (xs : xpath_tree) := let 'XS _ i _ _ _ _ _ := xs in i.
Definition xs_double (xs : xpath_tree) := let 'XS _ _ d _ _ _ _ := xs in d.
Definition xs_s0 (xs : xpath_tree) := let 'XS _ _ _ s _ _ _ := xs in s.
Definition xs_s1 (xs : xpath_tree) := let 'XS _ _ _ _ s _ _ := xs in s.
Definition xs_c0 (xs : xpath_tree) := let 'XS _ _ _ _ _ c _ := xs in c.
Definition xs_c1 (xs : xpath_tree) := let 'XS _ _ _ _ _ _ c := xs in c.

Definition is_axis (a : axis_type) (d : xs_discr) : bool :=
  match d, a with
  | D_axis A_NAN, A_NAN | D_axis A_ANCESTOR, A_ANCESTOR
  | D_axis A_ANCESTOR_OR_SELF, A_ANCESTOR_OR_SELF | D_axis A_ATTRIBUTE, A_ATTRIBUTE
  | D_axis A_CHILD, A_CHILD | D_axis A_DESCENDANT, A_DESCENDANT
  | D_axis A_DESCENDANT_OR_SELF, A_DESCENDANT_OR_SELF | D_axis A_FOLLOWING, A_FOLLOWING
  | D_axis A_FOLLOWING_SIBLING, A_FOLLOWING_SIBLING | D_axis A_NAMESPACE, A_NAMESPACE
  | D_axis A_PARENT, A_PARENT | D_axis A_PRECEEDING, A_PRECEEDING
  | D_axis A_PRECEEDING_SIBLING, A_PRECEEDING_SIBLING | D_axis A_SELF, A_SELF
  | D_axis A_ROOT, A_ROOT => true
  | _, _ => false
  end.

(** ** Node tests (clixon_xpath_eval.c, nodetest_eval_node and nodetest_eval) *)

(** Returns the C retval: 1 match, 0 no match, -1 error. *)
Definition nodetest_eval_node (x : xnode) (xs : xpath_tree) (nsc : option cvec) : result Z :=
  let name1 := xml_name x in
  let prefix1 := xml_prefix x in
  match xs_s1 xs with
  | None => Crash (* strcmp(NULL, "*") *)
  | Some s1 =>
      if strcmp s1 "*" =? 0 then Ok 1
      else
        match xml2ns x prefix1 with
        | Err => Ok (-1)
        | Crash => Crash
        | Ok nsxml =>
            let prefix2 := xs_s0 xs in
            let name2 := s1 in
            if negb (strcmp name1 name2 =? 0) then Ok 0
            else
              match nsc with
              | Some ctx =>
                  let nsxpath := xml_nsctx_get ctx prefix2 in
                  match nsxml, nsxpath with
                  | Some u1, Some u2 => Ok (b2i (strcmp u1 u2 =? 0))
                  | None, None => Ok 1
                  | _, _ => Ok 0
                  end
              | None =>
                  match prefix1, prefix2 with
                  | None, None => Ok 1
                  | None, Some _ | Some _, None => Ok 0
                  | Some p1, Some p2 => Ok (b2i (strcmp p1 p2 =? 0))
                  end
              end
        end
  end.

Definition nodetest_eval (x : xnode) (xs : xpath_tree) (nsc : option cvec) : result Z :=
  match xs_type xs with
  | XP_NODE => nodetest_eval_node x xs nsc
  | XP_NODE_FN =>
      match xs_s0 xs with
      | None => Crash (* strcmp(NULL, "node") *)
      | Some fn =>
          if strcmp fn "node" =? 0 then Ok 1
          else if strcmp fn "text" =? 0 then Ok 1
          else Ok 0
      end
  | _ => Ok 0
  end.

(** ** Evaluation contexts (clixon_xpath_ctx.h is not part of the covered source) *)

Inductive xp_objtype := XT_NODESET | XT_BOOL | XT_NUMBER | XT_STRING.

Definition xp_objtype_eqb (t1 t2 : xp_objtype) : bool :=
  match t1, t2 with
  | XT_NODESET, XT_NODESET | XT_BOOL, XT_BOOL | XT_NUMBER, XT_NUMBER
  | XT_STRING, XT_STRING => true
  | _, _ => false
  end.

(** Modelled from the spec: "{initial_node, current_node, node_set[],
    descendant: bool, result_kind, numeric_value, boolean_value,
    string_value}"; struct xp_ctx is missing from the source.  [xc_nodeset]
    stands for the array with its xc_size; the empty node-set is the NULL
    array. *)
Record xp_ctx := {
  xc_type : xp_objtype;
  xc_nodeset : list xnode;
  xc_bool : Z;
  xc_number : float;
  xc_string : option string;
  xc_node : option xnode;
  xc_initial : option xnode;
  xc_descendant : bool
}.

(** malloc, memset 0, then the type and the initial node. *)
Definition ctx_new (t : xp_objtype) (initial : option xnode) : xp_ctx :=
  {| xc_type := t; xc_nodeset := []; xc_bool := 0; xc_number := 0%float;
     xc_string := None; xc_node := None; xc_initial := initial;
     xc_descendant := false |}.

Definition set_nodeset (xc : xp_ctx) (vec : list xnode) : xp_ctx :=
  {| xc_type := xc_type xc; xc_nodeset := vec; xc_bool := xc_bool xc;
     xc_number := xc_number xc; xc_string := xc_string xc; xc_node := xc_node xc;
     xc_initial := xc_initial xc; xc_descendant := xc_descendant xc |}.

Definition set_node (xc : xp_ctx) (x : option xnode) : xp_ctx :=
  {| xc_type := xc_type xc; xc_nodeset := xc_nodeset xc; xc_bool := xc_bool xc;
     xc_number := xc_number xc; xc_string := xc_string xc; xc_node := x;
     xc_initial := xc_initial xc; xc_descendant := xc_descendant xc |}.

Definition set_descendant (xc : xp_ctx) (b : bool) : xp_ctx :=
  {| xc_type := xc_type xc; xc_nodeset := xc_nodeset xc; xc_bool := xc_bool xc;
     xc_number := xc_number xc; xc_string := xc_string xc; xc_node := xc_node xc;
     xc_initial := xc_initial xc; xc_descendant := b |}.

Definition set_bool (xc : xp_ctx) (b : Z) : xp_ctx :=
  {| xc_type := xc_type xc; xc_nodeset := xc_nodeset xc; xc_bool := b;
     xc_number := xc_number xc; xc_string := xc_string xc; xc_node := xc_node xc;
     xc_initial := xc_initial xc; xc_descendant := xc_descendant xc |}.

Definition set_number (xc : xp_ctx) (n : float) : xp_ctx :=
  {| xc_type := xc_type xc; xc_nodeset := xc_nodeset xc; xc_bool := xc_bool xc;
     xc_number := n; xc_string := xc_string xc; xc_node := xc_node xc;
     xc_initial := xc_initial xc; xc_descendant := xc_descendant xc |}.

Definition set_string (xc : xp_ctx) (s : option string) : xp_ctx :=
  {| xc_type := xc_type xc; xc_nodeset := xc_nodeset xc; xc_bool := xc_bool xc;
     xc_number := xc_number xc; xc_string := s; xc_node := xc_node xc;
     xc_initial := xc_initial xc; xc_descendant := xc_descendant xc |}.

(** Modelled from the spec: "dup() produces an independent copy (node-set
    slice copied)"; ctx_dup is missing from the source.  Contexts are values
    here, so the copy is the value. *)
Definition ctx_dup (xc : xp_ctx) : xp_ctx := xc.

(** Modelled from the spec: the context xpath evaluation starts from at a
    node: that node as initial node, current node and only member of the
    node-set; xpath_vec is missing from the source. *)
Definition ctx_init (x : xnode) : xp_ctx :=
  set_node (set_nodeset (ctx_new XT_NODESET (Some x)) [x]) (Some x).

(** *** C doubles and ints *)

Definition INT_MIN : Z := -2147483648.
Definition INT_MAX : Z := 2147483647.

(** The value of a finite double with its fraction discarded. *)
Definition double_trunc (d : float) : option Z :=
  match Prim2SF d with
  | S754_zero _ => Some 0
  | S754_finite s m e =>
      let a := if 0 <=? e then Z.pos m * 2 ^ e else Z.pos m / 2 ^ (- e) in
      Some (if s then - a else a)
  | S754_infinity _ | S754_nan => None
  end.

(** The cast (int)d: undefined for NaN, infinities and values outside int. *)
Definition double2int (d : float) : result Z :=
  match double_trunc d with
  | Some z => if (INT_MIN <=? z) && (z <=? INT_MAX) then Ok z else Crash
  | None => Crash
  end.

(** The conversion of an int to double (exact). *)
Definition int2double (z : Z) : float :=
  if z <? 0 then PrimFloat.opp (PrimFloat.of_uint63 (Uint63.of_Z (- z)))
  else PrimFloat.of_uint63 (Uint63.of_Z z).

(** a % b on ints: undefined for b = 0 and for INT_MIN % -1. *)
Definition int_mod (a b : Z) : result Z :=
  if b =? 0 then Crash
  else if (a =? INT_MIN) && (b =? -1) then Crash
  else Ok (Z.rem a b).

Section Evaluator.

(** sscanf(s, "%lf", &d) == 1 with the double read, taken as a parameter:
    [None] when no number could be read. *)
Variable sscanf_lf : string -> option float.

Definition str2double (s : string) : float :=
  match sscanf_lf s with
  | Some d => d
  | None => nan
  end.

(** Modelled from the spec: "to_boolean rules (W3C XPath 1.0 4.3): node-set ->
    non-empty; string -> non-empty; number -> not 0 and not NaN"; ctx2boolean
    is missing from the source. *)
Definition ctx2boolean (xc : xp_ctx) : Z :=
  match xc_type xc with
  | XT_NODESET => match xc_nodeset xc with [] => 0 | _ :: _ => 1 end
  | XT_BOOL => xc_bool xc
  | XT_NUMBER =>
      b2i (negb (PrimFloat.eqb (xc_number xc) 0%float) && negb (PrimFloat.is_nan (xc_number xc)))
  | XT_STRING =>
      match xc_string xc with
      | None | Some EmptyString => 0
      | Some _ => 1
      end
  end.

(** Modelled from the spec: "to_number: string parsed as IEEE double, NaN on
    failure; node-set -> first-node body parsed"; ctx2number is missing from
    the source.  A boolean converts to 1 or 0 (W3C XPath 1.0 4.4), a number
    to itself. *)
Definition ctx2number (xc : xp_ctx) : result float :=
  match xc_type xc with
  | XT_NODESET =>
      match xc_nodeset xc with
      | [] => Ok nan
      | x :: _ =>
          match xml_body x with
          | None => Ok nan
          | Some s => Ok (str2double s)
          end
      end
  | XT_BOOL => Ok (if xc_bool xc =? 0 then 0%float else 1%float)
  | XT_NUMBER => Ok (xc_number xc)
  | XT_STRING =>
      match xc_string xc with
      | None => Ok nan
      | Some s => Ok (str2double s)
      end
  end.

(** *** nodetest_recursive *)

Definition xml_flag_of (x : cxobj) (flag : Z) : Z := Z.land (x_flags x) flag.

Definition nodetest_eval_opt (x : xnode) (nodetest : option xpath_tree) (nsc : option cvec)
  : result Z :=
  match nodetest with
  | None => Crash (* nodetest->xs_type on NULL *)
  | Some nt => nodetest_eval x nt nsc
  end.

Fixpoint nodetest_recursive_at (self : cxobj) (up : list (cxobj * nat))
         (nodetest : option xpath_tree) (node_type : cxobj_type) (flags : Z)
         (nsc : option cvec) (vec0 : list xnode) {struct self} : result (list xnode) :=
  match self with
  | Cx _ _ _ _ _ _ children =>
      (fix each (cs : list cxobj) (i : nat) (vec : list xnode) {struct cs}
         : result (list xnode) :=
         match cs with
         | [] => Ok vec
         | c :: cs' =>
             if is_type node_type c then
               let xsub := {| xn_self := c; xn_up := (self, i) :: up |} in
               do r <- nodetest_eval_opt xsub nodetest nsc;
               let vec1 :=
                 if (r =? 1) && ((flags =? 0) || negb (xml_flag_of c flags =? 0))
                 then vec ++ [xsub] else vec in
               do vec2 <- nodetest_recursive_at c ((self, i) :: up) nodetest node_type
                            flags nsc vec1;
               each cs' (S i) vec2
             else each cs' (S i) vec
         end) children 0%nat vec0
  end.

Definition nodetest_recursive (xn : xnode) (nodetest : option xpath_tree)
           (node_type : cxobj_type) (flags : Z) (nsc : option cvec) (vec0 : list xnode)
  : result (list xnode) :=
  nodetest_recursive_at (xn_self xn) (xn_up xn) nodetest node_type flags nsc vec0.

(** "for (i=0; i<size; i++) body(nodeset[i])" threading the vector. *)
Fixpoint for_each_node (body : xnode -> list xnode -> result (list xnode))
         (nodes : list xnode) (vec : list xnode) : result (list xnode) :=
  match nodes with
  | [] => Ok vec
  | xv :: rest => do vec' <- body xv vec; for_each_node body rest vec'
  end.

(** *** xp_eval_step *)

(** [eval_c1] is xp_eval on xs->xs_c1 when that child exists; it returns the
    context it was given, as left by the call, and the result context. *)
Definition evaluation := xp_ctx -> result (xp_ctx * xp_ctx).

Definition child_step (nodetest : option xpath_tree) (nsc : option cvec)
           (xv : xnode) (vec : list xnode) : result (list xnode) :=
  for_each_node
    (fun x vec =>
       do r <- nodetest_eval_opt x nodetest nsc;
       Ok (if r =? 1 then vec ++ [x] else vec))
    (xml_child_each xv CX_ELMNT) vec.

Definition is_current_fn (nodetest : xpath_tree) : bool :=
  match xs_type nodetest, xs_s0 nodetest with
  | XP_NODE_FN, Some fn => strcmp fn "current" =? 0
  | _, _ => false
  end.

Definition xp_eval_step (eval_c1 : option evaluation) (xc0 : xp_ctx)
           (axis : xs_discr) (nodetest : option xpath_tree) (nsc : option cvec)
  : result xp_ctx :=
  let xc := ctx_dup xc0 in
  do xc <-
    match axis with
    | D_axis A_ANCESTOR | D_axis A_ANCESTOR_OR_SELF | D_axis A_ATTRIBUTE => Ok xc
    | D_axis A_CHILD =>
        if xc_descendant xc then
          do vec <- for_each_node
                      (fun xv vec => nodetest_recursive xv nodetest CX_ELMNT 0 nsc vec)
                      (xc_nodeset xc) [];
          Ok (set_nodeset (set_descendant xc false) vec)
        else
          match nodetest with
          | None => Crash (* nodetest->xs_type on NULL *)
          | Some nt =>
              if is_current_fn nt then
                match xc_initial xc with
                | Some x0 => Ok (set_nodeset xc [x0])
                | None => Crash (* a NULL entry in the node-set *)
                end
              else
                do vec <- for_each_node (child_step nodetest nsc) (xc_nodeset xc) [];
                Ok (set_nodeset xc vec)
          end
    | D_axis A_DESCENDANT | D_axis A_DESCENDANT_OR_SELF =>
        do vec <- for_each_node
                    (fun xv vec => nodetest_recursive xv nodetest CX_ELMNT 0 nsc vec)
                    (xc_nodeset xc) [];
        Ok (set_nodeset xc vec)
    | D_axis A_FOLLOWING | D_axis A_FOLLOWING_SIBLING | D_axis A_NAMESPACE => Ok xc
    | D_axis A_PARENT =>
        Ok (set_nodeset xc
              (flat_map (fun x => match xml_parent x with Some xp => [xp] | None => [] end)
                        (xc_nodeset xc)))
    | D_axis A_PRECEEDING | D_axis A_PRECEEDING_SIBLING | D_axis A_SELF => Ok xc
    | D_axis A_NAN | D_axis A_ROOT | D_op _ => Err (* No such axisname *)
    end;
  match eval_c1 with
  | Some ev => do '(_, xr) <- ev xc; Ok xr
  | None => Ok xc
  end.

(** *** xp_eval_predicate *)

(** The loop over the node-set to be filtered: [i] is the loop index, [vec]
    the node-set of xr1 built so far. *)
Fixpoint predicate_loop (eval_c1 : evaluation) (initial : option xnode)
         (nodes : list xnode) (i : Z) (vec : list xnode) : result (list xnode) :=
  match nodes with
  | [] => Ok vec
  | x :: rest =>
      let xcc := set_node (set_nodeset (ctx_new XT_NODESET initial) [x]) (Some x) in
      do '(_, xrc) <- eval_c1 xcc;
      do vec' <-
        match xc_type xrc with
        | XT_NUMBER =>
            do n <- double2int (xc_number xrc);
            Ok (if n =? i then vec ++ [x] else vec)
        | _ => Ok (if negb (ctx2boolean xrc =? 0) then vec ++ [x] else vec)
        end;
      predicate_loop eval_c1 initial rest (i + 1) vec'
  end.

Definition xp_eval_predicate (eval_c0 eval_c1 : option evaluation) (xc : xp_ctx)
  : result (xp_ctx * xp_ctx) :=
  do '(xc, xr0) <-
    match eval_c0 with
    | None => Ok (xc, ctx_dup xc)
    | Some ev => ev xc
    end;
  match eval_c1 with
  | None => Ok (xc, xr0)
  | Some ev =>
      if negb (xp_objtype_eqb (xc_type xr0) XT_NODESET) then Crash (* assert *)
      else
        let xr1 := set_node (ctx_new XT_NODESET (xc_initial xc)) (xc_node xc) in
        do vec <- predicate_loop ev (xc_initial xc) (xc_nodeset xr0) 0 [];
        Ok (xc, set_nodeset xr1 vec)
  end.

(** *** Operators *)

Definition discr_op (d : xs_discr) : option xp_op :=
  match d with
  | D_op o => Some o
  | D_axis _ => None
  end.

Definition xp_logop (xc1 xc2 : xp_ctx) (op : xs_discr) : result xp_ctx :=
  let xr := ctx_new XT_BOOL (xc_initial xc1) in
  let b1 := ctx2boolean xc1 in
  if b1 <? 0 then Err else
  let b2 := ctx2boolean xc2 in
  if b2 <? 0 then Err else
  match op with
  | D_op XO_AND => Ok (set_bool xr (b2i (negb (b1 =? 0) && negb (b2 =? 0))))
  | D_op XO_OR => Ok (set_bool xr (b2i (negb (b1 =? 0) || negb (b2 =? 0))))
  | _ => Err (* Invalid operator in this context *)
  end.

Definition xp_numop (xc1 xc2 : xp_ctx) (op : xs_discr) : result xp_ctx :=
  let xr := ctx_new XT_NUMBER (xc_initial xc1) in
  do n1 <- ctx2number xc1;
  do n2 <- ctx2number xc2;
  if PrimFloat.is_nan n1 || PrimFloat.is_nan n2 then Ok (set_number xr nan)
  else
    match op with
    | D_op XO_DIV => Ok (set_number xr (PrimFloat.div n1 n2))
    | D_op XO_MOD =>
        do i1 <- double2int n1;
        do i2 <- double2int n2;
        do r <- int_mod i1 i2;
        Ok (set_number xr (int2double r))
    | D_op XO_ADD => Ok (set_number xr (PrimFloat.add n1 n2))
    | D_op XO_MULT => Ok (set_number xr (PrimFloat.mul n1 n2))
    | D_op XO_SUB => Ok (set_number xr (PrimFloat.sub n1 n2))
    | _ => Err (* Invalid operator in this context *)
    end.

(** How a scan of node pairs in xp_relop ends: the loop ran out with
    xc_bool as given, or control left through "goto ok". *)
Inductive scan := Scanned (b : Z) | GotoOk (b : Z).

Definition relop_strcmp (op : xs_discr) (s1 s2 : string) : result Z :=
  match op with
  | D_op XO_EQ => Ok (b2i (strcmp s1 s2 =? 0))
  | D_op XO_NE => Ok (b2i (negb (strcmp s1 s2 =? 0)))
  | D_op XO_GE => Ok (b2i (strcmp s1 s2 >=? 0))
  | D_op XO_LE => Ok (b2i (strcmp s1 s2 <=? 0))
  | D_op XO_LT => Ok (b2i (strcmp s1 s2 <? 0))
  | D_op XO_GT => Ok (b2i (strcmp s1 s2 >? 0))
  | _ => Err (* not supported for nodeset/nodeset comparison *)
  end.

(** The inner loop over the second node-set; [b] is xr->xc_bool on entry. *)
Fixpoint relop_nodesets_inner (op : xs_discr) (s1 : string) (l2 : list xnode) (b : Z)
  : result scan :=
  match l2 with
  | [] => Ok (Scanned b)
  | x2 :: rest =>
      match xml_body x2 with
      | None => Ok (GotoOk 0)
      | Some s2 =>
          do b' <- relop_strcmp op s1 s2;
          if negb (b' =? 0) then Ok (Scanned b')
          else relop_nodesets_inner op s1 rest b'
      end
  end.

Fixpoint relop_nodesets (op : xs_discr) (l1 l2 : list xnode) (b : Z) : result Z :=
  match l1 with
  | [] => Ok b
  | x1 :: rest =>
      match xml_body x1 with
      | None => Ok 0
      | Some s1 =>
          do r <- relop_nodesets_inner op s1 l2 b;
          match r with
          | GotoOk b' => Ok b'
          | Scanned b' => if negb (b' =? 0) then Ok b' else relop_nodesets op rest l2 b'
          end
      end
  end.

(** Node-set against a string: xc_bool after the loop over the node-set. *)
Fixpoint relop_nodeset_string (op : xs_discr) (l1 : list xnode) (s2 : option string) (b : Z)
  : result Z :=
  match l1 with
  | [] => Ok b
  | x :: rest =>
      let s1 := xml_body x in
      do b' <-
        match op with
        | D_op XO_EQ =>
            match s1, s2 with
            | Some a, Some c => Ok (b2i (strcmp a c =? 0))
            | None, None => Ok 1
            | _, _ => Ok 0
            end
        | D_op XO_NE =>
            match s1, s2 with
            | Some a, Some c => Ok (strcmp a c)
            | None, None => Ok 0
            | _, _ => Ok 1
            end
        | _ => Err (* not supported for nodeset and string *)
        end;
      if negb (b' =? 0) then Ok b' else relop_nodeset_string op rest s2 b'
  end.

Definition relop_number (op : xs_discr) (reverse : bool) (n1 n2 : float) : result Z :=
  match op with
  | D_op XO_EQ => Ok (b2i (PrimFloat.eqb n1 n2))
  | D_op XO_NE => Ok (b2i (negb (PrimFloat.eqb n1 n2)))
  | D_op XO_GE => Ok (b2i (if reverse then PrimFloat.leb n1 n2 else PrimFloat.leb n2 n1))
  | D_op XO_LE => Ok (b2i (if reverse then PrimFloat.leb n2 n1 else PrimFloat.leb n1 n2))
  | D_op XO_LT => Ok (b2i (if reverse then PrimFloat.ltb n2 n1 else PrimFloat.ltb n1 n2))
  | D_op XO_GT => Ok (b2i (if reverse then PrimFloat.ltb n1 n2 else PrimFloat.ltb n2 n1))
  | _ => Err (* not supported for nodeset and number *)
  end.

(** Node-set against a number: xc_bool after the loop over the node-set. *)
Fixpoint relop_nodeset_number (op : xs_discr) (reverse : bool) (l1 : list xnode)
         (n2 : float) (b : Z) : result Z :=
  match l1 with
  | [] => Ok b
  | x :: rest =>
      match xml_body x with
      | None => Crash (* sscanf(NULL, ...) *)
      | Some s =>
          do b' <- relop_number op reverse (str2double s) n2;
          if negb (b' =? 0) then Ok b' else relop_nodeset_number op reverse rest n2 b'
      end
  end.

Definition xp_relop (xc1 xc2 : xp_ctx) (op : xs_discr) : result xp_ctx :=
  let xr := ctx_new XT_BOOL (xc_initial xc1) in
  do b <-
    (if xp_objtype_eqb (xc_type xc1) (xc_type xc2) then
       match xc_type xc1 with
       | XT_NODESET => relop_nodesets op (xc_nodeset xc1) (xc_nodeset xc2) 0
       | XT_BOOL => Ok (b2i (xc_bool xc1 =? xc_bool xc2))
       | XT_NUMBER => Ok (b2i (PrimFloat.eqb (xc_number xc1) (xc_number xc2)))
       | XT_STRING =>
           match xc_string xc1, xc_string xc2 with
           | Some s1, Some s2 => Ok (b2i (strcmp s1 s2 =? 0))
           | _, _ => Crash (* strcmp on NULL *)
           end
       end
     else if negb (xp_objtype_eqb (xc_type xc1) XT_NODESET)
             && negb (xp_objtype_eqb (xc_type xc2) XT_NODESET)
     then Err (* Mixed types not supported *)
     else
       let reverse := xp_objtype_eqb (xc_type xc2) XT_NODESET in
       let '(xc1, xc2) := if reverse then (xc2, xc1) else (xc1, xc2) in
       match xc_type xc2 with
       | XT_BOOL =>
           let b := ctx2boolean xc1 in
           match op with
           | D_op XO_EQ => Ok (b2i (b =? xc_bool xc2))
           | D_op XO_NE => Ok (b2i (negb (b =? xc_bool xc2)))
           | _ => Err (* not supported for nodeset and bool *)
           end
       | XT_STRING => relop_nodeset_string op (xc_nodeset xc1) (xc_string xc2) 0
       | XT_NUMBER => relop_nodeset_number op reverse (xc_nodeset xc1) (xc_number xc2) 0
       | XT_NODESET => Ok 0 (* clicon_err without goto done *)
       end);
  Ok (set_bool xr (if negb (b =? 0) then 1 else b)).

Definition xp_union (xc1 xc2 : xp_ctx) (op : xs_discr) : result xp_ctx :=
  match op with
  | D_op XO_UNION =>
      Ok (set_nodeset (ctx_new XT_NODESET (xc_initial xc1))
                      (xc_nodeset xc1 ++ xc_nodeset xc2))
  | _ => Err (* Invalid operator in this context *)
  end.

(** *** xp_eval *)

(** Pre-actions of XP_RELLOCPATH and XP_ABSPATH (the other kinds have none). *)
Definition xp_eval_pre (ty : xp_type) (d : xs_discr) (xc : xp_ctx) : result xp_ctx :=
  match ty with
  | XP_RELLOCPATH =>
      Ok (if is_axis A_DESCENDANT_OR_SELF d then set_descendant xc true else xc)
  | XP_ABSPATH =>
      match xc_node xc with
      | None => Crash (* xml_parent(NULL) *)
      | Some x0 =>
          let x := xml_root x0 in
          let xc := set_node xc (Some x) in
          match xc_nodeset xc with
          | [] => Crash (* xc_nodeset[0] of the NULL array *)
          | _ :: _ =>
              let xc := set_nodeset xc [x] in
              Ok (if is_axis A_DESCENDANT_OR_SELF d then set_descendant xc true else xc)
          end
      end
  | _ => Ok xc
  end.

(** Actions between the first and the second child: the context, xr0 and
    use_xr0 after them. *)
Definition xp_eval_mid (ty : xp_type) (d : xs_discr) (dbl : float) (s0 : option string)
           (has_c0 : bool) (xc : xp_ctx) (xr0 : option xp_ctx)
  : xp_ctx * option xp_ctx * bool :=
  match ty with
  | XP_ABSPATH =>
      if has_c0 then (xc, xr0, true)
      else
        let kids := match xc_node xc with
                    | Some x => xml_child_each x CX_ELMNT
                    | None => []
                    end in
        (xc, Some (set_nodeset (ctx_new XT_NODESET (xc_initial xc)) kids), true)
  | XP_RELLOCPATH =>
      (if is_axis A_DESCENDANT_OR_SELF d then set_descendant xc true else xc, xr0, true)
  | XP_PRIME_NR =>
      (xc, Some (set_number (ctx_new XT_NUMBER (xc_initial xc)) dbl), false)
  | XP_PRIME_STR =>
      (xc, Some (set_string (ctx_new XT_STRING (xc_initial xc)) s0), false)
  | _ => (xc, xr0, false)
  end.

(** Actions after the second child (only taken when there is one). *)
Definition xp_eval_post (ty : xp_type) (d : xs_discr) (xr0 : option xp_ctx) (xr1 : xp_ctx)
  : result (option xp_ctx) :=
  let binop (f : xp_ctx -> xp_ctx -> xs_discr -> result xp_ctx) :=
    match xr0 with
    | None => Crash (* xc1->xc_initial on NULL *)
    | Some x0 => do xr2 <- f x0 xr1 d; Ok (Some xr2)
    end in
  match ty with
  | XP_AND => binop xp_logop
  | XP_RELEX => binop xp_relop
  | XP_ADD => binop xp_numop
  | XP_UNION => binop xp_union
  | _ => Ok None
  end.

Fixpoint xp_eval (xs : xpath_tree) (nsc : option cvec) (xc : xp_ctx) {struct xs}
  : result (xp_ctx * xp_ctx) :=
  match xs with
  | XS ty d dbl s0 s1 c0 c1 =>
      let eval_c0 := match c0 with Some c => Some (xp_eval c nsc) | None => None end in
      let eval_c1 := match c1 with Some c => Some (xp_eval c nsc) | None => None end in
      match ty with
      | XP_STEP => do xr <- xp_eval_step eval_c1 xc d c0 nsc; Ok (xc, xr)
      | XP_PRED => xp_eval_predicate eval_c0 eval_c1 xc
      | _ =>
          do xc <- xp_eval_pre ty d xc;
          (* Eval first child c0 *)
          do '(xc, xr0) <-
            match eval_c0 with
            | Some ev => do '(xc', r) <- ev xc; Ok (xc', Some r)
            | None => Ok (xc, None)
            end;
          let '(xc, xr0, use_xr0) :=
            xp_eval_mid ty d dbl s0 (match c0 with Some _ => true | None => false end)
                        xc xr0 in
          (* Eval second child c1 *)
          do '(xc, xr1) <-
            match eval_c1 with
            | Some ev =>
                if use_xr0 then
                  match xr0 with
                  | None => Crash (* xp_eval on a NULL context *)
                  | Some x0 => do '(_, r) <- ev x0; Ok (xc, Some r)
                  end
                else do '(xc', r) <- ev xc; Ok (xc', Some r)
            | None => Ok (xc, None)
            end;
          do xr2 <-
            match xr1 with
            | Some r1 => xp_eval_post ty d xr0 r1
            | None => Ok None
            end;
          let xc := set_descendant xc false in
          match xr2, xr1, xr0 with
          | Some r, _, _ => Ok (xc, r)
          | None, Some r, _ => Ok (xc, r)
          | None, None, Some r => Ok (xc, r)
          | None, None, None => Crash (* assert(xr0||xr1||xr2) *)
          end
      end
  end.

End Evaluator.

(** ** Tree filter and flags (clixon_xml.c and clixon_xml_map.c are not part
       of the covered source; the operations below are modelled from the
       tree filter of the spec) *)

(** Modelled from the spec: the flag bitset has "at least MARK, DEFAULT";
    the bit values are missing from the source. *)
Definition XML_FLAG_MARK : Z := 0x01.
Definition XML_FLAG_DEFAULT : Z := 0x40.

Definition with_flags (x : cxobj) (f : Z) : cxobj :=
  let 'Cx t n p v _ s cs := x in Cx t n p v f s cs.

Definition with_childvec (x : cxobj) (cs : list cxobj) : cxobj :=
  let 'Cx t n p v f s _ := x in Cx t n p v f s cs.

Definition with_name (x : cxobj) (n : string) : cxobj :=
  let 'Cx t _ p v f s cs := x in Cx t n p v f s cs.

(** Modelled from the spec: the "mutable flag bitset" of a node, tested, set
    and cleared with a mask; xml_flag, xml_flag_set and xml_flag_reset are
    missing from the source. *)
Definition xml_flag (x : cxobj) (flag : Z) : Z := Z.land (x_flags x) flag.
Definition xml_flag_set (x : cxobj) (flag : Z) : cxobj := with_flags x (Z.lor (x_flags x) flag).
Definition xml_flag_reset (x : cxobj) (flag : Z) : cxobj := with_flags x (Z.ldiff (x_flags x) flag).

(** What a callback of xml_apply does to the object it is called on: the
    object's flags after the call, and the attributes it appended.  The
    callbacks of backend_get.c (xml_flag_reset, xml_flag_default_value,
    xml_add_default_tag) read the object's own flags, body and schema node
    and change nothing else. *)
Definition xml_applyfn := cxobj -> Z * list cxobj.

(** Modelled from the spec: "reset_flag(root, flag): clears a flag across the
    subtree", and likewise for the other callbacks: the callback is applied to
    the objects of the given type across the subtree, going down through the
    children of that type; xml_apply is missing from the source. *)
Fixpoint xml_apply (x : cxobj) (type : cxobj_type) (fn : xml_applyfn) {struct x} : cxobj :=
  match x with
  | Cx t n p v f s cs =>
      let cs' := map (fun c => if is_type type c then xml_apply c type fn else c) cs in
      if cxobj_type_eqb t type then
        let '(f', attrs) := fn x in Cx t n p v f' s (cs' ++ attrs)
      else Cx t n p v f s cs'
  end.

Definition applyfn_flag_reset (flag : Z) : xml_applyfn :=
  fun x => (x_flags (xml_flag_reset x flag), []).

(** Modelled from the spec: "drop nodes flagged ..." below the root: every
    element child whose flags under [mask] are exactly [flags] is removed
    with its subtree, and the children that stay are pruned in turn;
    xml_tree_prune_flags is missing from the source. *)
Fixpoint xml_tree_prune_flags (xt : cxobj) (flags mask : Z) {struct xt} : cxobj :=
  match xt with
  | Cx t n p v f s cs =>
      Cx t n p v f s
         ((fix each (cs : list cxobj) : list cxobj :=
             match cs with
             | [] => []
             | c :: cs' =>
                 if is_type CX_ELMNT c then
                   if xml_flag c mask =? flags then each cs'
                   else xml_tree_prune_flags c flags mask :: each cs'
                 else c :: each cs'
             end) cs)
  end.

(** Modelled from the spec: "prune_unmarked(root): retains every node that is
    marked OR has a marked descendant, removes the rest"; a marked element
    stays with its whole subtree; xml_tree_prune_flagged_sub is missing from
    the source.  The second component is the out-parameter upmark. *)
Fixpoint xml_tree_prune_flagged_sub (xt : cxobj) (flag : Z) {struct xt} : cxobj * bool :=
  match xt with
  | Cx t n p v f s cs =>
      let '(cs', mark) :=
        (fix each (cs : list cxobj) : list cxobj * bool :=
           match cs with
           | [] => ([], false)
           | c :: rest =>
               let '(rest', m) := each rest in
               if is_type CX_ELMNT c then
                 if negb (xml_flag c flag =? 0) then (c :: rest', true)
                 else
                   let '(c', submark) := xml_tree_prune_flagged_sub c flag in
                   if submark then (c' :: rest', true) else (rest', m)
               else (c :: rest', m)
           end) cs in
      (Cx t n p v f s cs', mark)
  end.

(** Modelled from the spec: "mark_nonconfig(root): marks every element whose
    schema node is config false"; elements with a config true schema node are
    searched further down; xml_non_config_data is missing from the source. *)
Fixpoint xml_non_config_data (xt : cxobj) {struct xt} : cxobj :=
  match xt with
  | Cx t n p v f s cs =>
      Cx t n p v f s
         (map (fun c =>
                 if is_type CX_ELMNT c then
                   match x_spec c with
                   | None => c
                   | Some y =>
                       if ys_config y then xml_non_config_data c
                       else xml_flag_set c XML_FLAG_MARK
                   end
                 else c) cs)
  end.

(** A [cxobj *] into a tree that is rewritten: the child indices from the
    root down to the object. *)
Definition xpath_handle := list nat.

Fixpoint update_nth {A : Type} (i : nat) (f : A -> A) (l : list A) : list A :=
  match l, i with
  | [], _ => []
  | a :: l', O => f a :: l'
  | a :: l', S i' => a :: update_nth i' f l'
  end.

Fixpoint xml_update_at (f : cxobj -> cxobj) (p : xpath_handle) (x : cxobj) : cxobj :=
  match p with
  | [] => f x
  | i :: p' => with_childvec x (update_nth i (xml_update_at f p') (x_childvec x))
  end.

Fixpoint xml_at (x : cxobj) (p : xpath_handle) : option cxobj :=
  match p with
  | [] => Some x
  | i :: p' =>
      match nth_error (x_childvec x) i with
      | Some c => xml_at c p'
      | None => None
      end
  end.

(** Modelled from the spec: lookup of a parameter of the request element by
    name; xml_find, xml_find_value and xml_find_type are missing from the
    source.  xml_find is the first child of any type with the name. *)
Definition xml_find (x : cxobj) (name : string) : option cxobj :=
  find (fun c => strcmp name (x_name c) =? 0) (x_childvec x).

(** xml_find_value: the value of the first child of any type with the name
    (an attribute's value, or the text of the child named "body"). *)
Definition xml_find_value (x : cxobj) (name : string) : option string :=
  match xml_find x name with
  | Some c => x_value c
  | None => None
  end.

(** xml_find_type with a NULL prefix: the first child of the type with the name. *)
Definition xml_find_type (x : cxobj) (name : string) (type : cxobj_type) : option cxobj :=
  find (fun c => is_type type c && (strcmp name (x_name c) =? 0)) (x_childvec x).

(** Modelled from the spec: a new attribute (xml_new with CX_ATTR, then its
    value and prefix) appended to the children of its parent; xml_new,
    xml_value_set, xml_prefix_set and xmlns_set are missing from the source. *)
Definition xml_new_attr (prefix : option string) (name value : string) : cxobj :=
  Cx CX_ATTR name prefix (Some value) 0 None [].

Definition xml_addsub (parent child : cxobj) : cxobj :=
  with_childvec parent (x_childvec parent ++ [child]).

(** xmlns_set(x, prefix, ns) with a non-NULL prefix: declares xmlns:prefix. *)
Definition xmlns_set (x : cxobj) (prefix ns : string) : cxobj :=
  xml_addsub x (xml_new_attr (Some "xmlns") prefix ns).

(** ** With-defaults (backend_get.c) *)

(** The schema default of a schema node as xml_flag_default_value reads it:
    the printed value of the node's value cell, when the cell exists, is
    named and prints. *)
Definition schema_default (y : yang_stmt) : option string :=
  match ys_cv y with
  | None => None
  | Some cv =>
      match cv_name cv with
      | None => None
      | Some _ => cv_str cv
      end
  end.

Definition xml_flag_default_value (x : cxobj) (flag : Z) : cxobj :=
  let x := xml_flag_reset x flag in (* Assume not default value *)
  match xml_body_of x with
  | None => x
  | Some xv =>
      match x_spec x with
      | None => x
      | Some y =>
          match ys_cv y with
          | None => x
          | Some cv =>
              match cv_name cv with
              | None => x
              | Some _ =>
                  match cv_str cv with
                  | None => x
                  | Some yv =>
                      if strcmp xv yv =? 0 then xml_flag_set x flag else x
                  end
              end
          end
      end
  end.

Definition applyfn_flag_default_value (flag : Z) : xml_applyfn :=
  fun x => (x_flags (xml_flag_default_value x flag), []).

Definition xml_add_default_tag (x : cxobj) (flags : Z) : cxobj :=
  if negb (xml_flag x flags =? 0)
  then xml_addsub x (xml_new_attr (Some "wd") "default" "true")
  else x.

Definition applyfn_add_default_tag (flags : Z) : xml_applyfn :=
  fun x => (x_flags x, if negb (xml_flag x flags =? 0)
                       then [xml_new_attr (Some "wd") "default" "true"] else []).

(** [None] is retval -1; [Some xret'] is retval 0 with the tree as updated. *)
Definition with_defaults (xe : option cxobj) (xret : cxobj) : option cxobj :=
  match match xe with Some e => xml_find e "with-defaults" | None => None end with
  | None => Some xret
  | Some xfind =>
      match xml_find_value xfind "body" with
      | None => None
      | Some mode =>
          if strcmp mode "explicit" =? 0 then
            let xret := xml_apply xret CX_ELMNT (applyfn_flag_reset XML_FLAG_MARK) in
            let xret := xml_non_config_data xret in
            Some (xml_tree_prune_flags xret XML_FLAG_DEFAULT
                                       (Z.lor XML_FLAG_MARK XML_FLAG_DEFAULT))
          else if strcmp mode "trim" =? 0 then
            let xret := xml_tree_prune_flags xret XML_FLAG_DEFAULT XML_FLAG_DEFAULT in
            let xret := xml_apply xret CX_ELMNT (applyfn_flag_default_value XML_FLAG_MARK) in
            Some (xml_tree_prune_flags xret XML_FLAG_MARK XML_FLAG_MARK)
          else if strcmp mode "report-all-tagged" =? 0 then
            let xret := xmlns_set xret "wd" "urn:ietf:params:xml:ns:netconf:default:1.0" in
            let xret := xml_apply xret CX_ELMNT (applyfn_flag_default_value XML_FLAG_MARK) in
            Some (xml_apply xret CX_ELMNT
                            (applyfn_add_default_tag (Z.lor XML_FLAG_DEFAULT XML_FLAG_MARK)))
          else if strcmp mode "report-all" =? 0 then Some xret
          else Some xret
      end
  end.

(** filter_xpath_again on a non-NULL tree: mark the selected nodes, remove
    what is not marked, reset the flag. *)
Definition filter_xpath_again (xret : cxobj) (xvec : option (list xpath_handle)) : cxobj :=
  let xret :=
    match xvec with
    | Some vec =>
        fold_left (fun t p => xml_update_at (fun x => xml_flag_set x XML_FLAG_MARK) p t)
                  vec xret
    | None => xret
    end in
  let xret :=
    if xml_flag xret XML_FLAG_MARK =? 0
    then fst (xml_tree_prune_flagged_sub xret XML_FLAG_MARK)
    else xret in
  xml_apply xret CX_ELMNT (applyfn_flag_reset XML_FLAG_MARK).

(** xml_find and xml_find_type on a located node: the child found, located. *)
Definition xml_find_node (x : xnode) (name : string) : option xnode :=
  find (fun c => strcmp name (xml_name c) =? 0)
       (locate_children (xn_self x) (xn_up x) 0%nat (x_childvec (xn_self x))).

Definition xml_find_type_node (x : xnode) (name : string) (type : cxobj_type)
  : option xnode :=
  find (fun c => is_type type (xn_self c) && (strcmp name (xml_name c) =? 0))
       (locate_children (xn_self x) (xn_up x) 0%nat (x_childvec (xn_self x))).

(** ** The get / get-config handler (backend_get.c) *)

Inductive netconf_content := CONTENT_CONFIG | CONTENT_NONCONFIG | CONTENT_ALL.

(** What is written to the reply buffer cbret. *)
Inductive reply :=
| rpc_error (tag type info message : string)   (* netconf_invalid_value and the like *)
| reply_xml (x : cxobj) (depth : Z)            (* clixon_xml2cbuf(cbret, x, 0, 0, depth, 0) *)
| reply_text (s : string).                     (* cprintf(cbret, ...) *)

(** Calls out of the handler that the properties below speak about. *)
Inductive event :=
| ev_xmldb_get0 (db : string) (xpath : option string)
| ev_pagination_cb (xpath : option string) (locked : bool) (offset limit : Z)
| ev_statedata (xpath : string).

Record hstate := { cbret : list reply; calls : list event }.

(** A step of a handler either goes on with a value or leaves the function
    with its retval ("goto ok" is [Exit 0], "goto done" is [Exit (-1)]). *)
Inductive flow (A : Type) : Type :=
| Next (a : A)
| Exit (retval : Z).

Arguments Next {A} a.
Arguments Exit {A} retval.

Definition handler (A : Type) : Type := hstate -> flow A * hstate.

Definition hret {A : Type} (a : A) : handler A := fun st => (Next a, st).

Definition hbind {A B : Type} (m : handler A) (k : A -> handler B) : handler B :=
  fun st =>
    match m st with
    | (Next a, st') => k a st'
    | (Exit r, st') => (Exit r, st')
    end.

Notation "'run' x <- m ; k" := (hbind m (fun x => k))
  (at level 10, x name, m at level 100, k at level 200) : result_scope.
Notation "'run' ' p <- m ; k" := (hbind m (fun p => k))
  (at level 10, p pattern, m at level 100, k at level 200) : result_scope.

Definition goto_ok {A : Type} : handler A := fun st => (Exit 0, st).
Definition goto_done {A : Type} : handler A := fun st => (Exit (-1), st).

Definition emit (r : reply) : handler unit :=
  fun st => (Next tt, {| cbret := cbret st ++ [r]; calls := calls st |}).

Definition called (e : event) : handler unit :=
  fun st => (Next tt, {| cbret := cbret st; calls := calls st ++ [e] |}).

(** "if (f(...) < 0) goto done" for a call that yields a value. *)
Definition or_done {A : Type} (o : option A) : handler A :=
  match o with
  | Some a => hret a
  | None => goto_done
  end.

(** The retval and final state of a handler body that falls through to "ok:". *)
Definition finish (m : handler unit) (st : hstate) : Z * hstate :=
  match m st with
  | (Next _, st') => (0, st')
  | (Exit r, st') => (r, st')
  end.

(** The collaborators of the handler, reached through the clicon handle.  A
    [None] result is a negative retval.  All of them are outside the covered
    source but the state data: get_client_statedata is part of
    backend_get.c and is given below, over its own callees. *)
Record clicon_handle := {
  (* clicon_username_get *)
  h_username : option string;
  (* clicon_dbspec_yang(h) != NULL *)
  h_dbspec_yang : bool;
  (* clicon_option_bool *)
  h_option_bool : string -> bool;
  (* clicon_nacm_cache(h) != NULL *)
  h_nacm_cache : bool;
  (* clicon_err_reason *)
  h_err_reason : string;
  (* xpath2canonical: inl reason is retval 0, inr (xpath, nsc) is retval 1 *)
  h_xpath2canonical : string -> option cvec -> option (string + string * option cvec);
  (* parse_int32: Some None is retval 0 *)
  h_parse_int32 : string -> option (option Z);
  (* the number a string denotes as uint32, when it denotes one *)
  h_parse_uint32 : string -> option Z;
  (* yang_path_arg: the schema node an xpath resolves to, if any *)
  h_yang_path_arg : string -> option (option yang_stmt);
  (* xmldb_get0(h, db, YB_MODULE, nsc, xpath, 1, &xret, NULL, NULL) *)
  h_xmldb_get0 : string -> option cvec -> option string -> option cxobj;
  (* xmldb_islocked: the locking session, 0 when unlocked *)
  h_xmldb_islocked : string -> Z;
  (* clixon_pagination_cb_call: the flag is retval 1 against 0 *)
  h_pagination_cb : option string -> bool -> Z -> Z -> cxobj -> option (bool * cxobj);
  (* xml_bind_yang: inl xerr is retval 0, inr xret is retval 1 *)
  h_xml_bind_yang : cxobj -> option (cxobj + cxobj);
  (* netconf_operation_failed_xml: the error tree it builds *)
  h_operation_failed_xml : string -> string -> cxobj;
  (* clixon_netconf_internal_error on an error tree *)
  h_internal_error : cxobj -> string -> cxobj;
  (* get_client_statedata (given below): the flag is retval 1 against 0
     (error in the tree) *)
  h_client_statedata : string -> option cvec -> option cxobj -> option (bool * cxobj);
  (* xml_yang_validate_all_top then xml_yang_validate_add: inl xerr is retval 0 *)
  h_yang_validate : cxobj -> option (cxobj + unit);
  (* xpath_vec on the result tree *)
  h_xpath_vec : cxobj -> option cvec -> string -> option (list xpath_handle);
  (* nacm_datanode_read: the tree as the access policy leaves it *)
  h_nacm_datanode_read : cxobj -> list xpath_handle -> option string -> option cxobj
}.

Definition NETCONF_BASE_NAMESPACE : string := "urn:ietf:params:xml:ns:netconf:base:1.0".
Definition NETCONF_OUTPUT_DATA : string := "data".
(** Modelled from the spec: the name of the top object of a datastore tree;
    the macro is missing from the source. *)
Definition DATASTORE_TOP_SYMBOL : string := "config".

(** Modelled from the spec: an rpc-error reply "with error-type, error-tag, and
    a textual error-message"; netconf_invalid_value, netconf_operation_failed
    and netconf_bad_attribute are missing from the source. *)
Definition netconf_invalid_value (type message : string) : handler unit :=
  emit (rpc_error "invalid-value" type "" message).

Definition netconf_operation_failed (type message : string) : handler unit :=
  emit (rpc_error "operation-failed" type "" message).

Definition netconf_bad_attribute (type info message : string) : handler unit :=
  emit (rpc_error "bad-attribute" type info message).

(** ** State data (backend_get.c, client_get_capabilities, client_get_streams
    and get_client_statedata) *)









(** ** The reply and the two procedures (backend_get.c) *)

(** get_nacm_and_reply on a non-NULL tree. *)
Definition get_nacm_and_reply (h : clicon_handle) (xret : cxobj) (xvec : list xpath_handle)
           (username : option string) (depth : Z) : handler unit :=
  run xret <-
    (if h_nacm_cache h then or_done (h_nacm_datanode_read h xret xvec username)
     else hret xret);
  run _ <- emit (reply_text ("<rpc-reply xmlns=" ++ dquote ++ NETCONF_BASE_NAMESPACE
                                ++ dquote ++ ">"));
  let xret := with_name xret NETCONF_OUTPUT_DATA in
  (* Top level is data, so add 1 to depth if significant *)
  run _ <- emit (reply_xml xret (if depth >? 0 then depth + 1 else depth));
  emit (reply_text "</rpc-reply>").

(** Modelled from the spec: the offset default (none) and the limit default
    (unbounded) both give 0; an unparsable number is a bad-element error in
    the reply and retval 0; netconf_parse_uint32 is missing from the source. *)
Definition netconf_parse_uint32 (h : clicon_handle) (name valstr defaultstr : string)
           (defaultvalue : Z) : handler (Z * Z) :=
  if strcmp valstr defaultstr =? 0 then hret (1, defaultvalue)
  else
    match h_parse_uint32 h valstr with
    | Some v => hret (1, v)
    | None =>
        run _ <- emit (rpc_error "bad-element" "application" name "Unrecognized value");
        hret (0, 0)
    end.

(** The retval and *value. *)
Definition element2value (h : clicon_handle) (xe : cxobj) (name defaultstr : string)
  : handler (Z * Z) :=
  match xml_find_type xe name CX_ELMNT with
  | Some x =>
      match xml_body_of x with
      | Some valstr => netconf_parse_uint32 h name valstr defaultstr 0
      | None => hret (1, 0)
      end
  | None => hret (1, 0)
  end.

(** cprintf("%u", n) *)
Definition print_u (n : Z) : string := NilZero.string_of_uint (N.to_uint (Z.to_N n)).

Definition UINT32_MOD : Z := 2 ^ 32.

(** The XPath with the pagination predicate appended (cbpath). *)
Definition pagination_xpath (xpath : option string) (offset limit : Z) : string :=
  let base := match xpath with Some p => p | None => "/" end in
  if negb (offset =? 0) then
    base ++ "[" ++ print_u offset ++ " <= position()"
         ++ (if negb (limit =? 0)
             then " and position() < " ++ print_u ((limit + offset) mod UINT32_MOD)
             else "")
         ++ "]"
  else if negb (limit =? 0) then base ++ "[position() < " ++ print_u limit ++ "]"
  else base.

Definition xpath_or_root (xpath : option string) : string :=
  match xpath with Some p => p | None => "/" end.

Definition get_list_pagination (h : clicon_handle) (ce_id : Z) (xe : xnode)
           (content : netconf_content) (db : string) (depth : Z) (xpath : option string)
           (nsc : option cvec) (username : option string) : handler unit :=
  (* Check if list/leaf-list *)
  run ylist <- or_done (h_yang_path_arg h (xpath_or_root xpath));
  match ylist with
  | None =>
      run _ <- netconf_invalid_value "application"
                 ("Netconf get list-pagination: " ++ dquote
                    ++ match xpath with Some p => p | None => "(null)" end
                    ++ dquote ++ " not found");
      goto_ok
  | Some ylist =>
      if negb (yang_keyword_eqb (ys_keyword ylist) Y_LIST)
         && negb (yang_keyword_eqb (ys_keyword ylist) Y_LEAF_LIST)
      then
        run _ <- netconf_invalid_value "application"
                   "list-pagination is enabled but target is not list or leaf-list";
        goto_ok
      else
        (* Sanity checks on state/config *)
        let list_config := ys_config_ancestor ylist in
        run _ <-
          (match list_config, content with
           | true, CONTENT_NONCONFIG =>
               run _ <- netconf_invalid_value "application"
                          "list-pagination targets a config list but content request is nonconfig";
               goto_ok
           | false, CONTENT_CONFIG =>
               run _ <- netconf_invalid_value "application"
                          "list-pagination targets a state list but content request is config";
               goto_ok
           | _, _ => hret tt
           end);
        run '(ret, offset) <- element2value h (xn_self xe) "offset" "none";
        run '(ret, limit) <-
          (if negb (ret =? 0) then element2value h (xn_self xe) "limit" "unbounded"
           else hret (ret, 0));
        (* Read config *)
        run xret <-
          (match content with
           | CONTENT_CONFIG | CONTENT_ALL =>
               let xpath2 := pagination_xpath xpath offset limit in
               run _ <- called (ev_xmldb_get0 db (Some xpath2));
               match h_xmldb_get0 h db nsc (Some xpath2) with
               | Some xret => hret xret
               | None =>
                   run _ <- netconf_operation_failed "application"
                              ("Get " ++ db ++ " datastore: " ++ h_err_reason h);
                   goto_ok
               end
           | CONTENT_NONCONFIG =>
               hret (Cx CX_ELMNT DATASTORE_TOP_SYMBOL None None 0 None [])
           end);
        run xret <-
          (if list_config then hret xret
           else
             (* Check if running locked (by this session) *)
             let iddb := h_xmldb_islocked h "running" in
             let locked := negb (iddb =? 0) && (iddb =? ce_id) in
             run _ <- called (ev_pagination_cb xpath locked offset limit);
             run '(ok, xret) <- or_done (h_pagination_cb h xpath locked offset limit xret);
             if negb ok then
               let xerr := h_operation_failed_xml h "application"
                             ("Internal error, pagination state callback invalid return : "
                                ++ h_err_reason h) in
               run _ <- emit (reply_xml xerr (-1));
               goto_ok
             else
               (* System makes the binding *)
               run bound <- or_done (h_xml_bind_yang h xret);
               match bound with
               | inl xerr =>
                   let xerr := h_internal_error h xerr
                                 ". Internal error, state callback returned invalid XML" in
                   run _ <- emit (reply_xml xerr (-1));
                   goto_ok
               | inr xret => hret xret
               end);
        run xret <-
          or_done (with_defaults (option_map xn_self (xml_parent xe)) xret);
        run xvec <- or_done (h_xpath_vec h xret nsc (xpath_or_root xpath));
        (* Help function to filter out anything that is outside of xpath *)
        let xret := filter_xpath_again xret (Some xvec) in
        get_nacm_and_reply h xret xvec username depth
  end.

(** Modelled from the spec: "derive_from_element(node) walks ancestors
    collecting xmlns and xmlns:p declarations, nearest wins"; xml_nsctx_node
    is missing from the source. *)
Definition xmlns_decls (x : cxobj) : cvec :=
  flat_map
    (fun a =>
       if is_type CX_ATTR a then
         match x_prefix a, x_value a with
         | None, Some uri => if (x_name a =? "xmlns")%string then [("", uri)] else []
         | Some p, Some uri => if (p =? "xmlns")%string then [(x_name a, uri)] else []
         | _, None => []
         end
       else [])
    (x_childvec x).

Definition xml_nsctx_node (x : xnode) : cvec :=
  xmlns_decls (xn_self x) ++ flat_map (fun f => xmlns_decls (fst f)) (xn_up x).

(** get_common from the with-defaults step on, with the tree read so far:
    with-defaults, validation of state data, the state-only cut, the XPath
    selection, the filter and the reply. *)
Definition get_common_tail (h : clicon_handle) (xe : xnode) (content : netconf_content)
           (xpath : option string) (nsc : option cvec) (username : option string)
           (depth : Z) (xret : cxobj) : handler unit :=
  run xret <- or_done (with_defaults (Some (xn_self xe)) xret);
  run _ <-
    (match content with
     | CONTENT_CONFIG => hret tt
     | _ =>
         if h_option_bool h "CLICON_VALIDATE_STATE_XML" then
           run ret <- or_done (h_yang_validate h xret);
           match ret with
           | inl xerr =>
               let xerr := h_internal_error h xerr
                             ". Internal error, state callback returned invalid XML" in
               run _ <- emit (reply_xml xerr (-1));
               goto_ok
           | inr _ => hret tt
           end
         else hret tt
     end);
  let xret :=
    match content with
    | CONTENT_NONCONFIG =>
        (* state only, all config should be removed now *)
        let xret := xml_non_config_data xret in
        let xret := fst (xml_tree_prune_flagged_sub xret XML_FLAG_MARK) in
        xml_apply xret CX_ELMNT (applyfn_flag_reset XML_FLAG_MARK)
    | _ => xret
    end in
  run xvec <- or_done (h_xpath_vec h xret nsc (xpath_or_root xpath));
  let xret := filter_xpath_again xret (Some xvec) in
  get_nacm_and_reply h xret xvec username depth.

Definition get_common (h : clicon_handle) (ce_id : Z) (xe : xnode)
           (content : netconf_content) (db : string) : handler unit :=
  let username := h_username h in
  if negb (h_dbspec_yang h) then goto_done
  else
    run '(xpath, nsc) <-
      (match xml_find_node xe "filter" with
       | None => hret (None, None)
       | Some xfilter =>
           let '(xpath0, nsc0) :=
             match xml_find_value (xn_self xfilter) "select" with
             | None => ("/", None)
             | Some sel => (sel, Some (xml_nsctx_node xfilter))
             end in
           run ret <- or_done (h_xpath2canonical h xpath0 nsc0);
           match ret with
           | inl reason =>
               run _ <- netconf_bad_attribute "application" "select" reason;
               goto_ok
           | inr (xpath, nsc) => hret (Some xpath, nsc)
           end
       end);
    (* Clixon extensions: depth *)
    run depth <-
      (match xml_find_value (xn_self xe) "depth" with
       | None => hret (-1)
       | Some attr =>
           run ret <- or_done (h_parse_int32 h attr);
           match ret with
           | None =>
               run _ <- netconf_bad_attribute "application" "depth"
                          "Unrecognized value of depth attribute";
               goto_ok
           | Some d => hret d
           end
       end);
    (* Check if list pagination *)
    match xml_find_type_node xe "list-pagination" CX_ELMNT with
    | Some xfind =>
        run _ <- get_list_pagination h ce_id xfind content db depth xpath nsc username;
        goto_ok
    | None =>
        let read (db' : string) (path : option string) : handler (option cxobj) :=
          run _ <- called (ev_xmldb_get0 db' path);
          match h_xmldb_get0 h db' nsc path with
          | Some xret => hret (Some xret)
          | None =>
              run _ <- netconf_operation_failed "application"
                         ("Get " ++ db ++ " datastore: " ++ h_err_reason h);
              goto_ok
          end in
        (* Read configuration *)
        run xret <-
          (match content with
           | CONTENT_CONFIG => read db (Some (xpath_or_root xpath))
           | CONTENT_ALL | CONTENT_NONCONFIG =>
               if h_option_bool h "CLICON_VALIDATE_STATE_XML" then read "running" None
               else
                 match content with
                 | CONTENT_ALL => read db (Some (xpath_or_root xpath))
                 | _ => hret (Some (Cx CX_ELMNT DATASTORE_TOP_SYMBOL None None 0 None []))
                 end
           end);
        (* Read state *)
        run xret <-
          (match content with
           | CONTENT_CONFIG => hret xret
           | CONTENT_ALL | CONTENT_NONCONFIG =>
               run _ <- called (ev_statedata (xpath_or_root xpath));
               run '(ok, xret) <-
                 or_done (h_client_statedata h (xpath_or_root xpath) nsc xret);
               if negb ok then
                 (* Error from callback (error in xret) *)
                 run _ <- emit (reply_xml xret (-1));
                 goto_ok
               else hret (Some xret)
           end);
        match xret with
        | None => goto_done (* not reached: every read yields a tree or leaves *)
        | Some xret => get_common_tail h xe content xpath nsc username depth xret
        end
    end.

(** ** Sample documents and XPath trees *)

Definition elem (name : string) (children : list cxobj) : cxobj :=
  Cx CX_ELMNT name None None 0 None children.

Definition text (s : string) : cxobj :=
  Cx CX_BODY "body" None (Some s) 0 None [].

Definition attr (prefix : option string) (name value : string) : cxobj :=
  Cx CX_ATTR name prefix (Some value) 0 None [].

Definition at_root (x : cxobj) : xnode := {| xn_self := x; xn_up := [] |}.

Definition xs_leaf (ty : xp_type) (d : xs_discr) (s0 s1 : option string) : xpath_tree :=
  XS ty d 0%float s0 s1 None None.

Definition xs_number (d : float) : xpath_tree :=
  XS XP_PRIME_NR (D_axis A_NAN) d None None None None.

(** The empty predicate list that ends every step. *)
Definition xs_nopred : xpath_tree := xs_leaf XP_PRED (D_axis A_NAN) None None.

(** child::* without predicates. *)
Definition xs_child_any : xpath_tree :=
  XS XP_STEP (D_axis A_CHILD) 0%float None None
     (Some (xs_leaf XP_NODE (D_axis A_NAN) None (Some "*"))) (Some xs_nopred).

(** "/" *)
Definition xs_slash : xpath_tree := xs_leaf XP_ABSPATH (D_axis A_ROOT) None None.

(** "//" followed by a relative path. *)
Definition xs_dslash (tail : xpath_tree) : xpath_tree :=
  XS XP_ABSPATH (D_axis A_DESCENDANT_OR_SELF) 0%float None None
     (Some (XS XP_RELLOCPATH (D_axis A_NAN) 0%float None None (Some tail) None)) None.

(** <top><a>1</a><b><c/></b></top> *)
Definition doc_top : cxobj :=
  elem "top" [elem "a" [text "1"]; elem "b" [elem "c" []]].

(** text() and node() as node tests. *)
Definition xs_text_fn : xpath_tree := xs_leaf XP_NODE_FN (D_axis A_NAN) (Some "text") None.
Definition xs_node_fn : xpath_tree := xs_leaf XP_NODE_FN (D_axis A_NAN) (Some "node") None.

(** A scanner for examples in which no string reads as a number. *)
Definition no_scan (s : string) : option float := None.

(** A context holding a number. *)
Definition ctx_number (d : float) : xp_ctx := set_number (ctx_new XT_NUMBER None) d.

(** The URI the prefix of a located node resolves to in its document. *)
Definition xml_uri (x : xnode) : option string :=
  xml2ns_walk (xn_self x) (xn_up x) (xml_prefix x).

(** <top xmlns:p="urn:u"><p:a/></top> and its element a, located. *)
Definition doc_ns : cxobj :=
  elem "top" [attr (Some "xmlns") "p" "urn:u"; Cx CX_ELMNT "a" (Some "p") None 0 None []].

Definition doc_ns_a : xnode :=
  {| xn_self := Cx CX_ELMNT "a" (Some "p") None 0 None []; xn_up := [(doc_ns, 1%nat)] |}.

(** The text node of <a>1</a> in [doc_top], located. *)
Definition doc_top_text : xnode :=
  {| xn_self := text "1";
     xn_up := [(elem "a" [text "1"], 0%nat); (doc_top, 0%nat)] |}.

(** The element descendants of a located node in document order, the node
    itself not included. *)
Fixpoint descendants_at (self : cxobj) (up : list (cxobj * nat)) {struct self}
  : list xnode :=
  match self with
  | Cx _ _ _ _ _ _ children =>
      (fix each (cs : list cxobj) (i : nat) {struct cs} : list xnode :=
         match cs with
         | [] => []
         | c :: cs' =>
             (if is_type CX_ELMNT c
              then {| xn_self := c; xn_up := (self, i) :: up |}
                     :: descendants_at c ((self, i) :: up)
              else [])
               ++ each cs' (S i)
         end) children 0%nat
  end.

Definition descendant_elements (x : xnode) : list xnode :=
  descendants_at (xn_self x) (xn_up x).

(** child::*[d] for a number d. *)
Definition xs_child_any_nr (d : float) : xpath_tree :=
  XS XP_STEP (D_axis A_CHILD) 0%float None None
     (Some (xs_leaf XP_NODE (D_axis A_NAN) None (Some "*")))
     (Some (XS XP_PRED (D_axis A_NAN) 0%float None None
               (Some xs_nopred) (Some (xs_number d)))).

(** The names of the nodes an evaluation selects. *)
Definition selected_names (r : result (xp_ctx * xp_ctx)) : result (list string) :=
  do '(_, xr) <- r; Ok (map xml_name (xc_nodeset xr)).

(** ** Vocabulary of the handler properties *)

(** A property of single objects holding at the top object of a tree and at
    every element below it (attributes and text have no children). *)
Fixpoint xml_forall (P : cxobj -> bool) (x : cxobj) {struct x} : bool :=
  match x with
  | Cx _ _ _ _ _ _ cs =>
      P x && forallb (fun c => negb (is_type CX_ELMNT c) || xml_forall P c) cs
  end.

(** The same at every element strictly below the top object. *)
Definition xml_forall_below (P : cxobj -> bool) (x : cxobj) : bool :=
  forallb (fun c => negb (is_type CX_ELMNT c) || xml_forall P c) (x_childvec x).




(** The text body of the object equals its schema node's default value. *)
Definition body_is_default (o : cxobj) : bool :=
  match xml_body_of o, x_spec o with
  | Some xv, Some y =>
      match schema_default y with
      | Some yv => (xv =? yv)%string
      | None => false
      end
  | _, _ => false
  end.

Definition not_default_valued (o : cxobj) : bool :=
  negb (is_type CX_ELMNT o) || negb (body_is_default o).

Definition default_clear (o : cxobj) : bool :=
  negb (is_type CX_ELMNT o) || (xml_flag o XML_FLAG_DEFAULT =? 0).

(** What xml_tree_prune_flags makes of one child: nothing, the pruned child,
    or the child as it is. *)
Definition prune_child (flags mask : Z) (c : cxobj) : list cxobj :=
  if is_type CX_ELMNT c then
    if xml_flag c mask =? flags then [] else [xml_tree_prune_flags c flags mask]
  else [c].

(** xml_apply with the callback that marks schema defaults. *)
Definition apply_default_value (x : cxobj) : cxobj :=
  xml_apply x CX_ELMNT (applyfn_flag_default_value XML_FLAG_MARK).

(** What trim makes of one child. *)
Definition trim_child (trim_rec : cxobj -> cxobj) (c : cxobj) : list cxobj :=
  if is_type CX_ELMNT c then
    if xml_flag c XML_FLAG_DEFAULT =? XML_FLAG_DEFAULT then []
    else if body_is_default c then []
         else [trim_rec c]
  else [c].

(** [e] is an object strictly below [t]. *)
Inductive xml_below (t : cxobj) : cxobj -> Prop :=
| below_child c : In c (x_childvec t) -> xml_below t c
| below_deeper c e : In c (x_childvec t) -> xml_below c e -> xml_below t e.

(** An element that trim has no reason to drop: neither flagged DEFAULT nor
    holding its schema default. *)
Definition trim_keeps (c : cxobj) : bool :=
  is_type CX_ELMNT c && (xml_flag c XML_FLAG_DEFAULT =? 0) && negb (body_is_default c).

(** [e] is an element below [t] such that trim has no reason to drop it or
    any element between it and [t]. *)
Inductive trim_survivor (t : cxobj) : cxobj -> Prop :=
| survivor_child c : In c (x_childvec t) -> trim_keeps c = true -> trim_survivor t c
| survivor_deeper c e :
    In c (x_childvec t) -> trim_keeps c = true -> trim_survivor c e -> trim_survivor t e.

(** What with-defaults=trim makes of a tree. *)
Definition trim (xret : cxobj) : cxobj :=
  xml_tree_prune_flags
    (xml_apply (xml_tree_prune_flags xret XML_FLAG_DEFAULT XML_FLAG_DEFAULT)
               CX_ELMNT (applyfn_flag_default_value XML_FLAG_MARK))
    XML_FLAG_MARK XML_FLAG_MARK.





(** A handler step that makes none of the recorded calls. *)
Definition keeps_calls {A : Type} (m : handler A) : Prop :=
  forall st, calls (snd (m st)) = calls st.

(** A handler step that makes exactly the calls [l], in that order. *)
Definition adds_calls {A : Type} (l : list event) (m : handler A) : Prop :=
  forall st, calls (snd (m st)) = calls st ++ l.








(** ** Sample requests and a sample handle *)

Definition leaf_schema (name : string) (default : option string) : yang_stmt :=
  {| ys_keyword := Y_LEAF; ys_argument := name;
     ys_cv := Some {| cv_name := Some name; cv_str := default |};
     ys_config := true; ys_config_ancestor := true |}.

Definition list_schema (name : string) (config : bool) : yang_stmt :=
  {| ys_keyword := Y_LIST; ys_argument := name; ys_cv := None;
     ys_config := config; ys_config_ancestor := config |}.

Definition leaf (name body : string) (default : option string) : cxobj :=
  Cx CX_ELMNT name None None 0 (Some (leaf_schema name default)) [text body].

(** <config><x>5</x><y>7</y></config> where both leaves have default 5. *)
Definition doc_defaults : cxobj :=
  elem "config" [leaf "x" "5" (Some "5"); leaf "y" "7" (Some "5")].

(** <get-config><with-defaults>trim</with-defaults></get-config> *)
Definition req_trim : cxobj := elem "get-config" [elem "with-defaults" [text "trim"]].

(** <get-config><with-defaults/></get-config> *)
Definition req_nobody : cxobj := elem "get-config" [elem "with-defaults" []].

(** <get><list-pagination><offset>3</offset><limit>2</limit></list-pagination></get> *)
Definition req_page : cxobj :=
  elem "get" [elem "list-pagination" [elem "offset" [text "3"]; elem "limit" [text "2"]]].

Definition req_page_inner : xnode :=
  {| xn_self := elem "list-pagination" [elem "offset" [text "3"]; elem "limit" [text "2"]];
     xn_up := [(req_page, 0%nat)] |}.

(** A handle whose schema resolves /l to a config list and /c to a container,
    whose datastore holds [doc_defaults], and that has no NACM cache. *)
Definition h_sample : clicon_handle :=
  {| h_username := None;
     h_dbspec_yang := true;
     h_option_bool := fun _ => false;
     h_nacm_cache := false;
     h_err_reason := "reason";
     h_xpath2canonical := fun xpath nsc => Some (inr (xpath, nsc));
     h_parse_int32 := fun _ => Some None;
     h_parse_uint32 := fun s =>
       if (s =? "3")%string then Some 3 else if (s =? "2")%string then Some 2 else None;
     h_yang_path_arg := fun xpath =>
       if (xpath =? "/l")%string then Some (Some (list_schema "l" true))
       else if (xpath =? "/c")%string
            then Some (Some {| ys_keyword := Y_CONTAINER; ys_argument := "c"; ys_cv := None;
                               ys_config := true; ys_config_ancestor := true |})
            else Some None;
     h_xmldb_get0 := fun _ _ _ => Some doc_defaults;
     h_xmldb_islocked := fun _ => 0;
     h_pagination_cb := fun _ _ _ _ x => Some (true, x);
     h_xml_bind_yang := fun x => Some (inr x);
     h_operation_failed_xml := fun _ _ => elem "rpc-error" [];
     h_internal_error := fun x _ => x;
     h_client_statedata := fun _ _ x =>
       Some (true, match x with Some t => t | None => elem "config" [] end);
     h_yang_validate := fun _ => Some (inr tt);
     h_xpath_vec := fun _ _ _ => Some [[0%nat]];
     h_nacm_datanode_read := fun x _ _ => Some x |}.

Definition st0 : hstate := {| cbret := []; calls := [] |}.

(** ** Vocabulary of the further properties *)

(** A node test that can be applied to a node without dereferencing NULL:
    a name test has its local name, a node-type test its function name. *)
Definition nodetest_wf (nt : xpath_tree) : bool :=
  match xs_type nt with
  | XP_NODE => match xs_s1 nt with Some _ => true | None => false end
  | XP_NODE_FN => match xs_s0 nt with Some _ => true | None => false end
  | _ => true
  end.

(** nodetest_eval(x, nt, nsc) == 1 *)
Definition nodetest_passes (nt : xpath_tree) (nsc : option cvec) (x : xnode) : bool :=
  match nodetest_eval x nt nsc with
  | Ok r => r =? 1
  | _ => false
  end.

(** flags==0x0 || xml_flag(x, flags) *)
Definition flag_passes (flags : Z) (x : xnode) : bool :=
  (flags =? 0) || negb (xml_flag_of (xn_self x) flags =? 0).

(** [a] is a proper ancestor of [x]: reached from [x] by one or more steps
    of xml_parent. *)
Inductive xml_ancestor (a : xnode) : xnode -> Prop :=
| ancestor_parent x : xml_parent x = Some a -> xml_ancestor a x
| ancestor_above x p : xml_parent x = Some p -> xml_ancestor a p -> xml_ancestor a x.

(** [l1] is [l2] with some members left out, the order kept. *)
Inductive subseq {A : Type} : list A -> list A -> Prop :=
| subseq_nil : subseq [] []
| subseq_skip x l1 l2 : subseq l1 l2 -> subseq l1 (x :: l2)
| subseq_keep x l1 l2 : subseq l1 l2 -> subseq (x :: l1) (x :: l2).

(** What xp_eval_step does with the context its axis has built: evaluate the
    predicates xs_c1 on it when there are any, else return it. *)
Definition then_eval (ev : option evaluation) (xc : xp_ctx) : result xp_ctx :=
  match ev with
  | Some e => do '(_, xr) <- e xc; Ok xr
  | None => Ok xc
  end.

(** The element children of a located node that pass a node test. *)
Definition children_passing (nt : xpath_tree) (nsc : option cvec) (xv : xnode)
  : list xnode :=
  filter (nodetest_passes nt nsc) (xml_child_each xv CX_ELMNT).

(** The element descendants of a located node that pass a node test, in
    document order. *)
Definition descendants_passing (nt : xpath_tree) (nsc : option cvec) (xv : xnode)
  : list xnode :=
  filter (nodetest_passes nt nsc) (descendant_elements xv).

(** A step axis::nodetest with its predicates. *)
Definition xs_step (axis : axis_type) (nodetest preds : option xpath_tree) : xpath_tree :=
  XS XP_STEP (D_axis axis) 0%float None None nodetest preds.

(** No predicate follows the node test: there is no predicate node, or the
    empty one (a predicate node without children). *)
Definition no_predicates (preds : option xpath_tree) : bool :=
  match preds with
  | None => true
  | Some (XS XP_PRED _ _ _ _ None None) => true
  | Some _ => false
  end.

(** The axes whose case in xp_eval_step is an empty "break". *)
Definition axis_unimplemented (a : axis_type) : bool :=
  match a with
  | A_ANCESTOR | A_ANCESTOR_OR_SELF | A_ATTRIBUTE | A_FOLLOWING | A_FOLLOWING_SIBLING
  | A_NAMESPACE | A_PRECEEDING | A_PRECEEDING_SIBLING | A_SELF => true
  | _ => false
  end.

(** The truth value a comparison returns. *)
Definition relop_bool (r : result xp_ctx) : result Z :=
  do xr <- r; Ok (xc_bool xr).

(** The operator that says the same with the operands exchanged. *)
Definition mirror_op (d : xs_discr) : xs_discr :=
  match d with
  | D_op XO_GE => D_op XO_LE
  | D_op XO_LE => D_op XO_GE
  | D_op XO_LT => D_op XO_GT
  | D_op XO_GT => D_op XO_LT
  | _ => d
  end.

(** The six comparison operators, and what each asks of the sign of strcmp. *)
Definition is_comparison (o : xp_op) : bool :=
  match o with
  | XO_EQ | XO_NE | XO_GE | XO_LE | XO_LT | XO_GT => true
  | _ => false
  end.

Definition cmp_sign (o : xp_op) (c : Z) : bool :=
  match o with
  | XO_EQ => c =? 0
  | XO_NE => negb (c =? 0)
  | XO_GE => c >=? 0
  | XO_LE => c <=? 0
  | XO_LT => c <? 0
  | XO_GT => c >? 0
  | _ => false
  end.

Definition has_body (x : xnode) : bool :=
  match xml_body x with Some _ => true | None => false end.

Definition body_text (x : xnode) : string :=
  match xml_body x with Some s => s | None => "" end.

(** The boolean context xp_relop and xp_logop build. *)
Definition ctx_bool (initial : option xnode) (b : bool) : xp_ctx :=
  set_bool (ctx_new XT_BOOL initial) (b2i b).

(** The function xp_eval hands the results of the two operands of an
    operator node to. *)
Definition binop_of (sscanf_lf : string -> option float) (ty : xp_type)
  : option (xp_ctx -> xp_ctx -> xs_discr -> result xp_ctx) :=
  match ty with
  | XP_AND => Some xp_logop
  | XP_RELEX => Some (xp_relop sscanf_lf)
  | XP_ADD => Some (xp_numop sscanf_lf)
  | XP_UNION => Some xp_union
  | _ => None
  end.

(** What an evaluation may have done to the context node and the node-set of
    the context it was called on: nothing, or moved both to the root. *)
Definition ctx_moved (xc xc' : xp_ctx) : Prop :=
  (xc_node xc' = xc_node xc /\ xc_nodeset xc' = xc_nodeset xc) \/
  exists x0, xc_node xc = Some x0 /\
             xc_node xc' = Some (xml_root x0) /\ xc_nodeset xc' = [xml_root x0].

(** The fields of the caller's context an evaluation leaves alone. *)
Definition ctx_frame (xc xc' : xp_ctx) : Prop :=
  xc_type xc' = xc_type xc /\ xc_bool xc' = xc_bool xc /\
  xc_number xc' = xc_number xc /\ xc_string xc' = xc_string xc /\
  xc_initial xc' = xc_initial xc.

(** The body of xp_eval for the kinds other than XP_STEP and XP_PRED, over
    the evaluations of the two children. *)
Definition xp_eval_general (sscanf_lf : string -> option float) (ty : xp_type)
           (d : xs_discr) (dbl : float) (s0 : option string)
           (eval_c0 eval_c1 : option evaluation) (xc : xp_ctx)
  : result (xp_ctx * xp_ctx) :=
  do xc <- xp_eval_pre ty d xc;
  do '(xc, xr0) <-
    match eval_c0 with
    | Some ev => do '(xc', r) <- ev xc; Ok (xc', Some r)
    | None => Ok (xc, None)
    end;
  let '(xc, xr0, use_xr0) :=
    xp_eval_mid ty d dbl s0 (match eval_c0 with Some _ => true | None => false end)
                xc xr0 in
  do '(xc, xr1) <-
    match eval_c1 with
    | Some ev =>
        if use_xr0 then
          match xr0 with
          | None => Crash
          | Some x0 => do '(_, r) <- ev x0; Ok (xc, Some r)
          end
        else do '(xc', r) <- ev xc; Ok (xc', Some r)
    | None => Ok (xc, None)
    end;
  do xr2 <-
    match xr1 with
    | Some r1 => xp_eval_post sscanf_lf ty d xr0 r1
    | None => Ok None
    end;
  let xc := set_descendant xc false in
  match xr2, xr1, xr0 with
  | Some r, _, _ => Ok (xc, r)
  | None, Some r, _ => Ok (xc, r)
  | None, None, Some r => Ok (xc, r)
  | None, None, None => Crash
  end.

(** What holds of an evaluation that keeps the frame of its caller's context. *)
Definition keeps_frame (ev : evaluation) : Prop :=
  forall xc xc' xr,
    ev xc = Ok (xc', xr) ->
    ctx_frame xc xc' /\ ctx_moved xc xc' /\ xc_initial xr = xc_initial xc.

(** ** Vocabulary of the further handler properties *)

(** from_client_get_config (backend_get.c).  [netconf_db_find] is the
    collaborator that reads the datastore name out of the source element of
    the request; it is outside the covered source. *)
Definition from_client_get_config (netconf_db_find : cxobj -> string -> option string)
           (h : clicon_handle) (ce_id : Z) (xe : xnode) : handler unit :=
  match netconf_db_find (xn_self xe) "source" with
  | None => goto_done (* db not found *)
  | Some db => get_common h ce_id xe CONTENT_CONFIG db
  end.

(** The XPath and the namespace context get_common hands to xpath2canonical
    for a filter element. *)
Definition filter_select (xfilter : xnode) : string * option cvec :=
  match xml_find_value (xn_self xfilter) "select" with
  | None => ("/", None)
  | Some sel => (sel, Some (xml_nsctx_node xfilter))
  end.

(** The request has no filter, or one whose select is accepted. *)
Definition select_accepted (h : clicon_handle) (xe : xnode) : Prop :=
  match xml_find_node xe "filter" with
  | None => True
  | Some xfilter =>
      exists xpath nsc,
        h_xpath2canonical h (fst (filter_select xfilter)) (snd (filter_select xfilter))
        = Some (inr (xpath, nsc))
  end.

(** A handler step that makes at most one of the recorded calls, and then
    one that satisfies [P]. *)
Definition calls_at_most_one {A : Type} (P : event -> Prop) (m : handler A) : Prop :=
  forall st,
    calls (snd (m st)) = calls st \/
    exists e, P e /\ calls (snd (m st)) = calls st ++ [e].

(** A handler step that always leaves the function. *)
Definition always_exits {A : Type} (m : handler A) : Prop :=
  forall st, exists r st', m st = (Exit r, st').

(** <list-pagination><offset>x</offset><limit>2</limit></list-pagination>
    inside a get-config request: the offset is no number. *)
Definition req_bad_offset : xnode :=
  {| xn_self := elem "list-pagination" [elem "offset" [text "x"]; elem "limit" [text "2"]];
     xn_up := [(elem "get-config"
                  [elem "list-pagination" [elem "offset" [text "x"]; elem "limit" [text "2"]]],
                0%nat)] |}.

(** <get depth="x"/> *)
Definition req_bad_depth : xnode :=
  at_root (elem "get" [attr None "depth" "x"]).

(** A handle like [h_sample] whose schema resolves /l to a state list and
    whose running datastore is locked by session 7. *)
Definition h_state : clicon_handle :=
  {| h_username := None;
     h_dbspec_yang := true;
     h_option_bool := fun _ => false;
     h_nacm_cache := false;
     h_err_reason := "reason";
     h_xpath2canonical := fun xpath nsc => Some (inr (xpath, nsc));
     h_parse_int32 := fun _ => Some None;
     h_parse_uint32 := h_parse_uint32 h_sample;
     h_yang_path_arg := fun _ => Some (Some (list_schema "l" false));
     h_xmldb_get0 := fun _ _ _ => Some doc_defaults;
     h_xmldb_islocked := fun _ => 7;
     h_pagination_cb := fun _ _ _ _ x => Some (true, x);
     h_xml_bind_yang := fun x => Some (inr x);
     h_operation_failed_xml := fun _ _ => elem "rpc-error" [];
     h_internal_error := fun x _ => x;
     h_client_statedata := fun _ _ x =>
       Some (true, match x with Some t => t | None => elem "config" [] end);
     h_yang_validate := fun _ => Some (inr tt);
     h_xpath_vec := fun _ _ _ => Some [[0%nat]];
     h_nacm_datanode_read := fun x _ _ => Some x |}.

(** The calls a request for state data only may make. *)
Definition state_call (e : event) : Prop :=
  match e with
  | ev_xmldb_get0 _ _ => False
  | ev_pagination_cb _ _ _ _ | ev_statedata _ => True
  end.

(** locked, as get_list_pagination computes it: running is locked, and by
    the session of the request. *)
Definition locked_by (h : clicon_handle) (ce_id : Z) : bool :=
  negb (h_xmldb_islocked h "running" =? 0) && (h_xmldb_islocked h "running" =? ce_id).

(** A handler step that only appends to the reply buffer, and that has
    appended something whenever it leaves the function with retval 0 (and,
    with [always], whenever it goes on). *)
Definition writes_reply {A : Type} (always : bool) (m : handler A) : Prop :=
  forall st,
    exists rest : list reply,
      cbret (snd (m st)) = cbret st ++ rest /\
      match fst (m st) with
      | Next _ => always = true -> rest <> []
      | Exit r => r = 0 -> rest <> []
      end.

(** ** Further samples *)

(** The node tests * and name. *)
Definition nt_any : xpath_tree := xs_leaf XP_NODE (D_axis A_NAN) None (Some "*").
Definition nt_named (name : string) : xpath_tree :=
  xs_leaf XP_NODE (D_axis A_NAN) None (Some name).

(** The elements a and b of [doc_top], located. *)
Definition doc_top_a : xnode :=
  {| xn_self := elem "a" [text "1"]; xn_up := [(doc_top, 0%nat)] |}.
Definition doc_top_b : xnode :=
  {| xn_self := elem "b" [elem "c" []]; xn_up := [(doc_top, 1%nat)] |}.

(** A node-set context and a string context. *)
Definition ctx_nodes (l : list xnode) : xp_ctx := set_nodeset (ctx_new XT_NODESET None) l.
Definition ctx_string (s : string) : xp_ctx := set_string (ctx_new XT_STRING None) (Some s).

(** A handle like [h_sample] with CLICON_VALIDATE_STATE_XML on. *)
Definition h_validate : clicon_handle :=
  {| h_username := None;
     h_dbspec_yang := true;
     h_option_bool := fun o => (o =? "CLICON_VALIDATE_STATE_XML")%string;
     h_nacm_cache := false;
     h_err_reason := "reason";
     h_xpath2canonical := fun xpath nsc => Some (inr (xpath, nsc));
     h_parse_int32 := fun _ => Some None;
     h_parse_uint32 := h_parse_uint32 h_sample;
     h_yang_path_arg := h_yang_path_arg h_sample;
     h_xmldb_get0 := fun _ _ _ => Some doc_defaults;
     h_xmldb_islocked := fun _ => 0;
     h_pagination_cb := fun _ _ _ _ x => Some (true, x);
     h_xml_bind_yang := fun x => Some (inr x);
     h_operation_failed_xml := fun _ _ => elem "rpc-error" [];
     h_internal_error := fun x _ => x;
     h_client_statedata := fun _ _ x =>
       Some (true, match x with Some t => t | None => elem "config" [] end);
     h_yang_validate := fun _ => Some (inr tt);
     h_xpath_vec := fun _ _ _ => Some [[0%nat]];
     h_nacm_datanode_read := fun x _ _ => Some x |}.

(** <config><s/></config> where s is state data with the DEFAULT flag set. *)
Definition doc_state : cxobj :=
  elem "config"
       [Cx CX_ELMNT "s" None None XML_FLAG_DEFAULT
           (Some {| ys_keyword := Y_CONTAINER; ys_argument := "s"; ys_cv := None;
                    ys_config := false; ys_config_ancestor := false |}) []].

(** <get><with-defaults>explicit</with-defaults></get> *)
Definition req_explicit : cxobj := elem "get" [elem "with-defaults" [text "explicit"]].

(** ** A sample of state data *)



(** ** A list read by pages *)










(** * Properties *)

(** ** Strings *)

Lemma string_compare_refl (s : string) : String.compare s s = Eq.
Proof.
  pose proof (String.compare_antisym s s) as H.
  destruct (String.compare s s); simpl in H; congruence.
Qed.

Lemma strcmp_eq_iff (s1 s2 : string) : (strcmp s1 s2 =? 0) = true <-> s1 = s2.
Proof.
  unfold strcmp. split.
  - destruct (String.compare s1 s2) eqn:E; simpl; try discriminate.
    intros _. now apply String.compare_eq_iff.
  - intros ->. now rewrite string_compare_refl.
Qed.

Lemma strcmp_neq (s1 s2 : string) : s1 <> s2 -> (strcmp s1 s2 =? 0) = false.
Proof.
  intros Hne. destruct (strcmp s1 s2 =? 0) eqn:E; [|reflexivity].
  apply strcmp_eq_iff in E. contradiction.
Qed.

Lemma strcmp_refl (s : string) : (strcmp s s =? 0) = true.
Proof. now apply strcmp_eq_iff. Qed.

(** ** Node tests *)

Lemma nodetest_eval_node_wildcard x ty d dbl px c0 c1 nsc :
  nodetest_eval_node x (XS ty d dbl px (Some "*") c0 c1) nsc = Ok 1.
Proof. reflexivity. Qed.

Lemma nodetest_eval_node_named x ty d dbl px lx c0 c1 nsc :
  lx <> "*" ->
  nodetest_eval_node x (XS ty d dbl px (Some lx) c0 c1) nsc =
  if negb (strcmp (xml_name x) lx =? 0) then Ok 0
  else match nsc with
       | Some ctx =>
           match xml_uri x, xml_nsctx_get ctx px with
           | Some u1, Some u2 => Ok (b2i (strcmp u1 u2 =? 0))
           | None, None => Ok 1
           | _, _ => Ok 0
           end
       | None =>
           match xml_prefix x, px with
           | None, None => Ok 1
           | None, Some _ | Some _, None => Ok 0
           | Some p1, Some p2 => Ok (b2i (strcmp p1 p2 =? 0))
           end
       end.
Proof.
  intros Hne. unfold nodetest_eval_node. cbn [xs_s1 xs_s0].
  rewrite (strcmp_neq Hne). reflexivity.
Qed.

(** C2.  The node test NodeName(px, lx) on an element x: the wildcard
    matches; a different local name does not match; with a namespace context
    the test matches exactly when the URI of x's prefix in the document is the
    URI of px in the context (both unresolved counts as equal); without a
    context it matches exactly when the two prefixes are equal or both
    absent.  In particular an element bound to U matches q:name as soon as
    the context maps q to U, whatever prefix the document uses. *)
Theorem nodetest_eval_node_spec (x : xnode) (ty : xp_type) (d : xs_discr) (dbl : float)
        (px : option string) (lx : string) (c0 c1 : option xpath_tree) :
  (lx = "*" ->
   forall nsc, nodetest_eval_node x (XS ty d dbl px (Some lx) c0 c1) nsc = Ok 1) /\
  (lx <> "*" -> xml_name x <> lx ->
   forall nsc, nodetest_eval_node x (XS ty d dbl px (Some lx) c0 c1) nsc = Ok 0) /\
  (lx <> "*" -> xml_name x = lx ->
   forall ctx,
     (nodetest_eval_node x (XS ty d dbl px (Some lx) c0 c1) (Some ctx) = Ok 1 <->
      xml_uri x = xml_nsctx_get ctx px) /\
     (nodetest_eval_node x (XS ty d dbl px (Some lx) c0 c1) (Some ctx) = Ok 0 <->
      xml_uri x <> xml_nsctx_get ctx px)) /\
  (lx <> "*" -> xml_name x = lx ->
   (nodetest_eval_node x (XS ty d dbl px (Some lx) c0 c1) None = Ok 1 <->
    xml_prefix x = px) /\
   (nodetest_eval_node x (XS ty d dbl px (Some lx) c0 c1) None = Ok 0 <->
    xml_prefix x <> px)) /\
  (forall ctx U, xml_name x = lx -> xml_uri x = Some U -> xml_nsctx_get ctx px = Some U ->
   nodetest_eval_node x (XS ty d dbl px (Some lx) c0 c1) (Some ctx) = Ok 1).
Proof.
  assert (Hstrict : lx <> "*" -> xml_name x = lx -> forall ctx,
     (nodetest_eval_node x (XS ty d dbl px (Some lx) c0 c1) (Some ctx) = Ok 1 <->
      xml_uri x = xml_nsctx_get ctx px) /\
     (nodetest_eval_node x (XS ty d dbl px (Some lx) c0 c1) (Some ctx) = Ok 0 <->
      xml_uri x <> xml_nsctx_get ctx px)).
  { intros Hne Hname ctx. rewrite (nodetest_eval_node_named _ _ _ _ _ _ _ _ Hne).
    rewrite Hname, strcmp_refl. cbn [negb].
    destruct (xml_uri x) as [u1|], (xml_nsctx_get ctx px) as [u2|].
    - destruct (strcmp u1 u2 =? 0) eqn:E; cbn [b2i].
      + apply strcmp_eq_iff in E. subst. split; split; congruence.
      + assert (u1 <> u2) by (intros ->; rewrite strcmp_refl in E; discriminate).
        split; split; congruence.
    - split; split; congruence.
    - split; split; congruence.
    - split; split; congruence. }
  split; [|split; [|split; [|split]]].
  - intros -> nsc. apply nodetest_eval_node_wildcard.
  - intros Hne Hname nsc. rewrite (nodetest_eval_node_named _ _ _ _ _ _ _ _ Hne).
    now rewrite (strcmp_neq Hname).
  - exact Hstrict.
  - intros Hne Hname. rewrite (nodetest_eval_node_named _ _ _ _ _ _ _ _ Hne).
    rewrite Hname, strcmp_refl. cbn [negb].
    destruct (xml_prefix x) as [p1|], px as [p2|].
    + destruct (strcmp p1 p2 =? 0) eqn:E; cbn [b2i].
      * apply strcmp_eq_iff in E. subst. split; split; congruence.
      * assert (p1 <> p2) by (intros ->; rewrite strcmp_refl in E; discriminate).
        split; split; congruence.
    + split; split; congruence.
    + split; split; congruence.
    + split; split; congruence.
  - intros ctx U Hname HU Hq.
    destruct (String.string_dec lx "*") as [->|Hne].
    + apply nodetest_eval_node_wildcard.
    + apply (Hstrict Hne Hname ctx). congruence.
Qed.

Lemma nodetest_eval_node_spec_witness :
  nodetest_eval_node doc_ns_a
    (XS XP_NODE (D_axis A_NAN) 0%float (Some "q") (Some "a") None None)
    (Some [("q", "urn:u")]) = Ok 1.
Proof.
  apply (proj2 (proj2 (proj2 (proj2
           (nodetest_eval_node_spec doc_ns_a XP_NODE (D_axis A_NAN) 0%float
              (Some "q") "a" None None)))))
    with (U := "urn:u"); reflexivity.
Defined.

(** C9, as the code has it.  node() matches any element, and text() matches
    any text node; text() also matches every element handed to it, because
    the node test does not look at the kind of the node. *)
Theorem nodetest_eval_node_fn (x : xnode) (nsc : option cvec) :
  nodetest_eval x xs_node_fn nsc = Ok 1 /\ nodetest_eval x xs_text_fn nsc = Ok 1.
Proof. split; reflexivity. Qed.

(** C9 as claimed fails: text() matches the element a of <top><a>1</a>..</top>,
    which is not a text node. *)
Lemma nodetest_eval_text_matches_element :
  is_type CX_ELMNT (xn_self (at_root doc_top)) = true /\
  is_type CX_BODY (xn_self (at_root doc_top)) = false /\
  nodetest_eval (at_root doc_top) xs_text_fn None = Ok 1.
Proof. repeat split. Qed.

(** A child step with text() keeps every element child of the context nodes
    and never reaches a text node. *)
Lemma child_step_text (nsc : option cvec) (xv : xnode) (vec : list xnode) :
  child_step (Some xs_text_fn) nsc xv vec = Ok (vec ++ xml_child_each xv CX_ELMNT).
Proof.
  unfold child_step. generalize (xml_child_each xv CX_ELMNT) as kids.
  intros kids. revert vec. induction kids as [|k kids IH]; intros vec; cbn.
  - now rewrite app_nil_r.
  - rewrite IH, <- app_assoc. reflexivity.
Qed.

(** ** Arithmetic *)

Lemma double2int_trunc (d : float) (z : Z) :
  double2int d = Ok z <-> double_trunc d = Some z /\ INT_MIN <= z <= INT_MAX.
Proof.
  unfold double2int. destruct (double_trunc d) as [t|].
  - destruct ((INT_MIN <=? t) && (t <=? INT_MAX)) eqn:E.
    + apply andb_true_iff in E. destruct E as [E1 E2].
      apply Z.leb_le in E1. apply Z.leb_le in E2.
      split; [intros [= <-]; auto | intros [[= <-] _]; reflexivity].
    + split; [discriminate|]. intros [[= <-] [H1 H2]].
      apply Z.leb_le in H1. apply Z.leb_le in H2. rewrite H1, H2 in E. discriminate.
  - split; [discriminate | intros [? _]; discriminate].
Qed.

(** xp_numop coerces both operands to numbers; a NaN operand gives NaN
    for each of the five operators; otherwise + - * div work on the doubles
    as they are, and mod is the integer remainder (sign of the dividend) of
    the two doubles cut to ints, on the operands for which C defines the two
    casts and the remainder. *)
Theorem xp_numop_spec (sscanf_lf : string -> option float) (xc1 xc2 : xp_ctx)
        (n1 n2 : float) :
  ctx2number sscanf_lf xc1 = Ok n1 ->
  ctx2number sscanf_lf xc2 = Ok n2 ->
  let num d := Ok (set_number (ctx_new XT_NUMBER (xc_initial xc1)) d) in
  (PrimFloat.is_nan n1 || PrimFloat.is_nan n2 = true ->
   forall op, In op [XO_ADD; XO_SUB; XO_MULT; XO_DIV; XO_MOD] ->
              xp_numop sscanf_lf xc1 xc2 (D_op op) = num nan) /\
  (PrimFloat.is_nan n1 || PrimFloat.is_nan n2 = false ->
   xp_numop sscanf_lf xc1 xc2 (D_op XO_ADD) = num (PrimFloat.add n1 n2) /\
   xp_numop sscanf_lf xc1 xc2 (D_op XO_SUB) = num (PrimFloat.sub n1 n2) /\
   xp_numop sscanf_lf xc1 xc2 (D_op XO_MULT) = num (PrimFloat.mul n1 n2) /\
   xp_numop sscanf_lf xc1 xc2 (D_op XO_DIV) = num (PrimFloat.div n1 n2) /\
   (forall i1 i2,
       double_trunc n1 = Some i1 -> INT_MIN <= i1 <= INT_MAX ->
       double_trunc n2 = Some i2 -> INT_MIN <= i2 <= INT_MAX ->
       i2 <> 0 -> ~ (i1 = INT_MIN /\ i2 = -1) ->
       xp_numop sscanf_lf xc1 xc2 (D_op XO_MOD) = num (int2double (Z.rem i1 i2)))).
Proof.
  intros H1 H2 num. unfold xp_numop. rewrite H1, H2. cbn [bind]. split.
  - intros Hnan op Hop. rewrite Hnan. reflexivity.
  - intros Hnan. rewrite Hnan. repeat split.
    intros i1 i2 T1 R1 T2 R2 Hz Hov.
    rewrite (proj2 (double2int_trunc n1 i1) (conj T1 R1)).
    rewrite (proj2 (double2int_trunc n2 i2) (conj T2 R2)). cbn [bind].
    unfold int_mod. destruct (i2 =? 0) eqn:E0; [apply Z.eqb_eq in E0; contradiction|].
    destruct ((i1 =? INT_MIN) && (i2 =? -1)) eqn:E1.
    + apply andb_true_iff in E1. destruct E1 as [Ea Eb].
      apply Z.eqb_eq in Ea. apply Z.eqb_eq in Eb. exfalso. apply Hov. auto.
    + reflexivity.
Qed.

Lemma xp_numop_spec_witness :
  xp_numop no_scan (ctx_number 7.5%float) (ctx_number 2%float) (D_op XO_MOD)
  = Ok (ctx_number 1%float) /\
  xp_numop no_scan (ctx_number 7.5%float) (ctx_number 2%float) (D_op XO_DIV)
  = Ok (ctx_number 3.75%float).
Proof.
  pose proof (xp_numop_spec no_scan (ctx_number 7.5%float) (ctx_number 2%float)
                eq_refl eq_refl) as [_ H].
  destruct (H eq_refl) as (_ & _ & _ & Hdiv & Hmod). split.
  - rewrite (Hmod 7 2); [reflexivity | reflexivity | unfold INT_MIN, INT_MAX; lia
                        | reflexivity | unfold INT_MIN, INT_MAX; lia | lia
                        | unfold INT_MIN; lia].
  - rewrite Hdiv. reflexivity.
Defined.

(** mod on operands that are not NaN has no defined result as soon as one of
    the two casts to int is undefined or the divisor is cut to 0: the only
    guard before "((int)n1)%((int)n2)" is the one for NaN. *)
Lemma xp_numop_mod_unguarded (sscanf_lf : string -> option float) (xc1 xc2 : xp_ctx)
      (n1 n2 : float) :
  ctx2number sscanf_lf xc1 = Ok n1 ->
  ctx2number sscanf_lf xc2 = Ok n2 ->
  PrimFloat.is_nan n1 || PrimFloat.is_nan n2 = false ->
  double2int n1 = Crash \/ double2int n2 = Crash \/ double2int n2 = Ok 0 ->
  xp_numop sscanf_lf xc1 xc2 (D_op XO_MOD) = Crash.
Proof.
  intros H1 H2 Hnan H. unfold xp_numop. rewrite H1, H2. cbn [bind].
  rewrite Hnan. destruct H as [H|[H|H]].
  - rewrite H. reflexivity.
  - rewrite H. destruct (double2int n1) as [i1| |] eqn:E1; try reflexivity.
    unfold double2int in E1. destruct (double_trunc n1) as [t|]; [|discriminate].
    destruct ((INT_MIN <=? t) && (t <=? INT_MAX)); discriminate.
  - rewrite H. destruct (double2int n1) as [i1| |] eqn:E1; try reflexivity.
    unfold double2int in E1. destruct (double_trunc n1) as [t|]; [|discriminate].
    destruct ((INT_MIN <=? t) && (t <=? INT_MAX)); discriminate.
Qed.

(** C8, the code where it leaves the claim.  Neither 4294967303 nor 5 is NaN,
    the two doubles are whole numbers and the remainder of the one by the
    other is 3; xp_numop has no result, because 4294967303 does not fit the
    int it is cast to.  The same holds for a divisor that is cut to 0
    (1 mod 0, 7 mod 0.5) and for an infinite operand: in all of them
    xp_numop runs into the undefined cast or remainder of C, where the four
    other operators give the result IEEE defines for the doubles. *)
Theorem xp_numop_mod_undefined :
  let num d := Ok (set_number (ctx_new XT_NUMBER None) d) in
  let big := ctx_number 4294967303%float in
  (PrimFloat.is_nan 4294967303%float = false /\
   double_trunc 4294967303%float = Some 4294967303 /\
   double_trunc 5%float = Some 5 /\
   Z.rem 4294967303 5 = 3 /\
   xp_numop no_scan big (ctx_number 5%float) (D_op XO_MOD) = Crash /\
   xp_numop no_scan big (ctx_number 5%float) (D_op XO_ADD) = num 4294967308%float) /\
  (double_trunc 0%float = Some 0 /\
   xp_numop no_scan (ctx_number 1%float) (ctx_number 0%float) (D_op XO_MOD) = Crash /\
   xp_numop no_scan (ctx_number 1%float) (ctx_number 0%float) (D_op XO_DIV)
   = num infinity) /\
  (double_trunc 0.5%float = Some 0 /\
   xp_numop no_scan (ctx_number 7%float) (ctx_number 0.5%float) (D_op XO_MOD) = Crash /\
   xp_numop no_scan (ctx_number 7%float) (ctx_number 0.5%float) (D_op XO_DIV)
   = num 14%float) /\
  (PrimFloat.is_nan infinity = false /\
   xp_numop no_scan (ctx_number infinity) (ctx_number 5%float) (D_op XO_MOD) = Crash) /\
  (forall sscanf_lf xc1 xc2 n1 n2,
      ctx2number sscanf_lf xc1 = Ok n1 ->
      ctx2number sscanf_lf xc2 = Ok n2 ->
      PrimFloat.is_nan n1 || PrimFloat.is_nan n2 = false ->
      double2int n1 = Crash \/ double2int n2 = Crash \/ double2int n2 = Ok 0 ->
      xp_numop sscanf_lf xc1 xc2 (D_op XO_MOD) = Crash).
Proof.
  cbv zeta. repeat split; try reflexivity.
  intros sscanf_lf xc1 xc2 n1 n2. apply xp_numop_mod_unguarded.
Qed.

(** ** Predicates *)

(** One round of the predicate loop: the candidate is the context node and
    the only member of the node-set the predicate expression is evaluated on;
    a number keeps the candidate when its int cast is the loop index, anything
    else when it converts to true. *)
Lemma predicate_loop_step (ev : evaluation) initial x rest i vec xc' xrc :
  ev (set_node (set_nodeset (ctx_new XT_NODESET initial) [x]) (Some x)) = Ok (xc', xrc) ->
  predicate_loop ev initial (x :: rest) i vec =
  match xc_type xrc with
  | XT_NUMBER =>
      do n <- double2int (xc_number xrc);
      predicate_loop ev initial rest (i + 1) (if n =? i then vec ++ [x] else vec)
  | _ =>
      predicate_loop ev initial rest (i + 1)
                     (if negb (ctx2boolean xrc =? 0) then vec ++ [x] else vec)
  end.
Proof.
  intros Hev. cbn [predicate_loop]. rewrite Hev. cbn [bind].
  destruct (xc_type xrc); try reflexivity.
  destruct (double2int (xc_number xrc)); reflexivity.
Qed.

(** A node of the expression grammar with one child and no operator hands
    on the result of the child. *)
Lemma xp_eval_single_child sscanf_lf ty d dbl s0 s1 c nsc xc :
  In ty [XP_EXP; XP_AND; XP_RELEX; XP_ADD; XP_UNION; XP_PATHEXPR; XP_LOCPATH; XP_PRI0] ->
  xp_eval sscanf_lf (XS ty d dbl s0 s1 (Some c) None) nsc xc =
  do '(xc', xr) <- xp_eval sscanf_lf c nsc xc; Ok (set_descendant xc' false, xr).
Proof.
  intros Hty. cbn [In] in Hty.
  repeat (destruct Hty as [<- | Hty];
          [cbn [xp_eval xp_eval_pre bind xp_eval_mid];
           destruct (xp_eval sscanf_lf c nsc xc) as [[xc' xr]| |]; reflexivity|]).
  destruct Hty.
Qed.

(** A number literal evaluates to that number. *)
Lemma xp_eval_number sscanf_lf d nsc xc :
  xp_eval sscanf_lf (xs_number d) nsc xc =
  Ok (set_descendant xc false, set_number (ctx_new XT_NUMBER (xc_initial xc)) d).
Proof. reflexivity. Qed.

(** The predicate [d] for a number d whose int cast is k keeps the candidate
    at position k, counted from 0, and no other. *)
Lemma predicate_loop_number sscanf_lf d k nsc initial :
  double2int d = Ok k ->
  forall nodes i vec,
    predicate_loop (xp_eval sscanf_lf (xs_number d) nsc) initial nodes i vec =
    Ok (vec ++ if i <=? k
               then match nth_error nodes (Z.to_nat (k - i)) with
                    | Some x => [x]
                    | None => []
                    end
               else []).
Proof.
  intros Hk nodes. induction nodes as [|x rest IH]; intros i vec.
  - cbn [predicate_loop]. destruct (i <=? k); [|now rewrite app_nil_r].
    destruct (Z.to_nat (k - i)); now rewrite app_nil_r.
  - cbn [predicate_loop]. rewrite xp_eval_number. cbn [bind xc_type set_number ctx_new
      xc_number]. rewrite Hk. cbn [bind]. rewrite IH.
    destruct (Z.eqb_spec k i) as [->|Hne].
    + rewrite Z.leb_refl, Z.sub_diag. cbn [Z.to_nat nth_error].
      destruct (i + 1 <=? i) eqn:E; [apply Z.leb_le in E; lia|].
      now rewrite app_nil_r.
    + destruct (i <=? k) eqn:E.
      * apply Z.leb_le in E.
        destruct (i + 1 <=? k) eqn:E'; [|apply Z.leb_gt in E'; lia].
        replace (Z.to_nat (k - i)) with (S (Z.to_nat (k - (i + 1)))) by lia.
        reflexivity.
      * apply Z.leb_gt in E.
        destruct (i + 1 <=? k) eqn:E'; [apply Z.leb_le in E'; lia|]. reflexivity.
Qed.

(** C1, the code at the failing input.  In <top><a>1</a><b>..</b></top> the
    step child::*[0.5] selects a, the candidate at position 0, although 0.5
    is not the number 0: the predicate compares the int cast of the number
    with the position.  (child::*[0] selects a and child::*[1] selects b:
    positions count from 0.) *)
Theorem xp_eval_predicate_number_cast :
  PrimFloat.eqb 0.5%float 0%float = false /\
  selected_names (xp_eval no_scan (xs_child_any_nr 0.5%float) None (ctx_init (at_root doc_top)))
  = Ok ["a"] /\
  selected_names (xp_eval no_scan (xs_child_any_nr 0%float) None (ctx_init (at_root doc_top)))
  = Ok ["a"] /\
  selected_names (xp_eval no_scan (xs_child_any_nr 1%float) None (ctx_init (at_root doc_top)))
  = Ok ["b"].
Proof. repeat split. Qed.

(** ** Paths *)

Lemma cxobj_forall_ind (P : cxobj -> Prop) :
  (forall t n p v f s cs, Forall P cs -> P (Cx t n p v f s cs)) ->
  forall x, P x.
Proof.
  intros H. fix IH 1. intros [t n p v f s cs]. apply H.
  induction cs as [|c cs IHcs]; constructor; [apply IH | exact IHcs].
Qed.

(** With the node test * and no flags, nodetest_recursive appends the element
    descendants of the node in document order. *)
Lemma nodetest_recursive_at_any (nt : xpath_tree) (nsc : option cvec) :
  xs_type nt = XP_NODE -> xs_s1 nt = Some "*" ->
  forall self up vec,
    nodetest_recursive_at self up (Some nt) CX_ELMNT 0 nsc vec
    = Ok (vec ++ descendants_at self up).
Proof.
  intros Hty Hs1 self. induction self as [t n p v f s cs IH] using cxobj_forall_ind.
  intros up vec. cbn [nodetest_recursive_at descendants_at].
  generalize (Cx t n p v f s cs) as self. intros self.
  revert vec. generalize 0%nat as i.
  induction IH as [|c cs Hc _ IHcs]; intros i vec.
  - now rewrite app_nil_r.
  - destruct (is_type CX_ELMNT c) eqn:Ety.
    + assert (Hnt : nodetest_eval_opt {| xn_self := c; xn_up := (self, i) :: up |}
                                      (Some nt) nsc = Ok 1).
      { destruct nt as [ty d dbl s0 s1 c0 c1]. cbn in Hty, Hs1. subst ty s1.
        reflexivity. }
      rewrite Hnt. cbn [bind Z.eqb Pos.eqb andb orb].
      rewrite Hc. cbn [bind]. rewrite IHcs.
      f_equal. rewrite <- !app_assoc. reflexivity.
    + rewrite IHcs. reflexivity.
Qed.

Lemma root_walk_is_root (self : cxobj) (up : list (cxobj * nat)) :
  xml_parent (root_walk self up) = None.
Proof.
  revert self. induction up as [|[p i] up IH]; intros self; cbn; [reflexivity | apply IH].
Qed.

Lemma for_each_node_single (body : xnode -> list xnode -> result (list xnode))
      (x : xnode) (vec : list xnode) :
  for_each_node body [x] vec = do vec' <- body x vec; Ok vec'.
Proof. cbn. destruct (body x vec); reflexivity. Qed.

(** C4, as the code has it.  An absolute path first moves the context node to
    its root ancestor and makes the (non-empty) node-set the singleton of the
    root, a leading // also setting the descendant flag, and evaluates the
    tail from there.  The path / alone yields the element children of the
    root, and //* yields the element descendants of the root in document
    order; neither holds the root itself. *)
Theorem xp_eval_abspath (sscanf_lf : string -> option float) (nsc : option cvec) :
  (forall d xc x0,
      xc_node xc = Some x0 -> xc_nodeset xc <> [] ->
      exists xc',
        xp_eval_pre XP_ABSPATH d xc = Ok xc' /\
        xc_node xc' = Some (xml_root x0) /\
        xc_nodeset xc' = [xml_root x0] /\
        List.length (xc_nodeset xc') = 1%nat /\
        xml_parent (xml_root x0) = None /\
        xc_descendant xc' = (is_axis A_DESCENDANT_OR_SELF d || xc_descendant xc)%bool) /\
  (forall d dbl s0 s1 tail xc,
      xp_eval sscanf_lf (XS XP_ABSPATH d dbl s0 s1 (Some tail) None) nsc xc =
      do xc1 <- xp_eval_pre XP_ABSPATH d xc;
      do '(xc2, xr) <- xp_eval sscanf_lf tail nsc xc1;
      Ok (set_descendant xc2 false, xr)) /\
  (forall x, exists xc' xr,
        xp_eval sscanf_lf xs_slash nsc (ctx_init x) = Ok (xc', xr) /\
        xc_type xr = XT_NODESET /\
        xc_nodeset xr = xml_child_each (xml_root x) CX_ELMNT) /\
  (forall x, exists xc' xr,
        xp_eval sscanf_lf (xs_dslash xs_child_any) nsc (ctx_init x) = Ok (xc', xr) /\
        xc_type xr = XT_NODESET /\
        xc_nodeset xr = descendant_elements (xml_root x)).
Proof.
  split; [|split; [|split]].
  - intros d xc x0 Hnode Hset. unfold xp_eval_pre. rewrite Hnode.
    cbn [set_node xc_nodeset]. destruct (xc_nodeset xc) as [|y ys]; [congruence|].
    pose proof (root_walk_is_root (xn_self x0) (xn_up x0)) as Hroot.
    fold (xml_root x0) in Hroot.
    eexists. split; [reflexivity|].
    destruct (is_axis A_DESCENDANT_OR_SELF d); cbn; auto 10.
  - intros d dbl s0 s1 tail xc. cbn [xp_eval].
    destruct (xp_eval_pre XP_ABSPATH d xc) as [xc1| |]; cbn [bind]; try reflexivity.
    destruct (xp_eval sscanf_lf tail nsc xc1) as [[xc2 xr]| |]; reflexivity.
  - intros x. do 2 eexists. cbn. split; [reflexivity|]. split; reflexivity.
  - intros x. cbn [xs_dslash xs_child_any xp_eval xp_eval_pre ctx_init xc_node set_node
                   set_nodeset xc_nodeset ctx_new is_axis bind xp_eval_step ctx_dup
                   xc_descendant set_descendant xs_leaf xs_nopred xp_eval_predicate
                   xp_eval_mid xp_eval_post].
    unfold xp_eval_step, ctx_dup.
    cbn [xc_descendant set_descendant set_nodeset set_node xc_nodeset ctx_init ctx_new].
    rewrite for_each_node_single. unfold nodetest_recursive.
    rewrite nodetest_recursive_at_any by reflexivity. cbn.
    do 2 eexists. split; [reflexivity|]. split; reflexivity.
Qed.

(** C4 as claimed fails: on <top><a>1</a><b><c/></b></top> the path / selects
    the children a and b of the root and not the root top, and //* selects a,
    b and c but not the element top. *)
Lemma xp_eval_slash_is_not_root :
  (forall xc' xr,
      xp_eval no_scan xs_slash None (ctx_init (at_root doc_top)) = Ok (xc', xr) ->
      xc_nodeset xr <> [at_root doc_top]) /\
  selected_names (xp_eval no_scan xs_slash None (ctx_init (at_root doc_top)))
  = Ok ["a"; "b"] /\
  selected_names (xp_eval no_scan (xs_dslash xs_child_any) None (ctx_init (at_root doc_top)))
  = Ok ["a"; "b"; "c"].
Proof.
  split; [|split; reflexivity].
  intros xc' xr H. cbn in H. injection H as _ <-. cbn. discriminate.
Qed.

Lemma xp_eval_abspath_witness :
  exists xc',
    xp_eval_pre XP_ABSPATH (D_axis A_DESCENDANT_OR_SELF) (ctx_init doc_ns_a) = Ok xc' /\
    xc_node xc' = Some (at_root doc_ns) /\
    xc_nodeset xc' = [at_root doc_ns] /\
    xc_descendant xc' = true.
Proof.
  destruct (proj1 (xp_eval_abspath no_scan None) (D_axis A_DESCENDANT_OR_SELF)
                  (ctx_init doc_ns_a) doc_ns_a eq_refl)
    as (xc' & H1 & H2 & H3 & _ & _ & H4).
  - discriminate.
  - exists xc'. repeat split; assumption.
Defined.

(** ** With-defaults: absent, unknown and empty modes *)

(** C10.  Without a with-defaults element, or with one whose body is none of
    explicit, trim and report-all-tagged (report-all included), the tree is
    returned as it is and the step succeeds.  A with-defaults element without
    any body makes the step return -1, and get_common then leaves with -1
    from that step without writing anything to the reply. *)
Theorem with_defaults_other_modes (xret : cxobj) :
  (forall xe, xml_find xe "with-defaults" = None ->
              with_defaults (Some xe) xret = Some xret) /\
  (forall xe wd mode,
      xml_find xe "with-defaults" = Some wd ->
      xml_find_value wd "body" = Some mode ->
      mode <> "explicit" -> mode <> "trim" -> mode <> "report-all-tagged" ->
      with_defaults (Some xe) xret = Some xret) /\
  (forall xe wd,
      xml_find (xn_self xe) "with-defaults" = Some wd ->
      xml_find_value wd "body" = None ->
      with_defaults (Some (xn_self xe)) xret = None /\
      forall h content xpath nsc username depth st,
        finish (get_common_tail h xe content xpath nsc username depth xret) st = (-1, st)).
Proof.
  split; [|split].
  - intros xe Hfind. unfold with_defaults. now rewrite Hfind.
  - intros xe wd mode Hfind Hbody H1 H2 H3. unfold with_defaults.
    rewrite Hfind, Hbody.
    rewrite (strcmp_neq H1), (strcmp_neq H2), (strcmp_neq H3).
    destruct (strcmp mode "report-all" =? 0); reflexivity.
  - intros xe wd Hfind Hbody.
    assert (Hwd : with_defaults (Some (xn_self xe)) xret = None).
    { unfold with_defaults. now rewrite Hfind, Hbody. }
    split; [exact Hwd|].
    intros h content xpath nsc username depth st.
    unfold finish, get_common_tail. rewrite Hwd. reflexivity.
Qed.

Lemma with_defaults_other_modes_witness :
  with_defaults (Some req_nobody) doc_defaults = None /\
  finish (get_common h_sample 1 (at_root req_nobody) CONTENT_CONFIG "running") st0
  = (-1, {| cbret := []; calls := [ev_xmldb_get0 "running" (Some "/")] |}).
Proof.
  destruct (proj2 (proj2 (with_defaults_other_modes doc_defaults))
                  (at_root req_nobody) (elem "with-defaults" []) eq_refl eq_refl)
    as [Hwd Htail].
  split; [exact Hwd|].
  change (finish (get_common h_sample 1 (at_root req_nobody) CONTENT_CONFIG "running") st0)
    with (let '(r, st) :=
            finish (get_common_tail h_sample (at_root req_nobody) CONTENT_CONFIG None None
                                    None (-1) doc_defaults)
                   {| cbret := []; calls := [ev_xmldb_get0 "running" (Some "/")] |} in
          (r, st)).
  rewrite Htail. reflexivity.
Defined.

(** ** The MARK flag *)
































(** ** List pagination *)

Lemma keeps_calls_ret (A : Type) (a : A) : keeps_calls (hret a).
Proof. intros st. reflexivity. Qed.

Lemma keeps_calls_bind (A B : Type) (m : handler A) (k : A -> handler B) :
  keeps_calls m -> (forall a, keeps_calls (k a)) -> keeps_calls (hbind m k).
Proof.
  intros Hm Hk st. unfold hbind. specialize (Hm st).
  destruct (m st) as [[a|r] st']; cbn in *; [now rewrite Hk | exact Hm].
Qed.

Lemma keeps_calls_goto_ok (A : Type) : keeps_calls (@goto_ok A).
Proof. intros st. reflexivity. Qed.

Lemma keeps_calls_goto_done (A : Type) : keeps_calls (@goto_done A).
Proof. intros st. reflexivity. Qed.

Lemma keeps_calls_or_done (A : Type) (o : option A) : keeps_calls (or_done o).
Proof. destruct o; intros st; reflexivity. Qed.

Lemma keeps_calls_emit (r : reply) : keeps_calls (emit r).
Proof. intros st. reflexivity. Qed.

Ltac calls_step :=
  lazymatch goal with
  | |- keeps_calls (hret _) => apply keeps_calls_ret
  | |- keeps_calls goto_ok => apply keeps_calls_goto_ok
  | |- keeps_calls goto_done => apply keeps_calls_goto_done
  | |- keeps_calls (or_done _) => apply keeps_calls_or_done
  | |- keeps_calls (emit _) => apply keeps_calls_emit
  | |- keeps_calls (netconf_invalid_value _ _) => apply keeps_calls_emit
  | |- keeps_calls (netconf_operation_failed _ _) => apply keeps_calls_emit
  | |- keeps_calls (hbind _ _) => apply keeps_calls_bind; [|intros ?]
  | |- keeps_calls (match ?x with _ => _ end) => destruct x
  end.

Lemma keeps_calls_nacm_and_reply h xret xvec username depth :
  keeps_calls (get_nacm_and_reply h xret xvec username depth).
Proof. unfold get_nacm_and_reply. repeat calls_step. Qed.

(** C7.  When the target of a list-pagination request resolves to no schema
    node, or to one that is neither list nor leaf-list, or to a config list
    while the content is nonconfig, or to a state list while the content is
    config, get_list_pagination writes one rpc-error with error-tag
    invalid-value, returns 0, and has made no call to the datastore or to the
    pagination callback. *)
Theorem get_list_pagination_preconditions (h : clicon_handle) (ce_id : Z) (xe : xnode)
        (content : netconf_content) (db : string) (depth : Z) (xpath : option string)
        (nsc : option cvec) (username : option string) (st : hstate)
        (ylist : option yang_stmt) :
  h_yang_path_arg h (xpath_or_root xpath) = Some ylist ->
  (ylist = None \/
   (exists y, ylist = Some y /\ ys_keyword y <> Y_LIST /\ ys_keyword y <> Y_LEAF_LIST) \/
   (exists y, ylist = Some y /\ ys_config_ancestor y = true /\ content = CONTENT_NONCONFIG) \/
   (exists y, ylist = Some y /\ ys_config_ancestor y = false /\ content = CONTENT_CONFIG)) ->
  exists msg,
    finish (get_list_pagination h ce_id xe content db depth xpath nsc username) st =
    (0, {| cbret := cbret st ++ [rpc_error "invalid-value" "application" "" msg];
           calls := calls st |}).
Proof.
  intros Hpath Hcase. unfold finish, get_list_pagination. rewrite Hpath.
  cbn [or_done hbind hret].
  destruct Hcase as [-> | [(y & -> & Hl & Hll) | [(y & -> & Hc & ->) | (y & -> & Hc & ->)]]].
  - eexists. reflexivity.
  - destruct (ys_keyword y); try contradiction; eexists; reflexivity.
  - destruct (negb (yang_keyword_eqb (ys_keyword y) Y_LIST)
              && negb (yang_keyword_eqb (ys_keyword y) Y_LEAF_LIST)).
    + eexists. reflexivity.
    + rewrite Hc. eexists. reflexivity.
  - destruct (negb (yang_keyword_eqb (ys_keyword y) Y_LIST)
              && negb (yang_keyword_eqb (ys_keyword y) Y_LEAF_LIST)).
    + eexists. reflexivity.
    + rewrite Hc. eexists. reflexivity.
Qed.

Lemma get_list_pagination_preconditions_witness :
  exists msg,
    finish (get_list_pagination h_sample 1 req_page_inner CONTENT_NONCONFIG "running" (-1)
                                (Some "/l") None None) st0 =
    (0, {| cbret := [rpc_error "invalid-value" "application" "" msg]; calls := [] |}).
Proof.
  apply (@get_list_pagination_preconditions h_sample 1 req_page_inner CONTENT_NONCONFIG
           "running" (-1) (Some "/l") None None st0 (Some (list_schema "l" true)) eq_refl).
  right. right. left. exists (list_schema "l" true). repeat split.
Defined.

(** A request with a list-pagination child, no filter and no depth attribute
    is answered by get_list_pagination on that child. *)
Lemma get_common_list_pagination h ce_id xe content db inner st :
  h_dbspec_yang h = true ->
  xml_find_node xe "filter" = None ->
  xml_find_value (xn_self xe) "depth" = None ->
  xml_find_type_node xe "list-pagination" CX_ELMNT = Some inner ->
  finish (get_common h ce_id xe content db) st =
  finish (get_list_pagination h ce_id inner content db (-1) None None (h_username h)) st.
Proof.
  intros Hy Hf Hd Hp. unfold finish, get_common. rewrite Hy, Hf, Hd, Hp.
  cbn [negb hbind hret]. unfold hbind.
  destruct (get_list_pagination _ _ _ _ _ _ _ _ _ st) as [[[]|r] st']; reflexivity.
Qed.

Lemma adds_calls_bind (A B : Type) (l : list event) (m : handler A) (k : A -> handler B) :
  adds_calls l m -> (forall a, keeps_calls (k a)) -> adds_calls l (hbind m k).
Proof.
  intros Hm Hk st. unfold hbind. specialize (Hm st).
  destruct (m st) as [[a|r] st']; cbn in *; [now rewrite Hk | exact Hm].
Qed.

Lemma adds_calls_called (A : Type) (e : event) (m : handler A) :
  keeps_calls m -> adds_calls [e] (hbind (called e) (fun _ => m)).
Proof. intros Hm st. unfold hbind, called. now rewrite Hm. Qed.



(** ** With-defaults: trim *)

Lemma strcmp_eqb (a b : string) : (strcmp a b =? 0) = (a =? b)%string.
Proof.
  destruct (a =? b)%string eqn:E.
  - apply String.eqb_eq in E. subst. apply strcmp_refl.
  - apply String.eqb_neq in E. now apply strcmp_neq.
Qed.

Lemma land_single_bit (f n : Z) :
  0 <= n -> Z.land f (2 ^ n) = if Z.testbit f n then 2 ^ n else 0.
Proof.
  intros Hn. apply Z.bits_inj'. intros m Hm.
  rewrite Z.land_spec, Z.pow2_bits_eqb by lia.
  destruct (Z.eqb_spec n m) as [->|Hne].
  - destruct (Z.testbit f m) eqn:E; cbn.
    + now rewrite Z.pow2_bits_eqb, Z.eqb_refl by lia.
    + now rewrite Z.bits_0.
  - rewrite andb_false_r. destruct (Z.testbit f n).
    + rewrite Z.pow2_bits_eqb by lia. symmetry. now apply Z.eqb_neq.
    + now rewrite Z.bits_0.
Qed.

Lemma flag_mark_cases (f : Z) : Z.land f XML_FLAG_MARK = 0 \/ Z.land f XML_FLAG_MARK = 1.
Proof.
  change XML_FLAG_MARK with (2 ^ 0). rewrite land_single_bit by lia.
  destruct (Z.testbit f 0); auto.
Qed.

Lemma flag_default_cases (f : Z) :
  Z.land f XML_FLAG_DEFAULT = 0 \/ Z.land f XML_FLAG_DEFAULT = XML_FLAG_DEFAULT.
Proof.
  change XML_FLAG_DEFAULT with (2 ^ 6). rewrite land_single_bit by lia.
  destruct (Z.testbit f 6); auto.
Qed.

(** Setting or clearing MARK leaves the DEFAULT bit alone. *)
Lemma flag_default_after_reset (f : Z) :
  Z.land (Z.ldiff f XML_FLAG_MARK) XML_FLAG_DEFAULT = Z.land f XML_FLAG_DEFAULT.
Proof. rewrite Z.ldiff_land, <- Z.land_assoc. reflexivity. Qed.

Lemma flag_default_after_set (f : Z) :
  Z.land (Z.lor f XML_FLAG_MARK) XML_FLAG_DEFAULT = Z.land f XML_FLAG_DEFAULT.
Proof. rewrite Z.land_lor_distr_l. cbn. apply Z.lor_0_r. Qed.

Lemma flag_mark_after_set (f : Z) : Z.land (Z.lor f XML_FLAG_MARK) XML_FLAG_MARK = 1.
Proof.
  rewrite Z.land_lor_distr_l. destruct (flag_mark_cases f) as [-> | ->]; reflexivity.
Qed.

Lemma prune_flags_unfold t n p v f s cs flags mask :
  xml_tree_prune_flags (Cx t n p v f s cs) flags mask
  = Cx t n p v f s (flat_map (prune_child flags mask) cs).
Proof.
  cbn [xml_tree_prune_flags]. f_equal.
  match goal with |- ?F cs = _ => set (each := F) end.
  induction cs as [|c cs IH]; [reflexivity|].
  change (each (c :: cs))
    with (if is_type CX_ELMNT c
          then if xml_flag c mask =? flags then each cs
               else xml_tree_prune_flags c flags mask :: each cs
          else c :: each cs).
  cbn [flat_map]. unfold prune_child at 1. rewrite IH.
  destruct (is_type CX_ELMNT c); [destruct (xml_flag c mask =? flags)|]; reflexivity.
Qed.

Lemma prune_flags_type x flags mask :
  x_type (xml_tree_prune_flags x flags mask) = x_type x.
Proof. destruct x. now rewrite prune_flags_unfold. Qed.

Lemma prune_flags_flags x flags mask :
  x_flags (xml_tree_prune_flags x flags mask) = x_flags x.
Proof. destruct x. now rewrite prune_flags_unfold. Qed.

Lemma prune_flags_spec x flags mask :
  x_spec (xml_tree_prune_flags x flags mask) = x_spec x.
Proof. destruct x. now rewrite prune_flags_unfold. Qed.

Lemma prune_flags_name x flags mask :
  x_name (xml_tree_prune_flags x flags mask) = x_name x.
Proof. destruct x. now rewrite prune_flags_unfold. Qed.

Lemma prune_flags_is_type ty x flags mask :
  is_type ty (xml_tree_prune_flags x flags mask) = is_type ty x.
Proof. unfold is_type. now rewrite prune_flags_type. Qed.

Lemma is_type_elmnt_not_body c : is_type CX_ELMNT c = true -> is_type CX_BODY c = false.
Proof. unfold is_type. destruct (x_type c); cbn; congruence. Qed.

Lemma prune_flags_body x flags mask :
  xml_body_of (xml_tree_prune_flags x flags mask) = xml_body_of x.
Proof.
  destruct x as [t n p v f s cs]. rewrite prune_flags_unfold.
  unfold xml_body_of. cbn [x_childvec].
  replace (filter (is_type CX_BODY) (flat_map (prune_child flags mask) cs))
    with (filter (is_type CX_BODY) cs); [reflexivity|].
  induction cs as [|c cs IH]; [reflexivity|].
  cbn [flat_map filter]. rewrite filter_app, <- IH. unfold prune_child.
  destruct (is_type CX_ELMNT c) eqn:E.
  - rewrite (is_type_elmnt_not_body _ E).
    destruct (xml_flag c mask =? flags); [reflexivity|].
    cbn [filter app]. rewrite prune_flags_is_type.
    now rewrite (is_type_elmnt_not_body _ E).
  - cbn [filter app]. destruct (is_type CX_BODY c); reflexivity.
Qed.

Lemma prune_flags_body_is_default x flags mask :
  body_is_default (xml_tree_prune_flags x flags mask) = body_is_default x.
Proof. unfold body_is_default. now rewrite prune_flags_body, prune_flags_spec. Qed.

Lemma apply_default_value_unfold t n p v f s cs :
  apply_default_value (Cx t n p v f s cs)
  = Cx t n p v
       (if cxobj_type_eqb t CX_ELMNT
        then x_flags (xml_flag_default_value (Cx t n p v f s cs) XML_FLAG_MARK) else f)
       s
       (map (fun c => if is_type CX_ELMNT c then apply_default_value c else c) cs).
Proof.
  unfold apply_default_value at 1. cbn [xml_apply].
  destruct (cxobj_type_eqb t CX_ELMNT); [|reflexivity].
  cbn [applyfn_flag_default_value]. now rewrite app_nil_r.
Qed.

Lemma apply_default_value_type x : x_type (apply_default_value x) = x_type x.
Proof. destruct x. now rewrite apply_default_value_unfold. Qed.

Lemma apply_default_value_is_type ty x : is_type ty (apply_default_value x) = is_type ty x.
Proof. unfold is_type. now rewrite apply_default_value_type. Qed.

Lemma apply_default_value_spec x : x_spec (apply_default_value x) = x_spec x.
Proof. destruct x. now rewrite apply_default_value_unfold. Qed.

Lemma apply_default_value_name x : x_name (apply_default_value x) = x_name x.
Proof. destruct x. now rewrite apply_default_value_unfold. Qed.

Lemma apply_default_value_body x : xml_body_of (apply_default_value x) = xml_body_of x.
Proof.
  destruct x as [t n p v f s cs]. rewrite apply_default_value_unfold.
  unfold xml_body_of. cbn [x_childvec].
  replace (filter (is_type CX_BODY)
                  (map (fun c => if is_type CX_ELMNT c then apply_default_value c else c) cs))
    with (filter (is_type CX_BODY) cs); [reflexivity|].
  induction cs as [|c cs IH]; [reflexivity|].
  cbn [map filter]. rewrite <- IH.
  destruct (is_type CX_ELMNT c) eqn:E; [|reflexivity].
  now rewrite apply_default_value_is_type, (is_type_elmnt_not_body _ E).
Qed.

Lemma apply_default_value_body_is_default x :
  body_is_default (apply_default_value x) = body_is_default x.
Proof.
  unfold body_is_default. now rewrite apply_default_value_body, apply_default_value_spec.
Qed.

(** xml_flag_default_value leaves MARK set exactly on an object whose body is
    its schema default, and does not touch DEFAULT. *)
Lemma xml_flag_default_value_mark x :
  xml_flag (xml_flag_default_value x XML_FLAG_MARK) XML_FLAG_MARK
  = if body_is_default x then 1 else 0.
Proof.
  destruct x as [t n p v f s cs].
  unfold xml_flag_default_value, body_is_default, schema_default.
  cbn [xml_flag_reset with_flags x_flags x_spec].
  change (xml_body_of (Cx t n p v (Z.ldiff f XML_FLAG_MARK) s cs))
    with (xml_body_of (Cx t n p v f s cs)).
  assert (Hreset : xml_flag (Cx t n p v (Z.ldiff f XML_FLAG_MARK) s cs) XML_FLAG_MARK = 0).
  { unfold xml_flag. cbn [x_flags]. apply Z.land_ldiff. }
  destruct (xml_body_of (Cx t n p v f s cs)) as [xv|]; [|exact Hreset].
  destruct s as [y|]; [|exact Hreset].
  destruct (ys_cv y) as [cv|]; [|exact Hreset].
  destruct (cv_name cv); [|exact Hreset].
  destruct (cv_str cv) as [yv|]; [|exact Hreset].
  rewrite strcmp_eqb. destruct (xv =? yv)%string; [|exact Hreset].
  unfold xml_flag, xml_flag_set. cbn [with_flags x_flags]. apply flag_mark_after_set.
Qed.

Lemma xml_flag_default_value_default x :
  xml_flag (xml_flag_default_value x XML_FLAG_MARK) XML_FLAG_DEFAULT
  = xml_flag x XML_FLAG_DEFAULT.
Proof.
  destruct x as [t n p v f s cs].
  unfold xml_flag_default_value.
  cbn [xml_flag_reset with_flags x_flags x_spec].
  change (xml_body_of (Cx t n p v (Z.ldiff f XML_FLAG_MARK) s cs))
    with (xml_body_of (Cx t n p v f s cs)).
  assert (Hreset : xml_flag (Cx t n p v (Z.ldiff f XML_FLAG_MARK) s cs) XML_FLAG_DEFAULT
                   = xml_flag (Cx t n p v f s cs) XML_FLAG_DEFAULT).
  { unfold xml_flag. cbn [x_flags]. apply flag_default_after_reset. }
  destruct (xml_body_of (Cx t n p v f s cs)) as [xv|]; [|exact Hreset].
  destruct s as [y|]; [|exact Hreset].
  destruct (ys_cv y) as [cv|]; [|exact Hreset].
  destruct (cv_name cv); [|exact Hreset].
  destruct (cv_str cv) as [yv|]; [|exact Hreset].
  destruct (strcmp xv yv =? 0); [|exact Hreset].
  unfold xml_flag, xml_flag_set. cbn [with_flags x_flags].
  rewrite flag_default_after_set. apply flag_default_after_reset.
Qed.

Lemma apply_default_value_mark x :
  is_type CX_ELMNT x = true ->
  xml_flag (apply_default_value x) XML_FLAG_MARK = if body_is_default x then 1 else 0.
Proof.
  destruct x as [t n p v f s cs]. intros E. unfold is_type in E. cbn [x_type] in E.
  rewrite apply_default_value_unfold, E.
  unfold xml_flag at 1. cbn [x_flags]. apply xml_flag_default_value_mark.
Qed.

Lemma apply_default_value_default x :
  xml_flag (apply_default_value x) XML_FLAG_DEFAULT = xml_flag x XML_FLAG_DEFAULT.
Proof.
  destruct x as [t n p v f s cs]. rewrite apply_default_value_unfold.
  destruct (cxobj_type_eqb t CX_ELMNT); [|reflexivity].
  unfold xml_flag at 1. cbn [x_flags]. apply xml_flag_default_value_default.
Qed.

(** The shape of a trimmed tree: the top object keeps everything but its
    flags, and each child is dropped, trimmed or kept as [trim_child] says. *)
Lemma trim_unfold t n p v f s cs :
  trim (Cx t n p v f s cs)
  = Cx t n p v (x_flags (apply_default_value (Cx t n p v f s cs))) s
       (flat_map (trim_child trim) cs).
Proof.
  unfold trim. fold (apply_default_value
                       (xml_tree_prune_flags (Cx t n p v f s cs)
                                             XML_FLAG_DEFAULT XML_FLAG_DEFAULT)).
  rewrite prune_flags_unfold, apply_default_value_unfold, prune_flags_unfold.
  f_equal.
  - rewrite apply_default_value_unfold. cbn [x_flags].
    destruct (cxobj_type_eqb t CX_ELMNT); [|reflexivity].
    assert (Hflags : forall x, x_flags (xml_flag_default_value x XML_FLAG_MARK)
                     = if body_is_default x
                       then Z.lor (Z.ldiff (x_flags x) XML_FLAG_MARK) XML_FLAG_MARK
                       else Z.ldiff (x_flags x) XML_FLAG_MARK).
    { intros [t' n' p' v' f' s' cs']. unfold xml_flag_default_value, body_is_default,
        schema_default. cbn [xml_flag_reset with_flags x_flags x_spec].
      change (xml_body_of (Cx t' n' p' v' (Z.ldiff f' XML_FLAG_MARK) s' cs'))
        with (xml_body_of (Cx t' n' p' v' f' s' cs')).
      destruct (xml_body_of (Cx t' n' p' v' f' s' cs')); [|reflexivity].
      destruct s' as [y|]; [|reflexivity].
      destruct (ys_cv y) as [cv|]; [|reflexivity].
      destruct (cv_name cv); [|reflexivity].
      destruct (cv_str cv); [|reflexivity].
      rewrite strcmp_eqb. destruct (_ =? _)%string; reflexivity. }
    rewrite !Hflags. cbn [x_flags].
    replace (body_is_default
               (Cx t n p v f s (flat_map (prune_child XML_FLAG_DEFAULT XML_FLAG_DEFAULT) cs)))
      with (body_is_default (Cx t n p v f s cs)).
    2:{ rewrite <- (prune_flags_body_is_default (Cx t n p v f s cs)
                      XML_FLAG_DEFAULT XML_FLAG_DEFAULT).
        now rewrite prune_flags_unfold. }
    reflexivity.
  - induction cs as [|c cs IH]; [reflexivity|].
    cbn [flat_map]. rewrite map_app, flat_map_app, IH. f_equal.
    unfold prune_child at 2, trim_child.
    destruct (is_type CX_ELMNT c) eqn:E.
    + destruct (xml_flag c XML_FLAG_DEFAULT =? XML_FLAG_DEFAULT); [reflexivity|].
      cbn [map flat_map]. rewrite app_nil_r. rewrite prune_flags_is_type, E.
      unfold prune_child. rewrite apply_default_value_is_type, prune_flags_is_type, E.
      rewrite apply_default_value_mark by now rewrite prune_flags_is_type.
      rewrite prune_flags_body_is_default.
      destruct (body_is_default c); reflexivity.
    + cbn [map flat_map]. rewrite E, app_nil_r. unfold prune_child. now rewrite E.
Qed.

Lemma trim_is_type ty x : is_type ty (trim x) = is_type ty x.
Proof. destruct x. now rewrite trim_unfold. Qed.

Lemma trim_name x : x_name (trim x) = x_name x.
Proof. destruct x. now rewrite trim_unfold. Qed.

Lemma trim_spec x : x_spec (trim x) = x_spec x.
Proof. destruct x. now rewrite trim_unfold. Qed.

Lemma trim_body x : xml_body_of (trim x) = xml_body_of x.
Proof.
  unfold trim. rewrite prune_flags_body.
  fold (apply_default_value (xml_tree_prune_flags x XML_FLAG_DEFAULT XML_FLAG_DEFAULT)).
  now rewrite apply_default_value_body, prune_flags_body.
Qed.

Lemma trim_body_is_default x : body_is_default (trim x) = body_is_default x.
Proof. unfold body_is_default. now rewrite trim_body, trim_spec. Qed.

Lemma trim_flag_default x : xml_flag (trim x) XML_FLAG_DEFAULT = xml_flag x XML_FLAG_DEFAULT.
Proof.
  unfold trim. unfold xml_flag at 1. rewrite prune_flags_flags.
  fold (apply_default_value (xml_tree_prune_flags x XML_FLAG_DEFAULT XML_FLAG_DEFAULT)).
  fold (xml_flag (apply_default_value
                    (xml_tree_prune_flags x XML_FLAG_DEFAULT XML_FLAG_DEFAULT))
                 XML_FLAG_DEFAULT).
  rewrite apply_default_value_default. unfold xml_flag. now rewrite prune_flags_flags.
Qed.

Lemma xml_forall_split (P : cxobj -> bool) (x : cxobj) :
  xml_forall P x = P x && xml_forall_below P x.
Proof. destruct x. reflexivity. Qed.

(** What trim leaves of a child is the trimmed child, and then the child was
    an element neither flagged DEFAULT nor holding its schema default, or it
    is a child that is no element. *)
Lemma in_trim_child c c' :
  In c' (trim_child trim c) ->
  (c' = trim c /\ is_type CX_ELMNT c = true /\
   (xml_flag c XML_FLAG_DEFAULT =? XML_FLAG_DEFAULT) = false /\ body_is_default c = false)
  \/ (c' = c /\ is_type CX_ELMNT c = false).
Proof.
  unfold trim_child. destruct (is_type CX_ELMNT c) eqn:E.
  - destruct (xml_flag c XML_FLAG_DEFAULT =? XML_FLAG_DEFAULT) eqn:Ed; [intros []|].
    destruct (body_is_default c) eqn:Eb; [intros []|].
    intros [<-|[]]. left. auto.
  - intros [<-|[]]. right. auto.
Qed.

(** After trim no element below the top object holds its schema default. *)
Lemma trim_below_not_default (x : cxobj) :
  xml_forall_below not_default_valued (trim x) = true.
Proof.
  induction x as [t n p v f s cs IH] using cxobj_forall_ind.
  rewrite trim_unfold. unfold xml_forall_below. cbn [x_childvec].
  rewrite forallb_forall. intros c' Hin. apply in_flat_map in Hin.
  destruct Hin as (c & Hc & Hin). rewrite Forall_forall in IH.
  destruct (in_trim_child _ _ Hin) as [(-> & E & _ & Eb) | (-> & E)].
  - rewrite xml_forall_split, (IH c Hc), andb_true_r.
    unfold not_default_valued. rewrite trim_body_is_default, Eb. cbn.
    now rewrite !orb_true_r.
  - now rewrite E.
Qed.

(** After trim no element below the top object is flagged DEFAULT. *)
Lemma trim_below_default_clear (x : cxobj) :
  xml_forall_below default_clear (trim x) = true.
Proof.
  induction x as [t n p v f s cs IH] using cxobj_forall_ind.
  rewrite trim_unfold. unfold xml_forall_below. cbn [x_childvec].
  rewrite forallb_forall. intros c' Hin. apply in_flat_map in Hin.
  destruct Hin as (c & Hc & Hin). rewrite Forall_forall in IH.
  destruct (in_trim_child _ _ Hin) as [(-> & E & Ed & _) | (-> & E)].
  - rewrite xml_forall_split, (IH c Hc), andb_true_r.
    unfold default_clear. rewrite trim_flag_default.
    destruct (flag_default_cases (x_flags c)) as [H0 | H1].
    + unfold xml_flag. rewrite H0. cbn. now rewrite !orb_true_r.
    + unfold xml_flag in Ed. rewrite H1 in Ed. cbn in Ed. discriminate.
  - now rewrite E.
Qed.

Lemma trim_keeps_child t c :
  In c (x_childvec t) -> trim_keeps c = true -> In (trim c) (x_childvec (trim t)).
Proof.
  destruct t as [t n p v f s cs]. cbn [x_childvec]. intros Hin Hk.
  rewrite trim_unfold. cbn [x_childvec]. apply in_flat_map. exists c. split; [exact Hin|].
  unfold trim_keeps in Hk. apply andb_true_iff in Hk. destruct Hk as [Hk Hb].
  apply andb_true_iff in Hk. destruct Hk as [He Hd].
  unfold trim_child. rewrite He.
  apply Z.eqb_eq in Hd. rewrite Hd. cbn [Z.eqb XML_FLAG_DEFAULT].
  apply negb_true_iff in Hb. rewrite Hb. now left.
Qed.

(** An element that trim has no reason to drop is found, trimmed, in the
    trimmed tree. *)
Lemma trim_survivor_below t e : trim_survivor t e -> xml_below (trim t) (trim e).
Proof.
  induction 1 as [t c Hin Hk | t c e Hin Hk _ IH].
  - apply below_child. now apply trim_keeps_child.
  - apply below_deeper with (c := trim c); [now apply trim_keeps_child | exact IH].
Qed.

(** C5.  In mode trim the tree is first pruned of the nodes flagged DEFAULT,
    then the nodes whose body equals the schema default are marked and
    pruned.  In the result no element below the top object is flagged
    DEFAULT or has a body equal to its schema default (none at all when the
    top object, the datastore top, has no schema node), and an element that
    is not flagged DEFAULT, whose body differs from its schema default, and
    whose ancestors below the top are such too, is still there with its name,
    body and schema node. *)
Theorem with_defaults_trim (xe wd xret : cxobj) :
  xml_find xe "with-defaults" = Some wd ->
  xml_find_value wd "body" = Some "trim" ->
  with_defaults (Some xe) xret
  = Some (xml_tree_prune_flags
            (xml_apply (xml_tree_prune_flags xret XML_FLAG_DEFAULT XML_FLAG_DEFAULT)
                       CX_ELMNT (applyfn_flag_default_value XML_FLAG_MARK))
            XML_FLAG_MARK XML_FLAG_MARK) /\
  with_defaults (Some xe) xret = Some (trim xret) /\
  xml_forall_below default_clear (trim xret) = true /\
  xml_forall_below not_default_valued (trim xret) = true /\
  (x_spec xret = None -> xml_forall not_default_valued (trim xret) = true) /\
  (forall e, trim_survivor xret e ->
             xml_below (trim xret) (trim e) /\
             is_type CX_ELMNT (trim e) = true /\
             x_name (trim e) = x_name e /\
             xml_body_of (trim e) = xml_body_of e /\
             x_spec (trim e) = x_spec e).
Proof.
  intros Hfind Hbody.
  assert (Hwd : with_defaults (Some xe) xret = Some (trim xret)).
  { unfold with_defaults. rewrite Hfind, Hbody. reflexivity. }
  split; [exact Hwd|]. split; [exact Hwd|].
  split; [apply trim_below_default_clear|].
  split; [apply trim_below_not_default|].
  split.
  - intros Hspec. rewrite xml_forall_split, trim_below_not_default, andb_true_r.
    unfold not_default_valued, body_is_default. rewrite trim_spec, Hspec.
    destruct (xml_body_of (trim xret)); cbn; apply orb_true_r.
  - intros e He. split; [now apply trim_survivor_below|].
    split.
    + rewrite trim_is_type. inversion He as [c _ Hk | c e' _ _ Hs]; subst.
      * unfold trim_keeps in Hk. apply andb_true_iff in Hk. destruct Hk as [Hk _].
        apply andb_true_iff in Hk. tauto.
      * clear He. induction Hs as [t c' Hin Hk | t c' e' Hin Hk _ IH]; [|exact IH].
        unfold trim_keeps in Hk. apply andb_true_iff in Hk. destruct Hk as [Hk _].
        apply andb_true_iff in Hk. tauto.
    + split; [apply trim_name|]. split; [apply trim_body | apply trim_spec].
Qed.

Lemma with_defaults_trim_witness :
  with_defaults (Some req_trim) doc_defaults
  = Some (elem "config" [leaf "y" "7" (Some "5")]) /\
  xml_below (trim doc_defaults) (trim (leaf "y" "7" (Some "5"))) /\
  xml_forall not_default_valued (trim doc_defaults) = true.
Proof.
  destruct (@with_defaults_trim req_trim (elem "with-defaults" [text "trim"]) doc_defaults
              eq_refl eq_refl) as (_ & Hwd & _ & _ & Hall & Hkeep).
  split; [rewrite Hwd; reflexivity|]. split.
  - apply Hkeep. apply survivor_child; [right; left; reflexivity | reflexivity].
  - apply Hall. reflexivity.
Defined.

(** A function call in an expression is a node this evaluator has no action
    for: without children it yields no result context and the closing assert
    fails. *)
Lemma xp_eval_prime_fn_no_result sscanf_lf d dbl s0 s1 nsc xc :
  xp_eval sscanf_lf (XS XP_PRIME_FN d dbl s0 s1 None None) nsc xc = Crash.
Proof. reflexivity. Qed.

(** ** List pagination: the reply *)
















(** * Further properties of the evaluator *)

Lemma nodetest_eval_total (nt : xpath_tree) (nsc : option cvec) (x : xnode) :
  nodetest_wf nt = true -> exists r, nodetest_eval x nt nsc = Ok r.
Proof.
  destruct nt as [ty d dbl s0 s1 c0 c1]. unfold nodetest_wf, nodetest_eval.
  cbn [xs_type xs_s0 xs_s1]. destruct ty; intros Hwf; try (eexists; reflexivity).
  - destruct s1 as [n|]; [|discriminate]. unfold nodetest_eval_node. cbn [xs_s1 xs_s0].
    destruct (strcmp n "*" =? 0); [eexists; reflexivity|]. unfold xml2ns.
    destruct (negb (strcmp (xml_name x) n =? 0)); [eexists; reflexivity|].
    destruct nsc as [ctx|].
    + destruct (xml2ns_walk _ _ _), (xml_nsctx_get ctx s0); eexists; reflexivity.
    + destruct (xml_prefix x), s0; eexists; reflexivity.
  - destruct s0 as [fn|]; [|discriminate].
    destruct (strcmp fn "node" =? 0); [eexists; reflexivity|].
    destruct (strcmp fn "text" =? 0); eexists; reflexivity.
Qed.

Lemma nodetest_eval_passes (nt : xpath_tree) (nsc : option cvec) (x : xnode) :
  nodetest_wf nt = true ->
  exists r, nodetest_eval x nt nsc = Ok r /\ (r =? 1) = nodetest_passes nt nsc x.
Proof.
  intros Hwf. destruct (@nodetest_eval_total nt nsc x Hwf) as [r Hr].
  exists r. split; [exact Hr|]. unfold nodetest_passes. now rewrite Hr.
Qed.

Lemma nodetest_recursive_at_filter (nt : xpath_tree) (nsc : option cvec) (flags : Z) :
  nodetest_wf nt = true ->
  forall self up vec0,
    nodetest_recursive_at self up (Some nt) CX_ELMNT flags nsc vec0
    = Ok (vec0 ++ filter (fun x => nodetest_passes nt nsc x && flag_passes flags x)
                         (descendants_at self up)).
Proof.
  intros Hwf self.
  induction self as [t n p v f s cs IH] using cxobj_forall_ind.
  intros up vec. cbn [nodetest_recursive_at descendants_at].
  generalize (Cx t n p v f s cs) as self. intros self.
  revert vec. generalize 0%nat as i.
  induction IH as [|c cs Hc _ IHcs]; intros i vec.
  - now rewrite app_nil_r.
  - destruct (is_type CX_ELMNT c) eqn:Ety.
    + cbn [nodetest_eval_opt].
      destruct (@nodetest_eval_passes nt nsc {| xn_self := c; xn_up := (self, i) :: up |} Hwf)
        as (r & -> & Hr).
      cbn [bind].
      change ((flags =? 0) || negb (xml_flag_of c flags =? 0))
        with (flag_passes flags {| xn_self := c; xn_up := (self, i) :: up |}).
      rewrite Hr, Hc. cbn [bind]. rewrite IHcs.
      f_equal. cbn [app filter]. rewrite filter_app.
      destruct (nodetest_passes nt nsc {| xn_self := c; xn_up := (self, i) :: up |}
                && flag_passes flags {| xn_self := c; xn_up := (self, i) :: up |});
        rewrite <- ?app_assoc; reflexivity.
    + rewrite IHcs. reflexivity.
Qed.

(** X1.  The recursive search below a node appends to the vector exactly the
    element descendants of the node that pass the node test and the flag
    mask, in document order; a node that matches is searched further, so
    matches nested in matches are found too. *)
Theorem nodetest_recursive_filter (nt : xpath_tree) (nsc : option cvec) (flags : Z)
        (xn : xnode) (vec0 : list xnode) :
  nodetest_wf nt = true ->
  nodetest_recursive xn (Some nt) CX_ELMNT flags nsc vec0
  = Ok (vec0 ++ filter (fun x => nodetest_passes nt nsc x && flag_passes flags x)
                       (descendant_elements xn)).
Proof.
  intros Hwf. unfold nodetest_recursive, descendant_elements.
  now apply nodetest_recursive_at_filter.
Qed.

(** ** Steps *)

Lemma for_each_node_flat_map (body : xnode -> list xnode -> result (list xnode))
      (f : xnode -> list xnode) :
  (forall x vec, body x vec = Ok (vec ++ f x)) ->
  forall nodes vec, for_each_node body nodes vec = Ok (vec ++ flat_map f nodes).
Proof.
  intros Hbody nodes. induction nodes as [|x nodes IH]; intros vec; cbn [for_each_node flat_map].
  - now rewrite app_nil_r.
  - rewrite Hbody. cbn [bind]. rewrite IH, <- app_assoc. reflexivity.
Qed.

Lemma nodetest_recursive_passing (nt : xpath_tree) (nsc : option cvec) (xv : xnode)
      (vec : list xnode) :
  nodetest_wf nt = true ->
  nodetest_recursive xv (Some nt) CX_ELMNT 0 nsc vec
  = Ok (vec ++ descendants_passing nt nsc xv).
Proof.
  intros Hwf. unfold nodetest_recursive.
  rewrite (@nodetest_recursive_at_filter nt nsc 0 Hwf).
  unfold descendants_passing, descendant_elements. do 2 f_equal. apply filter_ext. intros x.
  unfold flag_passes. cbn. apply andb_true_r.
Qed.

Lemma descendants_at_up (self : cxobj) :
  forall up x, In x (descendants_at self up) ->
               is_type CX_ELMNT (xn_self x) = true /\
               exists pre i, xn_up x = pre ++ (self, i) :: up.
Proof.
  induction self as [t n p v f s cs IH] using cxobj_forall_ind.
  intros up x. cbn [descendants_at].
  generalize (Cx t n p v f s cs) as self. intros self.
  generalize 0%nat as i.
  induction IH as [|c cs Hc _ IHcs]; intros i Hin.
  - destruct Hin.
  - apply in_app_or in Hin. destruct Hin as [Hin | Hin]; [|now apply (IHcs (S i))].
    destruct (is_type CX_ELMNT c) eqn:Ety; [|destruct Hin].
    destruct Hin as [<- | Hin].
    + split; [exact Ety|]. exists [], i. reflexivity.
    + apply Hc in Hin. destruct Hin as (Hty & pre & j & Hup).
      split; [exact Hty|]. exists (pre ++ [(c, j)]), i.
      rewrite Hup, <- app_assoc. reflexivity.
Qed.

Lemma xml_ancestor_of_up (self : cxobj) (up : list (cxobj * nat)) (i : nat) :
  forall pre x, xn_up x = pre ++ (self, i) :: up ->
                xml_ancestor {| xn_self := self; xn_up := up |} x.
Proof.
  intros pre. induction pre as [|[p j] pre IH]; intros x Hup.
  - apply ancestor_parent. unfold xml_parent. rewrite Hup. reflexivity.
  - apply ancestor_above with (p := {| xn_self := p; xn_up := pre ++ (self, i) :: up |}).
    + unfold xml_parent. rewrite Hup. reflexivity.
    + apply IH. reflexivity.
Qed.

Lemma xml_parent_up (x p : xnode) :
  xml_parent x = Some p -> List.length (xn_up x) = S (List.length (xn_up p)).
Proof.
  unfold xml_parent. destruct (xn_up x) as [|[q j] up]; [discriminate|].
  intros [= <-]. reflexivity.
Qed.

Lemma xml_ancestor_up (a x : xnode) :
  xml_ancestor a x -> (List.length (xn_up a) < List.length (xn_up x))%nat.
Proof.
  induction 1 as [x Hp | x p Hp _ IH].
  - apply xml_parent_up in Hp. lia.
  - apply xml_parent_up in Hp. lia.
Qed.

Lemma xml_ancestor_neq (a x : xnode) : xml_ancestor a x -> x <> a.
Proof. intros H ->. apply xml_ancestor_up in H. lia. Qed.

Lemma descendant_elements_ancestor (xv x : xnode) :
  In x (descendant_elements xv) ->
  is_type CX_ELMNT (xn_self x) = true /\ xml_ancestor xv x.
Proof.
  unfold descendant_elements. intros Hin.
  apply descendants_at_up in Hin. destruct Hin as (Hty & pre & i & Hup).
  split; [exact Hty|]. destruct xv as [self up]. cbn in Hup.
  eapply xml_ancestor_of_up. exact Hup.
Qed.

Lemma descendants_search_step (nt : xpath_tree) (nsc : option cvec) (nodes : list xnode) :
  nodetest_wf nt = true ->
  for_each_node (fun xv vec => nodetest_recursive xv (Some nt) CX_ELMNT 0 nsc vec) nodes []
  = Ok (flat_map (descendants_passing nt nsc) nodes).
Proof.
  intros Hwf.
  rewrite (for_each_node_flat_map _ (descendants_passing nt nsc)); [reflexivity|].
  intros x vec. now apply nodetest_recursive_passing.
Qed.

(** X2.  A step on the descendant or the descendant-or-self axis replaces the
    node-set by the element descendants of the context nodes that pass the
    node test, context node by context node and in document order below
    each.  Every selected node lies strictly below a context node:
    descendant-or-self never selects the context node itself. *)
Theorem xp_eval_step_descendant (ev : option evaluation) (axis : axis_type)
        (nt : xpath_tree) (nsc : option cvec) (xc : xp_ctx) :
  axis = A_DESCENDANT \/ axis = A_DESCENDANT_OR_SELF ->
  nodetest_wf nt = true ->
  xp_eval_step ev xc (D_axis axis) (Some nt) nsc
  = then_eval ev (set_nodeset xc (flat_map (descendants_passing nt nsc) (xc_nodeset xc)))
  /\ forall x, In x (flat_map (descendants_passing nt nsc) (xc_nodeset xc)) ->
               nodetest_passes nt nsc x = true /\
               is_type CX_ELMNT (xn_self x) = true /\
               exists xv, In xv (xc_nodeset xc) /\ xml_ancestor xv x /\ x <> xv.
Proof.
  intros Haxis Hwf. split.
  - unfold xp_eval_step, ctx_dup, then_eval.
    destruct Haxis as [-> | ->]; rewrite (@descendants_search_step nt nsc _ Hwf); reflexivity.
  - intros x Hin. apply in_flat_map in Hin. destruct Hin as (xv & Hxv & Hin).
    unfold descendants_passing in Hin. apply filter_In in Hin. destruct Hin as [Hin Hpass].
    apply descendant_elements_ancestor in Hin. destruct Hin as [Hty Hanc].
    split; [exact Hpass|]. split; [exact Hty|].
    exists xv. split; [exact Hxv|]. split; [exact Hanc | now apply xml_ancestor_neq].
Qed.

Lemma locate_children_parent (self : cxobj) (up : list (cxobj * nat)) (cs : list cxobj) :
  forall i x, In x (locate_children self up i cs) ->
              xml_parent x = Some {| xn_self := self; xn_up := up |}.
Proof.
  induction cs as [|c cs IH]; intros i x Hin; [destruct Hin|].
  destruct Hin as [<- | Hin]; [reflexivity | now apply (IH (S i))].
Qed.

Lemma xml_child_each_parent (xv x : xnode) (t : cxobj_type) :
  In x (xml_child_each xv t) ->
  xml_parent x = Some xv /\ is_type t (xn_self x) = true.
Proof.
  unfold xml_child_each. intros Hin. apply filter_In in Hin. destruct Hin as [Hin Hty].
  split; [|exact Hty]. destruct xv as [self up].
  eapply locate_children_parent. exact Hin.
Qed.

Lemma child_step_passing (nt : xpath_tree) (nsc : option cvec) (xv : xnode)
      (vec : list xnode) :
  nodetest_wf nt = true ->
  child_step (Some nt) nsc xv vec = Ok (vec ++ children_passing nt nsc xv).
Proof.
  intros Hwf. unfold child_step, children_passing.
  generalize (xml_child_each xv CX_ELMNT) as kids.
  intros kids. revert vec. induction kids as [|k kids IH]; intros vec;
    cbn [for_each_node filter].
  - now rewrite app_nil_r.
  - cbn [nodetest_eval_opt].
    destruct (@nodetest_eval_passes nt nsc k Hwf) as (r & -> & Hr).
    cbn [bind]. rewrite IH, Hr.
    destruct (nodetest_passes nt nsc k); rewrite <- ?app_assoc; reflexivity.
Qed.

Lemma children_step (nt : xpath_tree) (nsc : option cvec) (nodes : list xnode) :
  nodetest_wf nt = true ->
  for_each_node (child_step (Some nt) nsc) nodes []
  = Ok (flat_map (children_passing nt nsc) nodes).
Proof.
  intros Hwf.
  rewrite (for_each_node_flat_map _ (children_passing nt nsc)); [reflexivity|].
  intros x vec. now apply child_step_passing.
Qed.

Lemma xp_eval_step_child_plain (ev : option evaluation) (nt : xpath_tree)
      (nsc : option cvec) (xc : xp_ctx) :
  nodetest_wf nt = true -> is_current_fn nt = false -> xc_descendant xc = false ->
  xp_eval_step ev xc (D_axis A_CHILD) (Some nt) nsc
  = then_eval ev (set_nodeset xc (flat_map (children_passing nt nsc) (xc_nodeset xc))).
Proof.
  intros Hwf Hcur Hdesc. unfold xp_eval_step, ctx_dup, then_eval.
  rewrite Hdesc, Hcur, (@children_step nt nsc _ Hwf). reflexivity.
Qed.

(** X3.  A child step taken without the descendant flag, whose node test is
    not current(), replaces the node-set by the element children of the
    context nodes that pass the node test, in the order of the context nodes
    and of the children of each; a context node listed twice gives its
    children twice.  Every selected node is an element whose parent is a
    context node. *)
Theorem xp_eval_step_child (ev : option evaluation) (nt : xpath_tree)
        (nsc : option cvec) (xc : xp_ctx) :
  nodetest_wf nt = true -> is_current_fn nt = false -> xc_descendant xc = false ->
  xp_eval_step ev xc (D_axis A_CHILD) (Some nt) nsc
  = then_eval ev (set_nodeset xc (flat_map (children_passing nt nsc) (xc_nodeset xc)))
  /\ forall x, In x (flat_map (children_passing nt nsc) (xc_nodeset xc)) ->
               nodetest_passes nt nsc x = true /\
               is_type CX_ELMNT (xn_self x) = true /\
               exists xv, In xv (xc_nodeset xc) /\ xml_parent x = Some xv.
Proof.
  intros Hwf Hcur Hdesc. split; [now apply xp_eval_step_child_plain|].
  intros x Hin. apply in_flat_map in Hin. destruct Hin as (xv & Hxv & Hin).
  unfold children_passing in Hin. apply filter_In in Hin. destruct Hin as [Hin Hpass].
  apply xml_child_each_parent in Hin. destruct Hin as [Hpar Hty].
  split; [exact Hpass|]. split; [exact Hty|]. exists xv. split; assumption.
Qed.

Lemma xp_eval_step_child_flagged (ev : option evaluation) (nt : xpath_tree)
      (nsc : option cvec) (xc : xp_ctx) :
  nodetest_wf nt = true -> xc_descendant xc = true ->
  xp_eval_step ev xc (D_axis A_CHILD) (Some nt) nsc
  = then_eval ev (set_nodeset (set_descendant xc false)
                              (flat_map (descendants_passing nt nsc) (xc_nodeset xc))).
Proof.
  intros Hwf Hdesc. unfold xp_eval_step, ctx_dup, then_eval.
  rewrite Hdesc, (@descendants_search_step nt nsc _ Hwf). reflexivity.
Qed.

Lemma xp_eval_xs_step (sscanf_lf : string -> option float) (axis : axis_type)
      (nodetest preds : option xpath_tree) (nsc : option cvec) (xc : xp_ctx) :
  no_predicates preds = true ->
  xp_eval sscanf_lf (xs_step axis nodetest preds) nsc xc
  = do xr <- xp_eval_step None xc (D_axis axis) nodetest nsc; Ok (xc, xr).
Proof.
  intros Hp. destruct preds as [[ty d dbl s0 s1 c0 c1]|]; [|reflexivity].
  destruct ty; try discriminate Hp. destruct c0; [discriminate Hp|].
  destruct c1; [discriminate Hp|].
  reflexivity.
Qed.

(** X4.  In a relative path of two child steps without predicates, the
    separator / gives the children (passing the second test) of the children
    (passing the first test) of the context nodes.  With the separator // the
    descendant flag is taken by the first step: the result is the children of
    the descendants passing the first test, not the descendants of the
    children.  Either way the caller's context is handed back with the flag
    cleared. *)
Theorem xp_eval_rellocpath_two_steps (sscanf_lf : string -> option float)
        (nt1 nt2 : xpath_tree) (p1 p2 : option xpath_tree) (nsc : option cvec)
        (xc : xp_ctx) (dbl : float) (s0 s1 : option string) :
  nodetest_wf nt1 = true -> nodetest_wf nt2 = true -> is_current_fn nt2 = false ->
  no_predicates p1 = true -> no_predicates p2 = true ->
  let path d := XS XP_RELLOCPATH (D_axis d) dbl s0 s1
                   (Some (xs_step A_CHILD (Some nt1) p1))
                   (Some (xs_step A_CHILD (Some nt2) p2)) in
  let answer vec := Ok (set_descendant xc false, set_nodeset (set_descendant xc false) vec) in
  xp_eval sscanf_lf (path A_DESCENDANT_OR_SELF) nsc xc
  = answer (flat_map (children_passing nt2 nsc)
                     (flat_map (descendants_passing nt1 nsc) (xc_nodeset xc)))
  /\ (is_current_fn nt1 = false -> xc_descendant xc = false ->
      xp_eval sscanf_lf (path A_NAN) nsc xc
      = answer (flat_map (children_passing nt2 nsc)
                         (flat_map (children_passing nt1 nsc) (xc_nodeset xc)))).
Proof.
  intros Hwf1 Hwf2 Hcur2 Hp1 Hp2 path answer. subst path answer. split.
  - cbn [xp_eval xp_eval_pre is_axis]. cbn [bind].
    rewrite !xp_eval_xs_step by assumption.
    rewrite (@xp_eval_step_child_flagged None nt1 nsc (set_descendant xc true) Hwf1 eq_refl).
    cbn [then_eval bind xp_eval_mid is_axis].
    rewrite xp_eval_xs_step by assumption.
    rewrite xp_eval_step_child_plain by (assumption || reflexivity).
    reflexivity.
  - intros Hcur1 Hdesc. cbn [xp_eval xp_eval_pre is_axis]. cbn [bind].
    rewrite !xp_eval_xs_step by assumption.
    rewrite (@xp_eval_step_child_plain None nt1 nsc xc Hwf1 Hcur1 Hdesc).
    cbn [then_eval bind xp_eval_mid is_axis].
    rewrite xp_eval_xs_step by assumption.
    rewrite xp_eval_step_child_plain by assumption.
    cbn [then_eval bind xp_eval_post]. unfold set_nodeset, set_descendant. cbn.
    rewrite Hdesc. reflexivity.
Qed.

Lemma parents_of_children (xv : xnode) (l : list xnode) :
  (forall x, In x l -> xml_parent x = Some xv) ->
  flat_map (fun x => match xml_parent x with Some xp => [xp] | None => [] end) l
  = repeat xv (List.length l).
Proof.
  induction l as [|x l IH]; intros Hpar; [reflexivity|].
  cbn [flat_map List.length repeat]. rewrite (Hpar x (or_introl eq_refl)).
  cbn [app]. f_equal. apply IH. intros y Hy. apply Hpar. now right.
Qed.

Lemma flat_map_flat_map {A B C : Type} (f : B -> list C) (g : A -> list B) (l : list A) :
  flat_map f (flat_map g l) = flat_map (fun x => flat_map f (g x)) l.
Proof.
  induction l as [|x l IH]; [reflexivity|].
  cbn [flat_map]. rewrite flat_map_app, IH. reflexivity.
Qed.

(** X5.  A child step followed by a parent step gives each context node once
    for every element child of it that passes the test of the child step:
    the parent axis keeps duplicates, takes no notice of its own node test,
    and a context node without a matching child is dropped. *)
Theorem xp_eval_child_then_parent (sscanf_lf : string -> option float)
        (nt : xpath_tree) (nt' p1 p2 : option xpath_tree) (nsc : option cvec)
        (xc : xp_ctx) (dbl : float) (s0 s1 : option string) :
  nodetest_wf nt = true -> is_current_fn nt = false -> xc_descendant xc = false ->
  no_predicates p1 = true -> no_predicates p2 = true ->
  xp_eval sscanf_lf
          (XS XP_RELLOCPATH (D_axis A_NAN) dbl s0 s1
              (Some (xs_step A_CHILD (Some nt) p1)) (Some (xs_step A_PARENT nt' p2))) nsc xc
  = Ok (xc, set_nodeset xc
              (flat_map (fun xv => repeat xv (List.length (children_passing nt nsc xv)))
                        (xc_nodeset xc))).
Proof.
  intros Hwf Hcur Hdesc Hp1 Hp2. cbn [xp_eval xp_eval_pre is_axis]. cbn [bind].
  rewrite !xp_eval_xs_step by assumption.
  rewrite xp_eval_step_child_plain by assumption.
  cbn [then_eval bind xp_eval_mid is_axis]. rewrite xp_eval_xs_step by assumption.
  unfold xp_eval_step, ctx_dup. cbn [bind xp_eval_post].
  assert (Hvec : flat_map (fun x => match xml_parent x with Some xp => [xp] | None => [] end)
                          (flat_map (children_passing nt nsc) (xc_nodeset xc))
                 = flat_map (fun xv => repeat xv (List.length (children_passing nt nsc xv)))
                            (xc_nodeset xc)).
  { rewrite flat_map_flat_map. apply flat_map_ext. intros xv.
    apply parents_of_children. intros x Hin.
    unfold children_passing in Hin. apply filter_In in Hin.
    destruct Hin as [Hin _]. now apply xml_child_each_parent in Hin. }
  cbn [set_nodeset xc_nodeset]. rewrite Hvec.
  destruct xc as [ty ns b n s node ini desc]. cbn in Hdesc. subst desc. reflexivity.
Qed.

(** X6.  On the axes ancestor, ancestor-or-self, attribute, following,
    following-sibling, namespace, preceding, preceding-sibling and self a
    step leaves the context as it is and never looks at its node test (which
    may even be missing): only the predicates of the step are evaluated, on
    the unchanged node-set. *)
Theorem xp_eval_step_unimplemented_axis (ev : option evaluation) (axis : axis_type)
        (nodetest : option xpath_tree) (nsc : option cvec) (xc : xp_ctx) :
  axis_unimplemented axis = true ->
  xp_eval_step ev xc (D_axis axis) nodetest nsc = then_eval ev xc.
Proof.
  intros Haxis. unfold xp_eval_step, ctx_dup, then_eval.
  destruct axis; try discriminate Haxis; reflexivity.
Qed.

(** ** Predicates *)

Lemma predicate_loop_subseq (ev : evaluation) (initial : option xnode)
      (nodes : list xnode) :
  forall i vec vec',
    predicate_loop ev initial nodes i vec = Ok vec' ->
    exists l, vec' = vec ++ l /\ subseq l nodes.
Proof.
  induction nodes as [|x rest IH]; intros i vec vec' H; cbn [predicate_loop] in H.
  - injection H as <-. exists []. split; [now rewrite app_nil_r | constructor].
  - destruct (ev _) as [[xa xrc]| |]; cbn [bind] in H; try discriminate.
    assert (Hstep : forall b : bool,
               predicate_loop ev initial rest (i + 1) (if b then vec ++ [x] else vec)
               = Ok vec' ->
               exists l, vec' = vec ++ l /\ subseq l (x :: rest)).
    { intros b Hb. apply IH in Hb. destruct Hb as (l & -> & Hl). destruct b.
      - exists (x :: l). split; [now rewrite <- app_assoc | now constructor].
      - exists l. split; [reflexivity | now constructor]. }
    destruct (xc_type xrc).
    1, 2, 4: cbn [bind] in H; exact (Hstep _ H).
    destruct (double2int (xc_number xrc)) as [n| |]; cbn [bind] in H; try discriminate.
    exact (Hstep _ H).
Qed.

(** X7.  A predicate only narrows.  When a predicate with an expression
    succeeds, the preceding predicates (or, without any, the context itself)
    gave a node-set, and the node-set returned is that one with members left
    out: nothing is added, repeated or reordered.  The result is a node-set
    context with the context node and the initial node of the caller. *)
Theorem xp_eval_predicate_narrows (ev0 : option evaluation) (ev1 : evaluation)
        (xc xc' xr : xp_ctx) :
  xp_eval_predicate ev0 (Some ev1) xc = Ok (xc', xr) ->
  exists xr0,
    match ev0 with Some ev => ev xc | None => Ok (xc, ctx_dup xc) end = Ok (xc', xr0) /\
    xc_type xr0 = XT_NODESET /\
    subseq (xc_nodeset xr) (xc_nodeset xr0) /\
    xc_type xr = XT_NODESET /\
    xc_node xr = xc_node xc' /\
    xc_initial xr = xc_initial xc'.
Proof.
  unfold xp_eval_predicate. intros H.
  destruct (match ev0 with Some ev => ev xc | None => Ok (xc, ctx_dup xc) end)
    as [[xc1 xr0]| |]; cbn [bind] in H; try discriminate.
  destruct (xc_type xr0) eqn:Ety; cbn [xp_objtype_eqb negb] in H; try discriminate.
  destruct (predicate_loop ev1 (xc_initial xc1) (xc_nodeset xr0) 0 [])
    as [vec| |] eqn:Eloop; cbn [bind] in H; try discriminate.
  injection H as <- <-. exists xr0. split; [reflexivity|]. split; [exact Ety|].
  apply predicate_loop_subseq in Eloop. destruct Eloop as (l & -> & Hl).
  repeat split. exact Hl.
Qed.

(** ** Operators *)

Lemma normalise_b2i (c : bool) : (if negb (b2i c =? 0) then 1 else b2i c) = b2i c.
Proof. destruct c; reflexivity. Qed.

(** X8.  A comparison of two booleans, two numbers or two strings takes no
    notice of the operator: whatever it is (also <, <=, >, >= and !=), the
    answer is that of the equality test.  Two operands of different kinds,
    neither a node-set, are refused with an error. *)
Theorem xp_relop_scalars (sscanf_lf : string -> option float) (xc1 xc2 : xp_ctx) :
  xc_type xc1 <> XT_NODESET -> xc_type xc2 <> XT_NODESET ->
  (forall op, xp_relop sscanf_lf xc1 xc2 op = xp_relop sscanf_lf xc1 xc2 (D_op XO_EQ)) /\
  (xc_type xc1 <> xc_type xc2 -> forall op, xp_relop sscanf_lf xc1 xc2 op = Err) /\
  (xc_type xc1 = XT_NUMBER -> xc_type xc2 = XT_NUMBER ->
   forall op, xp_relop sscanf_lf xc1 xc2 op
              = Ok (ctx_bool (xc_initial xc1)
                             (PrimFloat.eqb (xc_number xc1) (xc_number xc2)))).
Proof.
  intros H1 H2. unfold xp_relop, ctx_bool.
  destruct (xc_type xc1) eqn:E1; [contradiction| | |];
    (destruct (xc_type xc2) eqn:E2; [contradiction| | |]);
    cbn [xp_objtype_eqb negb andb bind];
    (split; [reflexivity|]); (split; [intros Hne; try contradiction; reflexivity|]);
    intros; try discriminate.
  cbn [bind]. now rewrite normalise_b2i.
Qed.

Lemma relop_number_mirror (op : xs_discr) (n1 n2 : float) :
  relop_number op true n1 n2 = relop_number (mirror_op op) false n1 n2.
Proof. destruct op as [a|o]; [|destruct o]; reflexivity. Qed.

Lemma relop_nodeset_number_mirror (sscanf_lf : string -> option float) (op : xs_discr)
      (l : list xnode) (n2 : float) :
  forall b, relop_nodeset_number sscanf_lf op true l n2 b
            = relop_nodeset_number sscanf_lf (mirror_op op) false l n2 b.
Proof.
  induction l as [|x l IH]; intros b; cbn [relop_nodeset_number]; [reflexivity|].
  destruct (xml_body x) as [s|]; [|reflexivity].
  rewrite relop_number_mirror.
  destruct (relop_number (mirror_op op) false (str2double sscanf_lf s) n2) as [b'| |];
    cbn [bind]; try reflexivity.
  destruct (negb (b' =? 0)); [reflexivity | apply IH].
Qed.

Lemma relop_nodeset_string_mirror (op : xs_discr) (l : list xnode) (s2 : option string)
      (b : Z) :
  relop_nodeset_string op l s2 b = relop_nodeset_string (mirror_op op) l s2 b.
Proof.
  destruct op as [a|o]; [reflexivity|].
  destruct o; try reflexivity; destruct l; reflexivity.
Qed.

(** X9.  A comparison between a node-set and a boolean, number or string gives
    the same truth value (or the same failure) whichever side the node-set is
    written on, once the operator is turned round: N < nodes is nodes > N,
    and so on for <=, > and >=, while = and != stay. *)
Theorem xp_relop_mirror (sscanf_lf : string -> option float) (xc1 xc2 : xp_ctx)
        (op : xs_discr) :
  xc_type xc1 = XT_NODESET -> xc_type xc2 <> XT_NODESET ->
  relop_bool (xp_relop sscanf_lf xc2 xc1 op)
  = relop_bool (xp_relop sscanf_lf xc1 xc2 (mirror_op op)).
Proof.
  intros H1 H2. unfold xp_relop, relop_bool. rewrite H1.
  destruct (xc_type xc2) eqn:E2; [contradiction| | |];
    cbn [xp_objtype_eqb negb andb]; rewrite ?E2, ?H1.
  - destruct op as [a|o]; [|destruct o]; reflexivity.
  - rewrite relop_nodeset_number_mirror.
    destruct (relop_nodeset_number _ _ _ _ _ _); reflexivity.
  - rewrite (relop_nodeset_string_mirror op).
    destruct (relop_nodeset_string _ _ _ _); reflexivity.
Qed.

Lemma relop_nodeset_string_eq (l : list xnode) (s2 : option string) :
  relop_nodeset_string (D_op XO_EQ) l s2 0
  = Ok (b2i (existsb (fun x => option_eqb String.eqb (xml_body x) s2) l)).
Proof.
  induction l as [|x l IH]; [reflexivity|].
  cbn [relop_nodeset_string existsb].
  assert (Hb : match xml_body x, s2 with
               | Some a, Some c => Ok (b2i (strcmp a c =? 0))
               | None, None => Ok 1
               | _, _ => Ok 0
               end = Ok (b2i (option_eqb String.eqb (xml_body x) s2))).
  { destruct (xml_body x) as [a|], s2 as [c|]; cbn [option_eqb]; try reflexivity.
    now rewrite strcmp_eqb. }
  rewrite Hb. cbn [bind].
  destruct (option_eqb String.eqb (xml_body x) s2); [reflexivity|].
  cbn [b2i Z.eqb negb orb]. exact IH.
Qed.

Lemma relop_nodeset_string_ne (l : list xnode) (s2 : option string) :
  exists b, relop_nodeset_string (D_op XO_NE) l s2 0 = Ok b /\
            negb (b =? 0)
            = existsb (fun x => negb (option_eqb String.eqb (xml_body x) s2)) l.
Proof.
  induction l as [|x l IH]; [exists 0; split; reflexivity|].
  cbn [relop_nodeset_string existsb].
  assert (Hb : exists b', match xml_body x, s2 with
                          | Some a, Some c => Ok (strcmp a c)
                          | None, None => Ok 0
                          | _, _ => Ok 1
                          end = Ok b' /\
                          negb (b' =? 0) = negb (option_eqb String.eqb (xml_body x) s2)).
  { destruct (xml_body x) as [a|], s2 as [c|]; cbn [option_eqb];
      eexists; (split; [reflexivity|]); try reflexivity.
    now rewrite strcmp_eqb. }
  destruct Hb as (b' & -> & Hb'). cbn [bind]. rewrite <- Hb'.
  destruct (negb (b' =? 0)) eqn:E.
  - exists b'. split; [reflexivity | exact E].
  - cbn [orb]. apply negb_false_iff, Z.eqb_eq in E. subst b'. exact IH.
Qed.

(** X10.  A node-set compared with a string is an existential test on the text
    of the nodes: = holds exactly when some node of the set has the string as
    its body, != exactly when some node has a different body (or none).  On
    the empty node-set both are false. *)
Theorem xp_relop_nodeset_string (sscanf_lf : string -> option float) (xc1 xc2 : xp_ctx) :
  xc_type xc1 = XT_NODESET -> xc_type xc2 = XT_STRING ->
  xp_relop sscanf_lf xc1 xc2 (D_op XO_EQ)
  = Ok (ctx_bool (xc_initial xc1)
                 (existsb (fun x => option_eqb String.eqb (xml_body x) (xc_string xc2))
                          (xc_nodeset xc1)))
  /\ xp_relop sscanf_lf xc1 xc2 (D_op XO_NE)
     = Ok (ctx_bool (xc_initial xc1)
                    (existsb (fun x => negb (option_eqb String.eqb (xml_body x)
                                                        (xc_string xc2)))
                             (xc_nodeset xc1))).
Proof.
  intros H1 H2. unfold xp_relop, ctx_bool. rewrite H1, H2.
  cbn [xp_objtype_eqb negb andb]. rewrite H2. split.
  - rewrite relop_nodeset_string_eq. cbn [bind]. now rewrite normalise_b2i.
  - destruct (relop_nodeset_string_ne (xc_nodeset xc1) (xc_string xc2)) as (b & -> & Hb).
    cbn [bind]. rewrite <- Hb.
    destruct (negb (b =? 0)) eqn:E; [reflexivity|].
    apply negb_false_iff, Z.eqb_eq in E. now subst b.
Qed.

Lemma relop_strcmp_sign (o : xp_op) (s1 s2 : string) :
  is_comparison o = true ->
  relop_strcmp (D_op o) s1 s2 = Ok (b2i (cmp_sign o (strcmp s1 s2))).
Proof. destruct o; try discriminate; reflexivity. Qed.

Lemma b2i_nonzero (c : bool) : negb (b2i c =? 0) = c.
Proof. destruct c; reflexivity. Qed.

Lemma relop_nodesets_inner_exists (o : xp_op) (s1 : string) (l2 : list xnode) :
  is_comparison o = true -> forallb has_body l2 = true ->
  relop_nodesets_inner (D_op o) s1 l2 0
  = Ok (Scanned (b2i (existsb (fun x2 => cmp_sign o (strcmp s1 (body_text x2))) l2))).
Proof.
  intros Ho. induction l2 as [|x2 l2 IH]; intros Hb; [reflexivity|].
  cbn [forallb] in Hb. apply andb_true_iff in Hb. destruct Hb as [Hx Hl].
  cbn [relop_nodesets_inner existsb]. unfold has_body in Hx. unfold body_text at 1.
  destruct (xml_body x2) as [s2|]; [|discriminate].
  rewrite relop_strcmp_sign by exact Ho. cbn [bind]. rewrite b2i_nonzero.
  destruct (cmp_sign o (strcmp s1 s2)); [reflexivity|].
  cbn [b2i orb]. now apply IH.
Qed.

Lemma relop_nodesets_exists (o : xp_op) (l1 l2 : list xnode) :
  is_comparison o = true -> forallb has_body l1 = true -> forallb has_body l2 = true ->
  relop_nodesets (D_op o) l1 l2 0
  = Ok (b2i (existsb (fun x1 =>
                        existsb (fun x2 => cmp_sign o (strcmp (body_text x1) (body_text x2)))
                                l2) l1)).
Proof.
  intros Ho H1 H2. induction l1 as [|x1 l1 IH]; [reflexivity|].
  cbn [forallb] in H1. apply andb_true_iff in H1. destruct H1 as [Hx Hl].
  cbn [relop_nodesets existsb]. unfold has_body in Hx. unfold body_text at 1.
  destruct (xml_body x1) as [s1|]; [|discriminate].
  rewrite relop_nodesets_inner_exists by assumption. cbn [bind]. rewrite b2i_nonzero.
  destruct (existsb _ l2); [reflexivity|].
  cbn [b2i orb]. now apply IH.
Qed.

(** X11.  Two node-sets whose nodes all have a text body are compared
    existentially and as strings: the comparison holds exactly when some node
    of the first set and some node of the second have bodies that strcmp
    orders as the operator asks.  So < <= > >= order the bodies as strings,
    not as numbers, and a comparison with an empty node-set is false. *)
Theorem xp_relop_nodesets (sscanf_lf : string -> option float) (xc1 xc2 : xp_ctx)
        (o : xp_op) :
  xc_type xc1 = XT_NODESET -> xc_type xc2 = XT_NODESET ->
  is_comparison o = true ->
  forallb has_body (xc_nodeset xc1) = true ->
  forallb has_body (xc_nodeset xc2) = true ->
  xp_relop sscanf_lf xc1 xc2 (D_op o)
  = Ok (ctx_bool (xc_initial xc1)
          (existsb (fun x1 =>
                      existsb (fun x2 => cmp_sign o (strcmp (body_text x1) (body_text x2)))
                              (xc_nodeset xc2))
                   (xc_nodeset xc1))).
Proof.
  intros H1 H2 Ho Hb1 Hb2. unfold xp_relop, ctx_bool. rewrite H1, H2.
  cbn [xp_objtype_eqb]. rewrite relop_nodesets_exists by assumption.
  cbn [bind]. now rewrite normalise_b2i.
Qed.

(** X12.  At an operator node with two operands the left operand is evaluated
    first, then the right operand on the caller's context as the left
    evaluation left it, and the two results go to the operator.  Both are
    always evaluated: and/or do not stop after the left operand, so a right
    operand that fails makes the expression fail whatever the left one
    gave. *)
Theorem xp_eval_binary (sscanf_lf : string -> option float) (ty : xp_type) (d : xs_discr)
        (dbl : float) (s0 s1 : option string) (c0 c1 : xpath_tree) (nsc : option cvec)
        (xc : xp_ctx) (f : xp_ctx -> xp_ctx -> xs_discr -> result xp_ctx) :
  binop_of sscanf_lf ty = Some f ->
  xp_eval sscanf_lf (XS ty d dbl s0 s1 (Some c0) (Some c1)) nsc xc
  = (do '(xc1, r0) <- xp_eval sscanf_lf c0 nsc xc;
     do '(xc2, r1) <- xp_eval sscanf_lf c1 nsc xc1;
     do r <- f r0 r1 d;
     Ok (set_descendant xc2 false, r))
  /\ forall xc1 r0,
      xp_eval sscanf_lf c0 nsc xc = Ok (xc1, r0) ->
      (forall p, xp_eval sscanf_lf c1 nsc xc1 <> Ok p) ->
      forall p, xp_eval sscanf_lf (XS ty d dbl s0 s1 (Some c0) (Some c1)) nsc xc <> Ok p.
Proof.
  intros Hf.
  assert (Heq : xp_eval sscanf_lf (XS ty d dbl s0 s1 (Some c0) (Some c1)) nsc xc
                = (do '(xc1, r0) <- xp_eval sscanf_lf c0 nsc xc;
                   do '(xc2, r1) <- xp_eval sscanf_lf c1 nsc xc1;
                   do r <- f r0 r1 d;
                   Ok (set_descendant xc2 false, r))).
  { destruct ty; try discriminate Hf; injection Hf as <-;
      cbn [xp_eval xp_eval_pre xp_eval_mid bind];
      (destruct (xp_eval sscanf_lf c0 nsc xc) as [[xc1 r0]| |]; cbn [bind]; [|reflexivity..]);
      (destruct (xp_eval sscanf_lf c1 nsc xc1) as [[xc2 r1]| |]; cbn [bind]; [|reflexivity..]);
      cbn [xp_eval_post bind];
      match goal with |- context [bind ?r _] => destruct r; reflexivity end. }
  split; [exact Heq|].
  intros xc1 r0 H0 H1 p. rewrite Heq, H0. cbn [bind].
  destruct (xp_eval sscanf_lf c1 nsc xc1) as [q| |]; [|discriminate..].
  exfalso. exact (H1 q eq_refl).
Qed.

(** ** The caller's context *)

Ltac head_destruct H :=
  repeat (cbn [bind] in H;
          match type of H with
          | Ok _ = Ok _ => fail 1
          | bind ?r _ = _ => destruct r eqn:?; try discriminate H
          | match ?x with _ => _ end = _ => destruct x eqn:?; try discriminate H
          end).

Lemma xp_eval_unfold_general (sscanf_lf : string -> option float) (ty : xp_type)
      (d : xs_discr) (dbl : float) (s0 s1 : option string) (c0 c1 : option xpath_tree)
      (nsc : option cvec) (xc : xp_ctx) :
  ty <> XP_STEP -> ty <> XP_PRED ->
  xp_eval sscanf_lf (XS ty d dbl s0 s1 c0 c1) nsc xc
  = xp_eval_general sscanf_lf ty d dbl s0
      (match c0 with Some c => Some (xp_eval sscanf_lf c nsc) | None => None end)
      (match c1 with Some c => Some (xp_eval sscanf_lf c nsc) | None => None end) xc.
Proof.
  intros Hs Hp. destruct ty; try contradiction; destruct c0, c1; reflexivity.
Qed.

Lemma root_walk_up (self : cxobj) (up : list (cxobj * nat)) :
  xn_up (root_walk self up) = [].
Proof.
  revert self. induction up as [|[p i] up IH]; intros self; cbn; [reflexivity | apply IH].
Qed.

Lemma xml_root_idem (x : xnode) : xml_root (xml_root x) = xml_root x.
Proof.
  pose proof (root_walk_up (xn_self x) (xn_up x)) as Hup. fold (xml_root x) in Hup.
  unfold xml_root at 1. rewrite Hup. cbn [root_walk].
  destruct (xml_root x) as [self up]. cbn in *. now subst up.
Qed.

Lemma ctx_frame_refl (xc : xp_ctx) : ctx_frame xc xc.
Proof. repeat split. Qed.

Lemma ctx_frame_trans (a b c : xp_ctx) : ctx_frame a b -> ctx_frame b c -> ctx_frame a c.
Proof. unfold ctx_frame. intuition congruence. Qed.

Lemma ctx_moved_refl (xc : xp_ctx) : ctx_moved xc xc.
Proof. left. split; reflexivity. Qed.

Lemma ctx_moved_trans (a b c : xp_ctx) : ctx_moved a b -> ctx_moved b c -> ctx_moved a c.
Proof.
  intros [[Hn Hs] | (x0 & Ha & Hn & Hs)] [[Hn' Hs'] | (x1 & Hb & Hn' & Hs')].
  - left. split; congruence.
  - right. exists x1. repeat split; congruence.
  - right. exists x0. repeat split; congruence.
  - right. exists x0. rewrite Hn in Hb. injection Hb as <-.
    rewrite xml_root_idem in Hn', Hs'. repeat split; assumption.
Qed.

Lemma xp_eval_pre_frame (ty : xp_type) (d : xs_discr) (xc xcp : xp_ctx) :
  xp_eval_pre ty d xc = Ok xcp -> ctx_frame xc xcp /\ ctx_moved xc xcp.
Proof.
  intros H. destruct ty; cbn [xp_eval_pre] in H; try solve [injection H as <-; split;
    [apply ctx_frame_refl | apply ctx_moved_refl]].
  - destruct (xc_node xc) as [x0|] eqn:En; [|discriminate].
    cbn [set_node xc_nodeset] in H.
    destruct (xc_nodeset xc) eqn:Es; [discriminate|].
    injection H as <-. split.
    + destruct (is_axis A_DESCENDANT_OR_SELF d); repeat split.
    + right. exists x0. destruct (is_axis A_DESCENDANT_OR_SELF d);
        (split; [exact En | split; reflexivity]).
  - injection H as <-. destruct (is_axis A_DESCENDANT_OR_SELF d);
      (split; [repeat split | left; split; reflexivity]).
Qed.

Lemma xp_eval_mid_frame (ty : xp_type) (d : xs_discr) (dbl : float) (s0 : option string)
      (has_c0 : bool) (xc : xp_ctx) (xr0 : option xp_ctx)
      (xc2 : xp_ctx) (xr0' : option xp_ctx) (use : bool) :
  xp_eval_mid ty d dbl s0 has_c0 xc xr0 = (xc2, xr0', use) ->
  ctx_frame xc xc2 /\ ctx_moved xc xc2 /\
  forall r, xr0' = Some r -> xr0 = Some r \/ xc_initial r = xc_initial xc.
Proof.
  intros H.
  destruct ty; cbn [xp_eval_mid] in H;
    try solve [injection H as <- <- <-;
               split; [apply ctx_frame_refl | split; [apply ctx_moved_refl | auto]]].
  - destruct has_c0; injection H as <- <- <-;
      (split; [apply ctx_frame_refl | split; [apply ctx_moved_refl|]]); [auto|].
    intros r [= <-]. right. reflexivity.
  - injection H as <- <- <-. destruct (is_axis A_DESCENDANT_OR_SELF d);
      (split; [repeat split | split; [left; split; reflexivity | auto]]).
  - injection H as <- <- <-.
    split; [apply ctx_frame_refl | split; [apply ctx_moved_refl|]].
    intros r [= <-]. right. reflexivity.
  - injection H as <- <- <-.
    split; [apply ctx_frame_refl | split; [apply ctx_moved_refl|]].
    intros r [= <-]. right. reflexivity.
Qed.

Lemma xp_logop_initial (xc1 xc2 xr : xp_ctx) (op : xs_discr) :
  xp_logop xc1 xc2 op = Ok xr -> xc_initial xr = xc_initial xc1.
Proof. unfold xp_logop. intros H. head_destruct H; injection H as <-; reflexivity. Qed.

Lemma xp_numop_initial (sscanf_lf : string -> option float) (xc1 xc2 xr : xp_ctx)
      (op : xs_discr) :
  xp_numop sscanf_lf xc1 xc2 op = Ok xr -> xc_initial xr = xc_initial xc1.
Proof. unfold xp_numop. intros H. head_destruct H; injection H as <-; reflexivity. Qed.

Lemma xp_relop_initial (sscanf_lf : string -> option float) (xc1 xc2 xr : xp_ctx)
      (op : xs_discr) :
  xp_relop sscanf_lf xc1 xc2 op = Ok xr -> xc_initial xr = xc_initial xc1.
Proof.
  unfold xp_relop. intros H.
  match type of H with bind ?r _ = _ => destruct r end; cbn [bind] in H; try discriminate.
  injection H as <-. reflexivity.
Qed.

Lemma xp_union_initial (xc1 xc2 xr : xp_ctx) (op : xs_discr) :
  xp_union xc1 xc2 op = Ok xr -> xc_initial xr = xc_initial xc1.
Proof. unfold xp_union. intros H. head_destruct H; injection H as <-; reflexivity. Qed.

Lemma xp_eval_post_initial (sscanf_lf : string -> option float) (ty : xp_type)
      (d : xs_discr) (xr0 : option xp_ctx) (r1 r2 : xp_ctx) :
  xp_eval_post sscanf_lf ty d xr0 r1 = Ok (Some r2) ->
  exists x0, xr0 = Some x0 /\ xc_initial r2 = xc_initial x0.
Proof.
  intros H. destruct ty; cbn [xp_eval_post] in H; try discriminate;
    (destruct xr0 as [x0|]; [|discriminate]); exists x0; (split; [reflexivity|]);
    head_destruct H; injection H as <-.
  - eapply xp_logop_initial; eassumption.
  - eapply xp_relop_initial; eassumption.
  - eapply xp_numop_initial; eassumption.
  - eapply xp_union_initial; eassumption.
Qed.

Lemma xp_eval_step_initial (ev : option evaluation) (xc xr : xp_ctx) (axis : xs_discr)
      (nodetest : option xpath_tree) (nsc : option cvec) :
  (forall e, ev = Some e -> keeps_frame e) ->
  xp_eval_step ev xc axis nodetest nsc = Ok xr -> xc_initial xr = xc_initial xc.
Proof.
  intros Hev H. unfold xp_eval_step, ctx_dup in H.
  match type of H with bind ?r _ = _ => destruct r as [xc2| |] eqn:E end;
    cbn [bind] in H; try discriminate.
  assert (H2 : xc_initial xc2 = xc_initial xc).
  { clear H. head_destruct E; injection E as <-; cbn; congruence. }
  destruct ev as [e|].
  - destruct (e xc2) as [[xa xb]| |] eqn:Ee; cbn [bind] in H; try discriminate.
    injection H as <-. apply (Hev e eq_refl) in Ee. destruct Ee as (_ & _ & Hi). congruence.
  - injection H as <-. exact H2.
Qed.

Lemma xp_eval_predicate_frame (ev0 ev1 : option evaluation) :
  (forall e, ev0 = Some e -> keeps_frame e) ->
  keeps_frame (xp_eval_predicate ev0 ev1).
Proof.
  intros Hev xc xc' xr H. unfold xp_eval_predicate in H.
  assert (H0 : forall xc1 xr0,
             match ev0 with Some ev => ev xc | None => Ok (xc, ctx_dup xc) end
             = Ok (xc1, xr0) ->
             ctx_frame xc xc1 /\ ctx_moved xc xc1 /\ xc_initial xr0 = xc_initial xc).
  { intros xc1 xr0 E. destruct ev0 as [e|].
    - exact (Hev e eq_refl _ _ _ E).
    - injection E as <- <-. split; [apply ctx_frame_refl|].
      split; [apply ctx_moved_refl | reflexivity]. }
  destruct (match ev0 with Some ev => ev xc | None => Ok (xc, ctx_dup xc) end)
    as [[xc1 xr0]| |]; cbn [bind] in H; try discriminate.
  destruct (H0 xc1 xr0 eq_refl) as (Hf & Hm & Hi).
  destruct ev1 as [e1|].
  - head_destruct H. injection H as <- <-.
    split; [exact Hf|]. split; [exact Hm|]. cbn. apply Hf.
  - injection H as <- <-. split; [exact Hf|]. split; [exact Hm | exact Hi].
Qed.

Lemma xp_eval_general_frame (sscanf_lf : string -> option float) (ty : xp_type)
      (d : xs_discr) (dbl : float) (s0 : option string) (ev0 ev1 : option evaluation) :
  (forall e, ev0 = Some e -> keeps_frame e) ->
  (forall e, ev1 = Some e -> keeps_frame e) ->
  keeps_frame (xp_eval_general sscanf_lf ty d dbl s0 ev0 ev1).
Proof.
  intros Hev0 Hev1 xc xc' xr H. unfold xp_eval_general in H.
  destruct (xp_eval_pre ty d xc) as [xcp| |] eqn:Epre; cbn [bind] in H; try discriminate.
  apply xp_eval_pre_frame in Epre. destruct Epre as [Fp Mp].
  assert (H0 : forall xc1 xr0,
             match ev0 with
             | Some ev => do '(xc', r) <- ev xcp; Ok (xc', Some r)
             | None => Ok (xcp, None)
             end = Ok (xc1, xr0) ->
             ctx_frame xcp xc1 /\ ctx_moved xcp xc1 /\
             forall r, xr0 = Some r -> xc_initial r = xc_initial xcp).
  { intros xc1 xr0 E. destruct ev0 as [e|].
    - destruct (e xcp) as [[xa xb]| |] eqn:Ee; cbn [bind] in E; try discriminate.
      injection E as <- <-. destruct (Hev0 e eq_refl _ _ _ Ee) as (F & M & I).
      split; [exact F|]. split; [exact M|]. now intros r [= <-].
    - injection E as <- <-. split; [apply ctx_frame_refl|].
      split; [apply ctx_moved_refl | discriminate]. }
  match type of H with bind ?r _ = _ => destruct r as [[xc1 xr0]| |] eqn:E0 end;
    cbn [bind] in H; try discriminate.
  destruct (H0 _ _ eq_refl) as (F0 & M0 & I0). clear H0 E0.
  destruct (xp_eval_mid ty d dbl s0 _ xc1 xr0) as [[xc2 xr0'] use] eqn:Emid.
  apply xp_eval_mid_frame in Emid. destruct Emid as (Fm & Mm & Im).
  assert (I0' : forall r, xr0' = Some r -> xc_initial r = xc_initial xc).
  { intros r Hr. destruct (Im r Hr) as [Hin | Hin].
    - rewrite (I0 r Hin). apply Fp.
    - rewrite Hin. destruct F0 as (_ & _ & _ & _ & ->). apply Fp. }
  assert (F2 : ctx_frame xc xc2)
    by (eapply ctx_frame_trans; [eapply ctx_frame_trans|]; eassumption).
  assert (M2 : ctx_moved xc xc2)
    by (eapply ctx_moved_trans; [eapply ctx_moved_trans|]; eassumption).
  assert (H1 : forall xc3 xr1,
             match ev1 with
             | Some ev =>
                 if use then
                   match xr0' with
                   | None => Crash
                   | Some x0 => do '(_, r) <- ev x0; Ok (xc2, Some r)
                   end
                 else do '(xc', r) <- ev xc2; Ok (xc', Some r)
             | None => Ok (xc2, None)
             end = Ok (xc3, xr1) ->
             ctx_frame xc xc3 /\ ctx_moved xc xc3 /\
             forall r, xr1 = Some r -> xc_initial r = xc_initial xc).
  { intros xc3 xr1 E. destruct ev1 as [e|].
    - destruct use.
      + destruct xr0' as [x0|]; [|discriminate].
        destruct (e x0) as [[xa xb]| |] eqn:Ee; cbn [bind] in E; try discriminate.
        injection E as <- <-. destruct (Hev1 e eq_refl _ _ _ Ee) as (_ & _ & I).
        split; [exact F2|]. split; [exact M2|]. intros r [= <-].
        rewrite I. now apply I0'.
      + destruct (e xc2) as [[xa xb]| |] eqn:Ee; cbn [bind] in E; try discriminate.
        injection E as <- <-. destruct (Hev1 e eq_refl _ _ _ Ee) as (F & M & I).
        split; [eapply ctx_frame_trans; eassumption|].
        split; [eapply ctx_moved_trans; eassumption|]. intros r [= <-].
        rewrite I. apply F2.
    - injection E as <- <-. split; [exact F2|]. split; [exact M2 | discriminate]. }
  match type of H with bind ?r _ = _ => destruct r as [[xc3 xr1]| |] eqn:E1 end;
    cbn [bind] in H; try discriminate.
  destruct (H1 _ _ eq_refl) as (F3 & M3 & I1). clear H1 E1.
  assert (I2 : forall xr2 r,
             match xr1 with
             | Some r1 => xp_eval_post sscanf_lf ty d xr0' r1
             | None => Ok None
             end = Ok xr2 -> xr2 = Some r -> xc_initial r = xc_initial xc).
  { intros xr2 r E ->. destruct xr1 as [r1|]; [|discriminate].
    apply xp_eval_post_initial in E. destruct E as (x0 & Hx0 & ->). now apply I0'. }
  match type of H with bind ?r _ = _ => destruct r as [xr2| |] eqn:E2 end;
    cbn [bind] in H; try discriminate.
  assert (Fd : ctx_frame xc (set_descendant xc3 false)) by exact F3.
  assert (Md : ctx_moved xc (set_descendant xc3 false)) by exact M3.
  destruct xr2 as [r2|].
  - injection H as <- <-. split; [exact Fd|]. split; [exact Md|]. now apply (I2 _ r2 eq_refl).
  - destruct xr1 as [r1|].
    + injection H as <- <-. split; [exact Fd|]. split; [exact Md|]. now apply I1.
    + destruct xr0' as [r0|]; [|discriminate].
      injection H as <- <-. split; [exact Fd|]. split; [exact Md|]. now apply I0'.
Qed.

Lemma xp_eval_keeps_frame (sscanf_lf : string -> option float) (nsc : option cvec) :
  forall xs, keeps_frame (xp_eval sscanf_lf xs nsc).
Proof.
  fix IH 1. intros [ty d dbl s0 s1 c0 c1].
  assert (H0 : forall e, match c0 with
                         | Some c => Some (xp_eval sscanf_lf c nsc)
                         | None => None
                         end = Some e -> keeps_frame e).
  { destruct c0 as [c|]; [|discriminate].
    pose proof (IH c) as Hc. intros e [= <-]. exact Hc. }
  assert (H1 : forall e, match c1 with
                         | Some c => Some (xp_eval sscanf_lf c nsc)
                         | None => None
                         end = Some e -> keeps_frame e).
  { destruct c1 as [c|]; [|discriminate].
    pose proof (IH c) as Hc. intros e [= <-]. exact Hc. }
  clear IH.
  destruct ty;
    try solve [intros xc xc' xr H; rewrite xp_eval_unfold_general in H by discriminate;
               eapply xp_eval_general_frame; [| |exact H]; assumption].
  - intros xc xc' xr H. cbn [xp_eval] in H.
    match type of H with bind ?r _ = _ => destruct r as [xr1| |] eqn:E end;
      cbn [bind] in H; try discriminate.
    injection H as <- <-. apply xp_eval_step_initial in E; [|exact H1].
    split; [apply ctx_frame_refl|]. split; [apply ctx_moved_refl | exact E].
  - intros xc xc' xr H. cbn [xp_eval] in H.
    eapply xp_eval_predicate_frame; [|exact H]. exact H0.
Qed.

(** X13.  Whatever the expression, a successful evaluation leaves the type,
    the boolean, the number, the string and the initial node of the context
    it was called on as they were, and the result context carries the same
    initial node.  The context node and the node-set of the caller's context
    are either untouched or both moved to the root. *)
Theorem xp_eval_frame (sscanf_lf : string -> option float) (xs : xpath_tree)
        (nsc : option cvec) (xc xc' xr : xp_ctx) :
  xp_eval sscanf_lf xs nsc xc = Ok (xc', xr) ->
  ctx_frame xc xc' /\ ctx_moved xc xc' /\ xc_initial xr = xc_initial xc.
Proof. apply xp_eval_keeps_frame. Qed.

Lemma xp_eval_pre_abspath (d : xs_discr) (xc xcp : xp_ctx) :
  xp_eval_pre XP_ABSPATH d xc = Ok xcp ->
  (exists x0, xc_node xc = Some x0 /\
              xc_node xcp = Some (xml_root x0) /\ xc_nodeset xcp = [xml_root x0]) /\
  xp_eval_pre XP_ABSPATH d xcp = Ok xcp.
Proof.
  unfold xp_eval_pre. intros H.
  destruct (xc_node xc) as [x0|] eqn:En; [|discriminate].
  cbn [set_node xc_nodeset] in H.
  destruct (xc_nodeset xc) eqn:Es; [discriminate|].
  injection H as <-. split.
  - exists x0. destruct (is_axis A_DESCENDANT_OR_SELF d); repeat split.
  - destruct (is_axis A_DESCENDANT_OR_SELF d) eqn:Ed; cbn; rewrite xml_root_idem, ?Ed;
      reflexivity.
Qed.

Lemma xp_eval_general_descendant (sscanf_lf : string -> option float) (ty : xp_type)
      (d : xs_discr) (dbl : float) (s0 : option string) (ev0 ev1 : option evaluation)
      (xc xc' xr : xp_ctx) :
  xp_eval_general sscanf_lf ty d dbl s0 ev0 ev1 xc = Ok (xc', xr) ->
  xc_descendant xc' = false.
Proof.
  unfold xp_eval_general. intros H. head_destruct H; injection H as <- _; reflexivity.
Qed.

(** X14.  An absolute path changes the context it is evaluated on: after a
    successful evaluation the caller's context node is the root above its
    former context node, its node-set is the singleton of that root, and its
    descendant flag is cleared.  What is evaluated next on that context (the
    right operand of an operator, for one) starts from the root. *)
Theorem xp_eval_abspath_caller_context (sscanf_lf : string -> option float)
        (d : xs_discr) (dbl : float) (s0 s1 : option string) (c0 c1 : option xpath_tree)
        (nsc : option cvec) (xc xc' xr : xp_ctx) :
  xp_eval sscanf_lf (XS XP_ABSPATH d dbl s0 s1 c0 c1) nsc xc = Ok (xc', xr) ->
  exists x0,
    xc_node xc = Some x0 /\
    xc_node xc' = Some (xml_root x0) /\
    xc_nodeset xc' = [xml_root x0] /\
    xc_descendant xc' = false.
Proof.
  intros H.
  assert (Hd : xc_descendant xc' = false).
  { rewrite xp_eval_unfold_general in H by discriminate.
    eapply xp_eval_general_descendant. exact H. }
  destruct (xp_eval_pre XP_ABSPATH d xc) as [xcp| |] eqn:Epre.
  - destruct (xp_eval_pre_abspath _ _ Epre) as [(x0 & Hx0 & Hn & Hs) Hidem].
    assert (H' : xp_eval sscanf_lf (XS XP_ABSPATH d dbl s0 s1 c0 c1) nsc xcp = Ok (xc', xr)).
    { rewrite xp_eval_unfold_general in H |- * by discriminate.
      unfold xp_eval_general in H |- *. rewrite Hidem. rewrite Epre in H. exact H. }
    apply xp_eval_keeps_frame in H'. destruct H' as (_ & Hm & _).
    exists x0. split; [exact Hx0|].
    destruct Hm as [[Hn' Hs'] | (x1 & Hx1 & Hn' & Hs')].
    + repeat split; congruence.
    + rewrite Hn in Hx1. injection Hx1 as <-. rewrite xml_root_idem in Hn', Hs'.
      repeat split; assumption.
  - rewrite xp_eval_unfold_general in H by discriminate.
    unfold xp_eval_general in H. rewrite Epre in H. discriminate.
  - rewrite xp_eval_unfold_general in H by discriminate.
    unfold xp_eval_general in H. rewrite Epre in H. discriminate.
Qed.

(** * Further properties of the get handler *)

(** X15.  A parameter error ends the request before anything is read.  A
    select that xpath2canonical refuses, or (the select being absent or
    accepted) a depth attribute that is no number, gives exactly one
    bad-attribute error in the reply and retval 0, without any call to the
    datastore or to a callback, whatever the content and also when list
    pagination is asked for. *)
Theorem get_common_bad_parameter (h : clicon_handle) (ce_id : Z) (xe : xnode)
        (content : netconf_content) (db : string) (st : hstate) :
  h_dbspec_yang h = true ->
  (forall xfilter reason,
      xml_find_node xe "filter" = Some xfilter ->
      h_xpath2canonical h (fst (filter_select xfilter)) (snd (filter_select xfilter))
      = Some (inl reason) ->
      finish (get_common h ce_id xe content db) st
      = (0, {| cbret := cbret st ++ [rpc_error "bad-attribute" "application" "select" reason];
               calls := calls st |})) /\
  (forall a,
      select_accepted h xe ->
      xml_find_value (xn_self xe) "depth" = Some a ->
      h_parse_int32 h a = Some None ->
      finish (get_common h ce_id xe content db) st
      = (0, {| cbret := cbret st ++ [rpc_error "bad-attribute" "application" "depth"
                                               "Unrecognized value of depth attribute"];
               calls := calls st |})).
Proof.
  intros Hy. split.
  - intros xfilter reason Hf Hc. unfold finish, get_common. rewrite Hy, Hf.
    unfold filter_select in Hc. cbn [negb].
    destruct (xml_find_value (xn_self xfilter) "select"); cbn [fst snd] in Hc;
      unfold hbind; rewrite Hc; reflexivity.
  - intros a Hsel Hd Hp. unfold finish, get_common. rewrite Hy. cbn [negb].
    unfold select_accepted in Hsel.
    destruct (xml_find_node xe "filter") as [xfilter|].
    + destruct Hsel as (xpath & nsc & Hc). unfold filter_select in Hc.
      destruct (xml_find_value (xn_self xfilter) "select"); cbn [fst snd] in Hc;
        unfold hbind; rewrite Hc; cbn; rewrite Hd, Hp; reflexivity.
    + unfold hbind. cbn. rewrite Hd, Hp. reflexivity.
Qed.

Lemma at_most_keeps (A : Type) (P : event -> Prop) (m : handler A) :
  keeps_calls m -> calls_at_most_one P m.
Proof. intros Hm st. left. apply Hm. Qed.

Lemma at_most_bind_l (A B : Type) (P : event -> Prop) (m : handler A)
      (k : A -> handler B) :
  calls_at_most_one P m -> (forall a, keeps_calls (k a)) ->
  calls_at_most_one P (hbind m k).
Proof.
  intros Hm Hk st. unfold hbind. specialize (Hm st).
  destruct (m st) as [[a|r] st']; cbn [snd] in *; [|exact Hm].
  rewrite !Hk. exact Hm.
Qed.

Lemma at_most_bind_r (A B : Type) (P : event -> Prop) (m : handler A)
      (k : A -> handler B) :
  keeps_calls m -> (forall a, calls_at_most_one P (k a)) ->
  calls_at_most_one P (hbind m k).
Proof.
  intros Hm Hk st. unfold hbind. specialize (Hm st).
  destruct (m st) as [[a|r] st']; cbn [snd] in *; [|left; exact Hm].
  rewrite <- Hm. apply Hk.
Qed.

Lemma at_most_called (A : Type) (P : event -> Prop) (e : event) (m : handler A) :
  P e -> keeps_calls m -> calls_at_most_one P (hbind (called e) (fun _ => m)).
Proof.
  intros He Hm st. right. exists e. split; [exact He|].
  unfold hbind, called. now rewrite Hm.
Qed.

Lemma keeps_calls_exits (A B : Type) (m : handler A) (k : A -> handler B) :
  always_exits m -> keeps_calls m -> keeps_calls (hbind m k).
Proof.
  intros He Hm st. unfold hbind. specialize (Hm st).
  destruct (He st) as (r & st' & E). rewrite E in *. exact Hm.
Qed.

Lemma keeps_calls_element2value (h : clicon_handle) (xe : cxobj) (name defaultstr : string) :
  keeps_calls (element2value h xe name defaultstr).
Proof. unfold element2value, netconf_parse_uint32. repeat calls_step. Qed.

Lemma keeps_calls_get_common_tail (h : clicon_handle) (xe : xnode)
      (content : netconf_content) (xpath : option string) (nsc : option cvec)
      (username : option string) (depth : Z) (xret : cxobj) :
  keeps_calls (get_common_tail h xe content xpath nsc username depth xret).
Proof.
  unfold get_common_tail. repeat calls_step; apply keeps_calls_nacm_and_reply.
Qed.

Lemma keeps_calls_netconf_bad_attribute (type info message : string) :
  keeps_calls (netconf_bad_attribute type info message).
Proof. apply keeps_calls_emit. Qed.

(** The part of get_list_pagination after the datastore and the callback. *)
Lemma keeps_calls_pagination_rest (h : clicon_handle) (xe : xnode) (depth : Z)
      (xpath : option string) (nsc : option cvec) (username : option string)
      (xret : cxobj) :
  keeps_calls
    (run xret <- or_done (with_defaults (option_map xn_self (xml_parent xe)) xret);
     run xvec <- or_done (h_xpath_vec h xret nsc (xpath_or_root xpath));
     get_nacm_and_reply h (filter_xpath_again xret (Some xvec)) xvec username depth).
Proof. repeat calls_step. apply keeps_calls_nacm_and_reply. Qed.

Lemma at_most_pagination_config (h : clicon_handle) (ce_id : Z) (xe : xnode) (db : string)
      (depth : Z) (xpath : option string) (nsc : option cvec) (username : option string) :
  calls_at_most_one (fun e => exists p, e = ev_xmldb_get0 db p)
    (get_list_pagination h ce_id xe CONTENT_CONFIG db depth xpath nsc username).
Proof.
  unfold get_list_pagination.
  apply at_most_bind_r; [repeat calls_step|]. intros [y|].
  2: apply at_most_keeps; repeat calls_step.
  destruct (negb (yang_keyword_eqb (ys_keyword y) Y_LIST)
            && negb (yang_keyword_eqb (ys_keyword y) Y_LEAF_LIST)).
  1: apply at_most_keeps; repeat calls_step.
  destruct (ys_config_ancestor y).
  - apply at_most_bind_r; [repeat calls_step|]. intros _.
    apply at_most_bind_r; [apply keeps_calls_element2value|]. intros [ret offset].
    apply at_most_bind_r.
    { destruct (negb (ret =? 0)); [apply keeps_calls_element2value | repeat calls_step]. }
    intros [ret' limit].
    apply at_most_bind_l.
    + apply at_most_called; [eexists; reflexivity | repeat calls_step].
    + intros xret. apply keeps_calls_bind; [repeat calls_step|]. intros xret'.
      apply keeps_calls_pagination_rest.
  - apply at_most_keeps. apply keeps_calls_exits.
    + intros st. do 2 eexists. reflexivity.
    + repeat calls_step.
Qed.

Lemma at_most_get_common_config (h : clicon_handle) (ce_id : Z) (xe : xnode) (db : string) :
  calls_at_most_one (fun e => exists p, e = ev_xmldb_get0 db p)
    (get_common h ce_id xe CONTENT_CONFIG db).
Proof.
  unfold get_common. destruct (negb (h_dbspec_yang h)).
  1: apply at_most_keeps; repeat calls_step.
  apply at_most_bind_r.
  { repeat calls_step; apply keeps_calls_netconf_bad_attribute. }
  intros [xpath nsc].
  apply at_most_bind_r.
  { repeat calls_step; apply keeps_calls_netconf_bad_attribute. }
  intros depth.
  destruct (xml_find_type_node xe "list-pagination" CX_ELMNT) as [xfind|].
  - apply at_most_bind_l; [apply at_most_pagination_config|].
    intros _. repeat calls_step.
  - apply at_most_bind_l.
    + apply at_most_called; [eexists; reflexivity | repeat calls_step].
    + intros xret. apply keeps_calls_bind; [repeat calls_step|]. intros [xret'|].
      * apply keeps_calls_get_common_tail.
      * repeat calls_step.
Qed.

(** X16.  A get-config request only ever touches the datastore named by its
    source: whatever the request and the collaborators do, the handler makes
    either no call at all or exactly one read of that datastore.  It never
    invokes the state-data callbacks or the pagination callback, also not
    when list pagination is asked for. *)
Theorem from_client_get_config_calls (netconf_db_find : cxobj -> string -> option string)
        (h : clicon_handle) (ce_id : Z) (xe : xnode) (st : hstate) :
  calls (snd (finish (from_client_get_config netconf_db_find h ce_id xe) st)) = calls st \/
  exists db xpath,
    netconf_db_find (xn_self xe) "source" = Some db /\
    calls (snd (finish (from_client_get_config netconf_db_find h ce_id xe) st))
    = calls st ++ [ev_xmldb_get0 db xpath].
Proof.
  assert (Hfin : forall m : handler unit, calls (snd (finish m st)) = calls (snd (m st))).
  { intros m. unfold finish. destruct (m st) as [[u|r] st']; reflexivity. }
  rewrite Hfin. unfold from_client_get_config.
  destruct (netconf_db_find (xn_self xe) "source") as [db|]; [|left; reflexivity].
  destruct (at_most_get_common_config h ce_id xe db st) as [H | (e & (p & ->) & H)].
  - left. exact H.
  - right. exists db, p. split; [reflexivity | exact H].
Qed.

Lemma at_most_pagination_nonconfig (h : clicon_handle) (ce_id : Z) (xe : xnode)
      (db : string) (depth : Z) (xpath : option string) (nsc : option cvec)
      (username : option string) :
  calls_at_most_one state_call
    (get_list_pagination h ce_id xe CONTENT_NONCONFIG db depth xpath nsc username).
Proof.
  unfold get_list_pagination.
  apply at_most_bind_r; [repeat calls_step|]. intros [y|].
  2: apply at_most_keeps; repeat calls_step.
  destruct (negb (yang_keyword_eqb (ys_keyword y) Y_LIST)
            && negb (yang_keyword_eqb (ys_keyword y) Y_LEAF_LIST)).
  1: apply at_most_keeps; repeat calls_step.
  destruct (ys_config_ancestor y).
  - apply at_most_keeps. apply keeps_calls_exits.
    + intros st. do 2 eexists. reflexivity.
    + repeat calls_step.
  - apply at_most_bind_r; [repeat calls_step|]. intros _.
    apply at_most_bind_r; [apply keeps_calls_element2value|]. intros [ret offset].
    apply at_most_bind_r.
    { destruct (negb (ret =? 0)); [apply keeps_calls_element2value | repeat calls_step]. }
    intros [ret' limit].
    apply at_most_bind_r; [repeat calls_step|]. intros xret.
    apply at_most_bind_l.
    + apply at_most_called; [exact I | repeat calls_step].
    + intros xret'. apply keeps_calls_pagination_rest.
Qed.

(** X17.  A request for state data only (content nonconfig), when state
    validation is off, never reads a datastore: it makes no call, or one call
    of the state-data callbacks, or (under list pagination) one call of the
    pagination callback. *)
Theorem get_common_nonconfig_calls (h : clicon_handle) (ce_id : Z) (xe : xnode)
        (db : string) (st : hstate) :
  h_option_bool h "CLICON_VALIDATE_STATE_XML" = false ->
  calls (snd (finish (get_common h ce_id xe CONTENT_NONCONFIG db) st)) = calls st \/
  exists e, state_call e /\
            calls (snd (finish (get_common h ce_id xe CONTENT_NONCONFIG db) st))
            = calls st ++ [e].
Proof.
  intros Hval.
  assert (Hfin : forall m : handler unit, calls (snd (finish m st)) = calls (snd (m st))).
  { intros m. unfold finish. destruct (m st) as [[u|r] st']; reflexivity. }
  rewrite Hfin. clear Hfin. revert st.
  change (calls_at_most_one state_call (get_common h ce_id xe CONTENT_NONCONFIG db)).
  unfold get_common. destruct (negb (h_dbspec_yang h)).
  1: apply at_most_keeps; repeat calls_step.
  apply at_most_bind_r.
  { repeat calls_step; apply keeps_calls_netconf_bad_attribute. }
  intros [xpath nsc].
  apply at_most_bind_r.
  { repeat calls_step; apply keeps_calls_netconf_bad_attribute. }
  intros depth.
  destruct (xml_find_type_node xe "list-pagination" CX_ELMNT) as [xfind|].
  - apply at_most_bind_l; [apply at_most_pagination_nonconfig|].
    intros _. repeat calls_step.
  - rewrite Hval.
    apply at_most_bind_r; [repeat calls_step|]. intros xret.
    apply at_most_bind_l.
    + apply at_most_called; [exact I | repeat calls_step].
    + intros [xret'|].
      * apply keeps_calls_get_common_tail.
      * repeat calls_step.
Qed.

Lemma adds_calls_ret_bind (A B : Type) (l : list event) (a : A) (k : A -> handler B) :
  adds_calls l (k a) -> adds_calls l (hbind (hret a) k).
Proof. intros H st. exact (H st). Qed.

Lemma adds_calls_called_ret_bind (A B : Type) (l : list event) (e : event) (a : A)
      (k : A -> handler B) :
  adds_calls l (k a) ->
  adds_calls (e :: l) (hbind (hbind (called e) (fun _ => hret a)) k).
Proof.
  intros H st. unfold hbind, called, hret. rewrite H. cbn [calls].
  now rewrite <- app_assoc.
Qed.

Lemma finish_calls (m : handler unit) (st : hstate) :
  calls (snd (finish m st)) = calls (snd (m st)).
Proof. unfold finish. destruct (m st) as [[u|r] st']; reflexivity. Qed.

(** X18.  For a state list, with the offset and limit read from the request,
    the pagination callback is called exactly once, with the XPath of the
    request as it is, the offset and the limit, and with locked set exactly
    when the running datastore is locked by the session of the request.
    With content nonconfig no datastore is read; with content all the
    datastore is read first, once, with the paginated XPath. *)
Theorem get_list_pagination_state_list (h : clicon_handle) (ce_id : Z) (xe : xnode)
        (db : string) (depth : Z) (xpath : option string)
        (nsc : option cvec) (username : option string) (st : hstate)
        (y : yang_stmt) (offset limit : Z) :
  h_yang_path_arg h (xpath_or_root xpath) = Some (Some y) ->
  ys_keyword y = Y_LIST \/ ys_keyword y = Y_LEAF_LIST ->
  ys_config_ancestor y = false ->
  element2value h (xn_self xe) "offset" "none" st = (Next (1, offset), st) ->
  element2value h (xn_self xe) "limit" "unbounded" st = (Next (1, limit), st) ->
  calls (snd (finish (get_list_pagination h ce_id xe CONTENT_NONCONFIG db depth xpath nsc
                                          username) st))
  = calls st ++ [ev_pagination_cb xpath (locked_by h ce_id) offset limit]
  /\ (h_xmldb_get0 h db nsc (Some (pagination_xpath xpath offset limit)) <> None ->
      calls (snd (finish (get_list_pagination h ce_id xe CONTENT_ALL db depth xpath nsc
                                              username) st))
      = calls st ++ [ev_xmldb_get0 db (Some (pagination_xpath xpath offset limit));
                     ev_pagination_cb xpath (locked_by h ce_id) offset limit]).
Proof.
  intros Hpath Hkw Hcfg Hoff Hlim.
  assert (Hkw' : negb (yang_keyword_eqb (ys_keyword y) Y_LIST)
                 && negb (yang_keyword_eqb (ys_keyword y) Y_LEAF_LIST) = false).
  { destruct Hkw as [-> | ->]; reflexivity. }
  assert (Hcb : forall xret,
             adds_calls [ev_pagination_cb xpath (locked_by h ce_id) offset limit]
               (run xret <-
                  (run _ <- called (ev_pagination_cb xpath (locked_by h ce_id) offset limit);
                   run '(ok, xret) <-
                     or_done (h_pagination_cb h xpath (locked_by h ce_id) offset limit xret);
                   if negb ok then
                     run _ <- emit (reply_xml
                                      (h_operation_failed_xml h "application"
                                         ("Internal error, pagination state callback invalid return : "
                                            ++ h_err_reason h)) (-1));
                     goto_ok
                   else
                     run bound <- or_done (h_xml_bind_yang h xret);
                     match bound with
                     | inl xerr =>
                         run _ <- emit (reply_xml
                                          (h_internal_error h xerr
                                             ". Internal error, state callback returned invalid XML")
                                          (-1));
                         goto_ok
                     | inr xret => hret xret
                     end);
                run xret <- or_done (with_defaults (option_map xn_self (xml_parent xe)) xret);
                run xvec <- or_done (h_xpath_vec h xret nsc (xpath_or_root xpath));
                get_nacm_and_reply h (filter_xpath_again xret (Some xvec)) xvec
                                   username depth)).
  { intros xret. apply adds_calls_bind.
    - apply adds_calls_called. repeat calls_step.
    - intros xret'. apply keeps_calls_pagination_rest. }
  split.
  - rewrite finish_calls. unfold get_list_pagination. rewrite Hpath. cbn [or_done].
    unfold hbind at 1. cbn [hret]. rewrite Hkw', Hcfg.
    unfold hbind at 1. cbn [hret]. unfold hbind at 1. rewrite Hoff.
    cbn [Z.eqb negb]. unfold hbind at 1. rewrite Hlim.
    apply adds_calls_ret_bind. apply Hcb.
  - intros Hread. rewrite finish_calls. unfold get_list_pagination. rewrite Hpath.
    cbn [or_done]. unfold hbind at 1. cbn [hret]. rewrite Hkw', Hcfg.
    unfold hbind at 1. cbn [hret]. unfold hbind at 1. rewrite Hoff.
    cbn [Z.eqb negb]. unfold hbind at 1. rewrite Hlim.
    destruct (h_xmldb_get0 h db nsc (Some (pagination_xpath xpath offset limit)))
      as [xret0|]; [|contradiction].
    apply adds_calls_called_ret_bind. apply Hcb.
Qed.

(** ** What is written to the reply *)

Lemma writes_reply_ret (A : Type) (a : A) : writes_reply false (hret a).
Proof. intros st. exists []. cbn. rewrite app_nil_r. split; [reflexivity | discriminate]. Qed.

Lemma writes_reply_goto_done (A : Type) (b : bool) : writes_reply b (@goto_done A).
Proof. intros st. exists []. cbn. rewrite app_nil_r. split; [reflexivity | discriminate]. Qed.

Lemma writes_reply_or_done (A : Type) (o : option A) : writes_reply false (or_done o).
Proof. destruct o; [apply writes_reply_ret | apply writes_reply_goto_done]. Qed.

Lemma writes_reply_called (e : event) : writes_reply false (called e).
Proof. intros st. exists []. cbn. rewrite app_nil_r. split; [reflexivity | discriminate]. Qed.

Lemma writes_reply_emit (b : bool) (r : reply) : writes_reply b (emit r).
Proof. intros st. exists [r]. cbn. split; [reflexivity | discriminate]. Qed.

Lemma writes_reply_weaken (A : Type) (m : handler A) :
  writes_reply true m -> writes_reply false m.
Proof.
  intros H st. destruct (H st) as (rest & Hc & Hr). exists rest. split; [exact Hc|].
  destruct (fst (m st)); [discriminate | exact Hr].
Qed.

Lemma writes_reply_bind (A B : Type) (b : bool) (m : handler A) (k : A -> handler B) :
  writes_reply false m -> (forall a, writes_reply b (k a)) -> writes_reply b (hbind m k).
Proof.
  intros Hm Hk st. unfold hbind. destruct (Hm st) as (rest1 & Hc1 & Hr1).
  destruct (m st) as [[a|r] st1]; cbn [fst snd] in *.
  - destruct (Hk a st1) as (rest2 & Hc2 & Hr2). exists (rest1 ++ rest2).
    split; [now rewrite Hc2, Hc1, app_assoc|].
    destruct (fst (k a st1)); intros H; specialize (Hr2 H);
      intros E; apply app_eq_nil in E; destruct E as [_ E]; contradiction.
  - exists rest1. split; assumption.
Qed.

Lemma writes_reply_then_ok (A B : Type) (b : bool) (m : handler A) :
  writes_reply true m -> writes_reply b (hbind m (fun _ => @goto_ok B)).
Proof.
  intros Hm st. unfold hbind, goto_ok. destruct (Hm st) as (rest & Hc & Hr).
  destruct (m st) as [[a|r] st1]; cbn [fst snd] in *; exists rest; (split; [exact Hc|]).
  - intros _. now apply Hr.
  - exact Hr.
Qed.

Ltac reply_step :=
  lazymatch goal with
  | |- writes_reply false (hret _) => apply writes_reply_ret
  | |- writes_reply _ goto_done => apply writes_reply_goto_done
  | |- writes_reply false (or_done _) => apply writes_reply_or_done
  | |- writes_reply false (called _) => apply writes_reply_called
  | |- writes_reply _ (emit _) => apply writes_reply_emit
  | |- writes_reply _ (netconf_invalid_value _ _) => apply writes_reply_emit
  | |- writes_reply _ (netconf_operation_failed _ _) => apply writes_reply_emit
  | |- writes_reply _ (netconf_bad_attribute _ _ _) => apply writes_reply_emit
  | |- writes_reply _ (hbind _ (fun _ => goto_ok)) => apply writes_reply_then_ok
  | |- writes_reply _ (hbind _ _) => apply writes_reply_bind; [|intros ?]
  | |- writes_reply _ (match ?x with _ => _ end) => destruct x
  end.

Lemma writes_reply_nacm_and_reply (b : bool) (h : clicon_handle) (xret : cxobj)
      (xvec : list xpath_handle) (username : option string) (depth : Z) :
  writes_reply b (get_nacm_and_reply h xret xvec username depth).
Proof. unfold get_nacm_and_reply. repeat reply_step. Qed.

Lemma writes_reply_element2value (h : clicon_handle) (xe : cxobj) (name defaultstr : string) :
  writes_reply false (element2value h xe name defaultstr).
Proof. unfold element2value, netconf_parse_uint32. repeat reply_step. Qed.

Lemma writes_reply_pagination_rest (b : bool) (h : clicon_handle) (xe : xnode) (depth : Z)
      (xpath : option string) (nsc : option cvec) (username : option string)
      (xret : cxobj) :
  writes_reply b
    (run xret <- or_done (with_defaults (option_map xn_self (xml_parent xe)) xret);
     run xvec <- or_done (h_xpath_vec h xret nsc (xpath_or_root xpath));
     get_nacm_and_reply h (filter_xpath_again xret (Some xvec)) xvec username depth).
Proof. repeat reply_step. apply writes_reply_nacm_and_reply. Qed.

Lemma writes_reply_get_list_pagination (h : clicon_handle) (ce_id : Z) (xe : xnode)
      (content : netconf_content) (db : string) (depth : Z) (xpath : option string)
      (nsc : option cvec) (username : option string) :
  writes_reply true (get_list_pagination h ce_id xe content db depth xpath nsc username).
Proof.
  unfold get_list_pagination.
  apply writes_reply_bind; [apply writes_reply_or_done|]. intros [y|].
  2: repeat reply_step.
  destruct (negb (yang_keyword_eqb (ys_keyword y) Y_LIST)
            && negb (yang_keyword_eqb (ys_keyword y) Y_LEAF_LIST)).
  1: repeat reply_step.
  apply writes_reply_bind; [repeat reply_step|]. intros _.
  apply writes_reply_bind; [apply writes_reply_element2value|]. intros [ret offset].
  apply writes_reply_bind.
  { destruct (negb (ret =? 0)); [apply writes_reply_element2value | apply writes_reply_ret]. }
  intros [ret' limit].
  apply writes_reply_bind; [repeat reply_step|]. intros xret.
  apply writes_reply_bind; [repeat reply_step|]. intros xret'.
  apply writes_reply_pagination_rest.
Qed.

Lemma writes_reply_get_common_tail (h : clicon_handle) (xe : xnode)
      (content : netconf_content) (xpath : option string) (nsc : option cvec)
      (username : option string) (depth : Z) (xret : cxobj) :
  writes_reply true (get_common_tail h xe content xpath nsc username depth xret).
Proof.
  unfold get_common_tail.
  apply writes_reply_bind; [apply writes_reply_or_done|]. intros xret1.
  apply writes_reply_bind; [repeat reply_step|]. intros _.
  apply writes_reply_bind; [apply writes_reply_or_done|]. intros xvec.
  apply writes_reply_nacm_and_reply.
Qed.

Lemma writes_reply_get_common (h : clicon_handle) (ce_id : Z) (xe : xnode)
      (content : netconf_content) (db : string) :
  writes_reply true (get_common h ce_id xe content db).
Proof.
  unfold get_common. destruct (negb (h_dbspec_yang h)); [apply writes_reply_goto_done|].
  apply writes_reply_bind; [repeat reply_step|]. intros [xpath nsc].
  apply writes_reply_bind; [repeat reply_step|]. intros depth.
  destruct (xml_find_type_node xe "list-pagination" CX_ELMNT) as [xfind|].
  - apply writes_reply_then_ok. apply writes_reply_get_list_pagination.
  - apply writes_reply_bind; [repeat reply_step|]. intros xret.
    apply writes_reply_bind; [repeat reply_step|]. intros [xret'|].
    + apply writes_reply_get_common_tail.
    + apply writes_reply_goto_done.
Qed.

(** X19.  No get or get-config request ends with retval 0 and nothing to
    send: the handler only ever appends to the reply buffer, and whenever it
    returns 0 it has appended something, be it the data reply or an error. *)
Theorem get_common_reply_on_success (h : clicon_handle) (ce_id : Z) (xe : xnode)
        (content : netconf_content) (db : string) (st : hstate) :
  exists rest,
    cbret (snd (finish (get_common h ce_id xe content db) st)) = cbret st ++ rest /\
    (fst (finish (get_common h ce_id xe content db) st) = 0 -> rest <> []).
Proof.
  destruct (writes_reply_get_common h ce_id xe content db st) as (rest & Hc & Hr).
  exists rest. unfold finish.
  destruct (get_common h ce_id xe content db st) as [[u|r] st']; cbn [fst snd] in *.
  - split; [exact Hc | intros _; now apply Hr].
  - split; [exact Hc | exact Hr].
Qed.

(** X20.  An offset that is no number does not end a list-pagination request
    on a config list.  The bad-element error is written, the limit is not
    looked at, and the handler goes on: it reads the datastore once, with the
    XPath of the request without any pagination predicate, and answers from
    it.  Whenever it then returns 0, the reply buffer holds the error
    followed by more output: a second error or a whole data reply. *)
Theorem get_list_pagination_invalid_offset (h : clicon_handle) (ce_id : Z) (xe : xnode)
        (content : netconf_content) (db : string) (depth : Z) (xpath : option string)
        (nsc : option cvec) (username : option string) (st : hstate)
        (y : yang_stmt) (xoff : cxobj) (valstr : string) :
  h_yang_path_arg h (xpath_or_root xpath) = Some (Some y) ->
  ys_keyword y = Y_LIST \/ ys_keyword y = Y_LEAF_LIST ->
  ys_config_ancestor y = true ->
  content <> CONTENT_NONCONFIG ->
  xml_find_type (xn_self xe) "offset" CX_ELMNT = Some xoff ->
  xml_body_of xoff = Some valstr ->
  valstr <> "none" ->
  h_parse_uint32 h valstr = None ->
  exists rest,
    calls (snd (finish (get_list_pagination h ce_id xe content db depth xpath nsc username)
                       st))
    = calls st ++ [ev_xmldb_get0 db (Some (xpath_or_root xpath))] /\
    cbret (snd (finish (get_list_pagination h ce_id xe content db depth xpath nsc username)
                       st))
    = cbret st ++ rpc_error "bad-element" "application" "offset" "Unrecognized value"
                  :: rest /\
    (fst (finish (get_list_pagination h ce_id xe content db depth xpath nsc username) st) = 0
     -> rest <> []).
Proof.
  intros Hpath Hkw Hcfg Hcontent Hfind Hbody Hnone Hparse.
  assert (Hkw' : negb (yang_keyword_eqb (ys_keyword y) Y_LIST)
                 && negb (yang_keyword_eqb (ys_keyword y) Y_LEAF_LIST) = false).
  { destruct Hkw as [-> | ->]; reflexivity. }
  set (s1 := {| cbret := cbret st ++ [rpc_error "bad-element" "application" "offset"
                                                 "Unrecognized value"];
                calls := calls st |}).
  assert (Hoff : element2value h (xn_self xe) "offset" "none" st = (Next (0, 0), s1)).
  { unfold element2value, netconf_parse_uint32.
    rewrite Hfind, Hbody, (strcmp_neq Hnone), Hparse. reflexivity. }
  assert (Hfin : forall (m : handler unit),
             adds_calls [ev_xmldb_get0 db (Some (xpath_or_root xpath))] m ->
             writes_reply true m ->
             exists rest,
               calls (snd (finish m s1))
               = calls st ++ [ev_xmldb_get0 db (Some (xpath_or_root xpath))] /\
               cbret (snd (finish m s1))
               = cbret st ++ rpc_error "bad-element" "application" "offset"
                                       "Unrecognized value" :: rest /\
               (fst (finish m s1) = 0 -> rest <> [])).
  { intros m Hc Hw. specialize (Hc s1). destruct (Hw s1) as (rest & Hb & Hr).
    exists rest. unfold finish. destruct (m s1) as [[u|r] st']; cbn [fst snd] in *.
    - split; [exact Hc|]. split; [|intros _; now apply Hr].
      rewrite Hb. unfold s1. cbn [cbret]. now rewrite <- app_assoc.
    - split; [exact Hc|]. split; [|exact Hr].
      rewrite Hb. unfold s1. cbn [cbret]. now rewrite <- app_assoc. }
  assert (Hunfold :
            finish (get_list_pagination h ce_id xe content db depth xpath nsc username) st
            = finish
                (run xret <-
                   (run _ <- called (ev_xmldb_get0 db (Some (xpath_or_root xpath)));
                    match h_xmldb_get0 h db nsc (Some (xpath_or_root xpath)) with
                    | Some xret => hret xret
                    | None =>
                        run _ <- netconf_operation_failed "application"
                                   ("Get " ++ db ++ " datastore: " ++ h_err_reason h);
                        goto_ok
                    end);
                 run xret <- hret xret;
                 run xret <- or_done (with_defaults (option_map xn_self (xml_parent xe)) xret);
                 run xvec <- or_done (h_xpath_vec h xret nsc (xpath_or_root xpath));
                 get_nacm_and_reply h (filter_xpath_again xret (Some xvec)) xvec
                                    username depth) s1).
  { unfold finish, get_list_pagination. rewrite Hpath. cbn [or_done].
    unfold hbind at 1. cbn [hret]. rewrite Hkw', Hcfg.
    destruct content; [|contradiction|];
      unfold hbind at 1; cbn [hret]; unfold hbind at 1; rewrite Hoff;
      cbn [Z.eqb negb]; unfold hbind at 1; cbn [hret]; reflexivity. }
  rewrite Hunfold. apply Hfin.
  - apply adds_calls_bind.
    + apply adds_calls_called. repeat calls_step.
    + intros xret. apply keeps_calls_bind; [repeat calls_step|]. intros xret'.
      apply keeps_calls_pagination_rest.
  - apply writes_reply_bind; [repeat reply_step|]. intros xret.
    apply writes_reply_bind; [apply writes_reply_ret|]. intros xret'.
    apply writes_reply_pagination_rest.
Qed.

Lemma adds_calls_exit (A B : Type) (l : list event) (m : handler A) (k : A -> handler B) :
  always_exits m -> adds_calls l m -> adds_calls l (hbind m k).
Proof.
  intros He Hm st. unfold hbind. specialize (Hm st).
  destruct (He st) as (r & st' & E). rewrite E in *. exact Hm.
Qed.

(** X21.  With CLICON_VALIDATE_STATE_XML on, a request for content all or
    nonconfig without list pagination reads the whole running datastore: the
    one datastore read is of running with no XPath, whatever datastore and
    XPath the request names.  When that read succeeds the state-data
    callbacks are called once, with the XPath of the request; when it fails
    they are not called, and the operation-failed error names the datastore
    of the request. *)
Theorem get_common_validate_reads_running (h : clicon_handle) (ce_id : Z) (xe : xnode)
        (content : netconf_content) (db : string) (st : hstate) :
  h_dbspec_yang h = true ->
  h_option_bool h "CLICON_VALIDATE_STATE_XML" = true ->
  content <> CONTENT_CONFIG ->
  xml_find_node xe "filter" = None ->
  xml_find_value (xn_self xe) "depth" = None ->
  xml_find_type_node xe "list-pagination" CX_ELMNT = None ->
  (h_xmldb_get0 h "running" None None <> None ->
   calls (snd (finish (get_common h ce_id xe content db) st))
   = calls st ++ [ev_xmldb_get0 "running" None; ev_statedata "/"]) /\
  (h_xmldb_get0 h "running" None None = None ->
   finish (get_common h ce_id xe content db) st
   = (0, {| cbret := cbret st ++ [rpc_error "operation-failed" "application" ""
                                            ("Get " ++ db ++ " datastore: " ++ h_err_reason h)];
            calls := calls st ++ [ev_xmldb_get0 "running" None] |})).
Proof.
  intros Hy Hval Hcontent Hf Hd Hp. split.
  - intros Hread. rewrite finish_calls. unfold get_common.
    rewrite Hy, Hf, Hd, Hp, Hval. cbn [negb]. unfold hbind at 1. cbn [hret].
    unfold hbind at 1. cbn [hret xpath_or_root].
    destruct (h_xmldb_get0 h "running" None None) as [xret0|] eqn:E; [|contradiction].
    assert (Hgoal : forall m : handler unit,
               adds_calls [ev_statedata "/"] m ->
               calls (snd ((run xret <- (run _ <- called (ev_xmldb_get0 "running" None);
                                         hret (Some xret0));
                            (fun st => m st)) st))
               = calls st ++ [ev_xmldb_get0 "running" None; ev_statedata "/"]).
    { intros m Hm. unfold hbind, called, hret. rewrite Hm. cbn [calls].
      now rewrite <- app_assoc. }
    destruct content; [contradiction| |];
      (apply (Hgoal (fun st => _)); apply adds_calls_bind;
       [apply adds_calls_called; repeat calls_step
       |intros [xret'|]; [apply keeps_calls_get_common_tail | intros s; reflexivity]]).
  - intros Hread. unfold finish, get_common.
    rewrite Hy, Hf, Hd, Hp, Hval. cbn [negb]. unfold hbind at 1. cbn [hret].
    unfold hbind at 1. cbn [hret].
    destruct content; [contradiction| |]; unfold hbind, called; rewrite Hread; reflexivity.
Qed.

(** ** With-defaults: explicit *)

Lemma xml_apply_reset_children (x : cxobj) (flag : Z) :
  x_childvec (xml_apply x CX_ELMNT (applyfn_flag_reset flag))
  = map (fun c => if is_type CX_ELMNT c
                  then xml_apply c CX_ELMNT (applyfn_flag_reset flag) else c)
        (x_childvec x).
Proof.
  destruct x as [t n p v f s cs]. cbn [xml_apply x_childvec].
  destruct (cxobj_type_eqb t CX_ELMNT); cbn; rewrite ?app_nil_r; reflexivity.
Qed.

Lemma xml_apply_reset_keeps (x : cxobj) (flag : Z) :
  x_name (xml_apply x CX_ELMNT (applyfn_flag_reset flag)) = x_name x /\
  x_spec (xml_apply x CX_ELMNT (applyfn_flag_reset flag)) = x_spec x /\
  x_type (xml_apply x CX_ELMNT (applyfn_flag_reset flag)) = x_type x.
Proof.
  destruct x as [t n p v f s cs]. cbn [xml_apply].
  destruct (cxobj_type_eqb t CX_ELMNT); cbn; repeat split.
Qed.

Lemma xml_non_config_data_children (x : cxobj) :
  x_childvec (xml_non_config_data x)
  = map (fun c => if is_type CX_ELMNT c then
                    match x_spec c with
                    | None => c
                    | Some y => if ys_config y then xml_non_config_data c
                                else xml_flag_set c XML_FLAG_MARK
                    end
                  else c) (x_childvec x).
Proof. destruct x. reflexivity. Qed.

Lemma prune_flags_children (x : cxobj) (flags mask : Z) :
  x_childvec (xml_tree_prune_flags x flags mask)
  = flat_map (prune_child flags mask) (x_childvec x).
Proof. destruct x. now rewrite prune_flags_unfold. Qed.

Lemma prune_flagged_sub_keeps_marked (x c : cxobj) (flag : Z) :
  In c (x_childvec x) -> is_type CX_ELMNT c = true -> xml_flag c flag <> 0 ->
  In c (x_childvec (fst (xml_tree_prune_flagged_sub x flag))).
Proof.
  destruct x as [t n p v f s cs]. cbn [x_childvec xml_tree_prune_flagged_sub].
  intros Hin Hty Hfl.
  match goal with
  | |- In c (x_childvec (fst (let '(cs', mark) := ?F cs in _))) => set (each := F)
  end.
  assert (H : In c (fst (each cs))).
  { clear -Hin Hty Hfl. induction cs as [|a cs IH]; [destruct Hin|].
    change (each (a :: cs))
      with (let '(rest', m) := each cs in
            if is_type CX_ELMNT a then
              if negb (xml_flag a flag =? 0) then (a :: rest', true)
              else
                let '(c', submark) := xml_tree_prune_flagged_sub a flag in
                if submark then (c' :: rest', true) else (rest', m)
            else (a :: rest', m)).
    destruct Hin as [-> | Hin].
    - destruct (each cs) as [rest' m]. rewrite Hty.
      apply Z.eqb_neq in Hfl. rewrite Hfl. cbn. now left.
    - specialize (IH Hin). destruct (each cs) as [rest' m]. cbn [fst] in IH.
      destruct (is_type CX_ELMNT a); [|cbn; now right].
      destruct (negb (xml_flag a flag =? 0)); [cbn; now right|].
      destruct (xml_tree_prune_flagged_sub a flag) as [c' submark].
      destruct submark; cbn; [now right | exact IH]. }
  destruct (each cs) as [cs' mark]. exact H.
Qed.

Lemma flag_mark_default_after_set (f : Z) :
  (Z.land (Z.lor f XML_FLAG_MARK) (Z.lor XML_FLAG_MARK XML_FLAG_DEFAULT) =? XML_FLAG_DEFAULT)
  = false.
Proof.
  apply Z.eqb_neq. intros H.
  assert (Hbit : Z.testbit (Z.land (Z.lor f XML_FLAG_MARK)
                                   (Z.lor XML_FLAG_MARK XML_FLAG_DEFAULT)) 0
                 = Z.testbit XML_FLAG_DEFAULT 0) by now rewrite H.
  rewrite Z.land_spec, Z.lor_spec in Hbit. cbn in Hbit.
  rewrite orb_true_r in Hbit. discriminate.
Qed.

(** X22.  In mode explicit the MARK that with_defaults puts on state data is
    left behind.  A top-level element of the tree whose schema node is
    config false comes out of with_defaults still there and with MARK set,
    whatever its DEFAULT flag; the filter that follows therefore keeps it
    even when the XPath has selected nothing. *)
Theorem with_defaults_explicit_leaves_mark (xe wd xret c : cxobj) (y : yang_stmt) :
  xml_find xe "with-defaults" = Some wd ->
  xml_find_value wd "body" = Some "explicit" ->
  In c (x_childvec xret) ->
  is_type CX_ELMNT c = true ->
  x_spec c = Some y ->
  ys_config y = false ->
  exists xret' c',
    with_defaults (Some xe) xret = Some xret' /\
    In c' (x_childvec xret') /\
    x_name c' = x_name c /\
    xml_flag c' XML_FLAG_MARK <> 0 /\
    exists c'',
      In c'' (x_childvec (filter_xpath_again xret' (Some []))) /\ x_name c'' = x_name c.
Proof.
  intros Hfind Hbody Hin Hty Hspec Hcfg.
  set (reset := fun c => if is_type CX_ELMNT c
                         then xml_apply c CX_ELMNT (applyfn_flag_reset XML_FLAG_MARK)
                         else c).
  set (c1 := xml_apply c CX_ELMNT (applyfn_flag_reset XML_FLAG_MARK)).
  set (c2 := xml_flag_set c1 XML_FLAG_MARK).
  set (c3 := xml_tree_prune_flags c2 XML_FLAG_DEFAULT (Z.lor XML_FLAG_MARK XML_FLAG_DEFAULT)).
  destruct (xml_apply_reset_keeps c XML_FLAG_MARK) as (Hn1 & Hs1 & Ht1). fold c1 in Hn1, Hs1, Ht1.
  assert (Hty1 : is_type CX_ELMNT c1 = true) by (unfold is_type; now rewrite Ht1).
  assert (Hn2 : x_name c2 = x_name c) by (unfold c2; destruct c1; exact Hn1).
  assert (Hty2 : is_type CX_ELMNT c2 = true) by (unfold c2; destruct c1; exact Hty1).
  assert (Hm2 : xml_flag c2 XML_FLAG_MARK = 1).
  { unfold c2, xml_flag, xml_flag_set. destruct c1. cbn. apply flag_mark_after_set. }
  assert (Hmd2 : (xml_flag c2 (Z.lor XML_FLAG_MARK XML_FLAG_DEFAULT) =? XML_FLAG_DEFAULT)
                 = false).
  { unfold c2, xml_flag, xml_flag_set. destruct c1. cbn [x_flags with_flags].
    apply flag_mark_default_after_set. }
  assert (Hn3 : x_name c3 = x_name c) by (unfold c3; now rewrite prune_flags_name).
  assert (Hty3 : is_type CX_ELMNT c3 = true) by (unfold c3; now rewrite prune_flags_is_type).
  assert (Hm3 : xml_flag c3 XML_FLAG_MARK = 1).
  { unfold c3, xml_flag. rewrite prune_flags_flags. exact Hm2. }
  set (xret' := xml_tree_prune_flags
                  (xml_non_config_data
                     (xml_apply xret CX_ELMNT (applyfn_flag_reset XML_FLAG_MARK)))
                  XML_FLAG_DEFAULT (Z.lor XML_FLAG_MARK XML_FLAG_DEFAULT)).
  assert (Hin3 : In c3 (x_childvec xret')).
  { unfold xret'. rewrite prune_flags_children. apply in_flat_map. exists c2. split.
    - rewrite xml_non_config_data_children. apply in_map_iff. exists c1. split.
      + rewrite Hty1, Hs1, Hspec, Hcfg. reflexivity.
      + rewrite xml_apply_reset_children. apply in_map_iff. exists c. split; [|exact Hin].
        now rewrite Hty.
    - unfold prune_child. rewrite Hty2, Hmd2. now left. }
  exists xret', c3. split.
  { unfold with_defaults. rewrite Hfind, Hbody. reflexivity. }
  split; [exact Hin3|]. split; [exact Hn3|]. split; [rewrite Hm3; discriminate|].
  exists (reset c3). split.
  - unfold filter_xpath_again. cbn [fold_left].
    rewrite xml_apply_reset_children. apply in_map. 
    destruct (xml_flag xret' XML_FLAG_MARK =? 0); [|exact Hin3].
    apply prune_flagged_sub_keeps_marked; [exact Hin3 | exact Hty3|].
    rewrite Hm3. discriminate.
  - unfold reset. rewrite Hty3.
    destruct (xml_apply_reset_keeps c3 XML_FLAG_MARK) as (-> & _ & _). exact Hn3.
Qed.

(** ** Predicates with a number *)

(** X23.  A predicate whose expression is the number literal d, applied to
    the node-set the preceding predicates gave: when the int cast of d is k
    (d cut towards zero), the result is the member at position k counted
    from 0, alone, or the empty node-set when k is negative or there is no
    such member.  When d has no int cast (NaN, an infinity, a value outside
    int) and there is a node to test, the cast is undefined. *)
Theorem xp_eval_predicate_number (sscanf_lf : string -> option float)
        (ev0 : option evaluation) (d : float) (nsc : option cvec)
        (xc xc1 xr0 : xp_ctx) :
  match ev0 with Some ev => ev xc | None => Ok (xc, ctx_dup xc) end = Ok (xc1, xr0) ->
  xc_type xr0 = XT_NODESET ->
  (forall k, double2int d = Ok k ->
             xp_eval_predicate ev0 (Some (xp_eval sscanf_lf (xs_number d) nsc)) xc
             = Ok (xc1,
                   set_nodeset (set_node (ctx_new XT_NODESET (xc_initial xc1)) (xc_node xc1))
                               (if 0 <=? k
                                then match nth_error (xc_nodeset xr0) (Z.to_nat k) with
                                     | Some x => [x]
                                     | None => []
                                     end
                                else []))) /\
  (double2int d = Crash -> xc_nodeset xr0 <> [] ->
   xp_eval_predicate ev0 (Some (xp_eval sscanf_lf (xs_number d) nsc)) xc = Crash).
Proof.
  intros H0 Hty. unfold xp_eval_predicate. rewrite H0. cbn [bind]. rewrite Hty.
  cbn [xp_objtype_eqb negb]. split.
  - intros k Hk. rewrite (@predicate_loop_number sscanf_lf d k nsc (xc_initial xc1) Hk).
    cbn [bind app]. now rewrite Z.sub_0_r.
  - intros Hcrash Hne. destruct (xc_nodeset xr0) as [|x rest]; [contradiction|].
    cbn [predicate_loop]. rewrite xp_eval_number.
    cbn [bind xc_type set_number ctx_new xc_number]. rewrite Hcrash. reflexivity.
Qed.

(** * The properties above at sample inputs *)

Lemma nodetest_recursive_filter_witness :
  exists vec,
    nodetest_recursive (at_root doc_top) (Some (nt_named "c")) CX_ELMNT 0 None [] = Ok vec /\
    map xml_name vec = ["c"].
Proof.
  eexists. split.
  - apply (@nodetest_recursive_filter (nt_named "c") None 0 (at_root doc_top) [] eq_refl).
  - reflexivity.
Defined.

Lemma xp_eval_step_descendant_witness :
  exists xr,
    xp_eval_step None (ctx_init (at_root doc_top)) (D_axis A_DESCENDANT_OR_SELF)
                 (Some nt_any) None = Ok xr /\
    map xml_name (xc_nodeset xr) = ["a"; "b"; "c"].
Proof.
  eexists. split.
  - apply (proj1 (@xp_eval_step_descendant None A_DESCENDANT_OR_SELF nt_any None
                    (ctx_init (at_root doc_top)) (or_intror eq_refl) eq_refl)).
  - reflexivity.
Defined.

Lemma xp_eval_step_child_witness :
  exists xr,
    xp_eval_step None (ctx_init (at_root doc_top)) (D_axis A_CHILD)
                 (Some (nt_named "b")) None = Ok xr /\
    xc_nodeset xr = [doc_top_b].
Proof.
  eexists. split.
  - apply (proj1 (@xp_eval_step_child None (nt_named "b") None
                    (ctx_init (at_root doc_top)) eq_refl eq_refl eq_refl)).
  - reflexivity.
Defined.

Lemma xp_eval_rellocpath_two_steps_witness :
  selected_names
    (xp_eval no_scan
       (XS XP_RELLOCPATH (D_axis A_DESCENDANT_OR_SELF) 0%float None None
           (Some (xs_step A_CHILD (Some (nt_named "b")) (Some xs_nopred)))
           (Some (xs_step A_CHILD (Some nt_any) (Some xs_nopred))))
       None (ctx_init (at_root (elem "r" [doc_top]))))
  = Ok ["c"].
Proof.
  rewrite (proj1 (@xp_eval_rellocpath_two_steps no_scan (nt_named "b") nt_any
                    (Some xs_nopred) (Some xs_nopred) None
                    (ctx_init (at_root (elem "r" [doc_top]))) 0%float None None
                    eq_refl eq_refl eq_refl eq_refl eq_refl)).
  reflexivity.
Defined.

Lemma xp_eval_child_then_parent_witness :
  selected_names
    (xp_eval no_scan
       (XS XP_RELLOCPATH (D_axis A_NAN) 0%float None None
           (Some (xs_step A_CHILD (Some nt_any) (Some xs_nopred)))
           (Some (xs_step A_PARENT None (Some xs_nopred))))
       None (ctx_init (at_root doc_top)))
  = Ok ["top"; "top"].
Proof.
  rewrite (@xp_eval_child_then_parent no_scan nt_any None (Some xs_nopred) (Some xs_nopred)
             None (ctx_init (at_root doc_top)) 0%float None None
             eq_refl eq_refl eq_refl eq_refl eq_refl).
  reflexivity.
Defined.

Lemma xp_eval_step_unimplemented_axis_witness :
  xp_eval_step None (ctx_init (at_root doc_top)) (D_axis A_SELF) (Some (nt_named "nosuch")) None
  = Ok (ctx_init (at_root doc_top)).
Proof.
  apply (@xp_eval_step_unimplemented_axis None A_SELF (Some (nt_named "nosuch")) None
           (ctx_init (at_root doc_top)) eq_refl).
Defined.

Lemma xp_eval_predicate_narrows_witness :
  exists xc' xr,
    xp_eval_predicate None (Some (xp_eval no_scan (xs_number 1%float) None))
                      (ctx_nodes [doc_top_a; doc_top_b]) = Ok (xc', xr) /\
    xc_nodeset xr = [doc_top_b] /\
    subseq (xc_nodeset xr) [doc_top_a; doc_top_b].
Proof.
  do 2 eexists. split; [reflexivity|]. split; [reflexivity|].
  destruct (@xp_eval_predicate_narrows None (xp_eval no_scan (xs_number 1%float) None)
              (ctx_nodes [doc_top_a; doc_top_b]) _ _ eq_refl)
    as (xr0 & E & _ & Hsub & _).
  injection E as <-. exact Hsub.
Defined.

Lemma xp_relop_scalars_witness :
  xp_relop no_scan (ctx_number 1%float) (ctx_number 2%float) (D_op XO_LT)
  = Ok (ctx_bool None false) /\
  xp_relop no_scan (ctx_number 1%float) (ctx_string "1") (D_op XO_EQ) = Err.
Proof.
  split.
  - assert (H1 : xc_type (ctx_number 1%float) <> XT_NODESET) by discriminate.
    assert (H2 : xc_type (ctx_number 2%float) <> XT_NODESET) by discriminate.
    exact (proj2 (proj2 (@xp_relop_scalars no_scan _ _ H1 H2)) eq_refl eq_refl (D_op XO_LT)).
  - assert (H1 : xc_type (ctx_number 1%float) <> XT_NODESET) by discriminate.
    assert (H2 : xc_type (ctx_string "1") <> XT_NODESET) by discriminate.
    assert (H3 : xc_type (ctx_number 1%float) <> xc_type (ctx_string "1")) by discriminate.
    exact (proj1 (proj2 (@xp_relop_scalars no_scan _ _ H1 H2)) H3 (D_op XO_EQ)).
Defined.

Lemma xp_relop_mirror_witness :
  relop_bool (xp_relop no_scan (ctx_number 1%float) (ctx_nodes [doc_top_a]) (D_op XO_LT))
  = relop_bool (xp_relop no_scan (ctx_nodes [doc_top_a]) (ctx_number 1%float) (D_op XO_GT)).
Proof.
  assert (H2 : xc_type (ctx_number 1%float) <> XT_NODESET) by discriminate.
  exact (@xp_relop_mirror no_scan (ctx_nodes [doc_top_a]) (ctx_number 1%float) (D_op XO_LT)
           eq_refl H2).
Defined.

Lemma xp_relop_nodeset_string_witness :
  xp_relop no_scan (ctx_nodes [doc_top_b; doc_top_a]) (ctx_string "1") (D_op XO_EQ)
  = Ok (ctx_bool None true).
Proof.
  exact (proj1 (@xp_relop_nodeset_string no_scan (ctx_nodes [doc_top_b; doc_top_a])
                  (ctx_string "1") eq_refl eq_refl)).
Defined.

Lemma xp_relop_nodesets_witness :
  xp_relop no_scan (ctx_nodes [doc_top_a]) (ctx_nodes [doc_top_a]) (D_op XO_LE)
  = Ok (ctx_bool None true).
Proof.
  exact (@xp_relop_nodesets no_scan (ctx_nodes [doc_top_a]) (ctx_nodes [doc_top_a]) XO_LE
           eq_refl eq_refl eq_refl eq_refl eq_refl).
Defined.

Lemma xp_eval_binary_witness :
  xp_eval no_scan
          (XS XP_AND (D_op XO_OR) 0%float None None
              (Some (xs_number 1%float))
              (Some (xs_leaf XP_PRIME_FN (D_axis A_NAN) (Some "true") None)))
          None (ctx_init (at_root doc_top)) = Crash.
Proof.
  rewrite (proj1 (@xp_eval_binary no_scan XP_AND (D_op XO_OR) 0%float None None
                    (xs_number 1%float)
                    (xs_leaf XP_PRIME_FN (D_axis A_NAN) (Some "true") None)
                    None (ctx_init (at_root doc_top)) xp_logop eq_refl)).
  reflexivity.
Defined.

Lemma xp_eval_frame_witness :
  exists xc' xr,
    xp_eval no_scan (xs_dslash xs_child_any) None (ctx_init doc_top_a) = Ok (xc', xr) /\
    ctx_frame (ctx_init doc_top_a) xc' /\
    ctx_moved (ctx_init doc_top_a) xc' /\
    xc_initial xr = Some doc_top_a.
Proof.
  do 2 eexists. split; [reflexivity|].
  apply (@xp_eval_frame no_scan (xs_dslash xs_child_any) None (ctx_init doc_top_a) _ _ eq_refl).
Defined.

Lemma xp_eval_abspath_caller_context_witness :
  exists xc' xr,
    xp_eval no_scan xs_slash None (ctx_init doc_top_a) = Ok (xc', xr) /\
    xc_node xc' = Some (at_root doc_top) /\ xc_nodeset xc' = [at_root doc_top].
Proof.
  do 2 eexists. split; [reflexivity|].
  destruct (@xp_eval_abspath_caller_context no_scan (D_axis A_ROOT) 0%float None None
              None None None (ctx_init doc_top_a) _ _ eq_refl)
    as (x0 & E & Hn & Hs & _).
  injection E as <-. split; [exact Hn | exact Hs].
Defined.

Lemma get_common_bad_parameter_witness :
  finish (get_common h_sample 1 req_bad_depth CONTENT_ALL "running") st0
  = (0, {| cbret := [rpc_error "bad-attribute" "application" "depth"
                               "Unrecognized value of depth attribute"];
           calls := [] |}).
Proof.
  exact (proj2 (@get_common_bad_parameter h_sample 1 req_bad_depth CONTENT_ALL "running" st0
                  eq_refl) "x" I eq_refl eq_refl).
Defined.

Lemma get_common_nonconfig_calls_witness :
  calls (snd (finish (get_common h_sample 1 (at_root (elem "get" [])) CONTENT_NONCONFIG
                                 "running") st0))
  = [ev_statedata "/"].
Proof.
  destruct (@get_common_nonconfig_calls h_sample 1 (at_root (elem "get" [])) "running" st0
              eq_refl) as [H | (e & _ & H)].
  - discriminate H.
  - reflexivity.
Defined.

Lemma get_list_pagination_state_list_witness :
  calls (snd (finish (get_list_pagination h_state 7 req_page_inner CONTENT_NONCONFIG
                                          "running" (-1) (Some "/l") None None) st0))
  = [ev_pagination_cb (Some "/l") true 3 2].
Proof.
  exact (proj1 (@get_list_pagination_state_list h_state 7 req_page_inner "running" (-1)
                  (Some "/l") None None st0 (list_schema "l" false) 3 2
                  eq_refl (or_introl eq_refl) eq_refl eq_refl eq_refl)).
Defined.

Lemma get_list_pagination_invalid_offset_witness :
  exists rest,
    calls (snd (finish (get_list_pagination h_sample 1 req_bad_offset CONTENT_CONFIG
                                            "running" (-1) (Some "/l") None None) st0))
    = [ev_xmldb_get0 "running" (Some "/l")] /\
    cbret (snd (finish (get_list_pagination h_sample 1 req_bad_offset CONTENT_CONFIG
                                            "running" (-1) (Some "/l") None None) st0))
    = rpc_error "bad-element" "application" "offset" "Unrecognized value" :: rest /\
    rest <> [].
Proof.
  assert (Hc : CONTENT_CONFIG <> CONTENT_NONCONFIG) by discriminate.
  assert (Hn : "x" <> "none") by discriminate.
  destruct (@get_list_pagination_invalid_offset h_sample 1 req_bad_offset CONTENT_CONFIG
              "running" (-1) (Some "/l") None None st0 (list_schema "l" true)
              (elem "offset" [text "x"]) "x"
              eq_refl (or_introl eq_refl) eq_refl Hc eq_refl eq_refl Hn eq_refl)
    as (rest & H1 & H2 & H3).
  exists rest. split; [exact H1|]. split; [exact H2|]. apply H3. reflexivity.
Defined.

Lemma get_common_validate_reads_running_witness :
  calls (snd (finish (get_common h_validate 1 (at_root (elem "get" [])) CONTENT_ALL
                                 "candidate") st0))
  = [ev_xmldb_get0 "running" None; ev_statedata "/"].
Proof.
  assert (Hc : CONTENT_ALL <> CONTENT_CONFIG) by discriminate.
  assert (Hr : h_xmldb_get0 h_validate "running" None None <> None) by discriminate.
  exact (proj1 (@get_common_validate_reads_running h_validate 1 (at_root (elem "get" []))
                  CONTENT_ALL "candidate" st0 eq_refl eq_refl Hc eq_refl eq_refl eq_refl)
               Hr).
Defined.

Lemma with_defaults_explicit_leaves_mark_witness :
  exists xret' c'',
    with_defaults (Some req_explicit) doc_state = Some xret' /\
    In c'' (x_childvec (filter_xpath_again xret' (Some []))) /\ x_name c'' = "s".
Proof.
  destruct (@with_defaults_explicit_leaves_mark req_explicit
              (elem "with-defaults" [text "explicit"]) doc_state
              (Cx CX_ELMNT "s" None None XML_FLAG_DEFAULT
                  (Some {| ys_keyword := Y_CONTAINER; ys_argument := "s"; ys_cv := None;
                           ys_config := false; ys_config_ancestor := false |}) [])
              {| ys_keyword := Y_CONTAINER; ys_argument := "s"; ys_cv := None;
                 ys_config := false; ys_config_ancestor := false |}
              eq_refl eq_refl (or_introl eq_refl) eq_refl eq_refl eq_refl)
    as (xret' & c' & Hwd & _ & _ & _ & c'' & Hin & Hn).
  exists xret', c''. split; [exact Hwd|]. split; [exact Hin | exact Hn].
Defined.

Lemma xp_eval_predicate_number_witness :
  xp_eval_predicate None (Some (xp_eval no_scan (xs_number (-0.5)%float) None))
                    (ctx_nodes [doc_top_a; doc_top_b])
  = Ok (ctx_nodes [doc_top_a; doc_top_b], ctx_nodes [doc_top_a]).
Proof.
  exact (proj1 (@xp_eval_predicate_number no_scan None (-0.5)%float None
                  (ctx_nodes [doc_top_a; doc_top_b]) _ _ eq_refl eq_refl) 0 eq_refl).
Defined.
